(** * GuestDiana: the libvirt guest of tmt's [diana] provision plugin

    A shallow embedding of [tmt/steps/provision/diana.py].  The guest object
    is a record, its methods are computations in a state-and-exception
    monad, and everything the methods do to the outside world (processes
    spawned with [subprocess.run], [time.sleep], the answer file, the
    logger, the inherited SSH-guest methods) is recorded in a trace and
    answered by an environment that sees the whole history. *)

From Stdlib Require Import String Ascii List ZArith Bool Arith Lia DecimalString.
Import ListNotations.

Local Open Scope string_scope.
Local Open Scope list_scope.

(** ** Python strings and sequences

    A [str] is modelled as a [string] whose characters are code points below
    256.  The line boundaries and white space of that range are the ones
    [str.splitlines] and [str.split] use. *)

Module Py.

Definition chr (n : nat) : ascii := ascii_of_nat n.

Definition LF : ascii := chr 10.
Definition CR : ascii := chr 13.

Definition code_in (c : ascii) (codes : list nat) : bool :=
  existsb (Nat.eqb (nat_of_ascii c)) codes.

(** Line boundaries of [str.splitlines]: LF, VT, FF, CR, FS, GS, RS, NEL. *)
Definition is_linebreak (c : ascii) : bool :=
  code_in c [10; 11; 12; 13; 28; 29; 30; 133].

(** [str.isspace] on one character. *)
Definition isspace (c : ascii) : bool :=
  code_in c [9; 10; 11; 12; 13; 28; 29; 30; 31; 32; 133; 160].

Definition snoc (s : string) (c : ascii) : string := (s ++ String c "")%string.

Definition is_empty (s : string) : bool :=
  match s with EmptyString => true | String _ _ => false end.

(** [cur] is the line read so far; CR LF counts as one boundary; a last
    line without terminator is kept when it is not empty. *)
Fixpoint splitlines_from (cur s : string) : list string :=
  match s with
  | EmptyString => if is_empty cur then [] else [cur]
  | String c rest =>
      if is_linebreak c then
        cur :: match rest with
               | String c' rest' =>
                   if Ascii.eqb c CR && Ascii.eqb c' LF
                   then splitlines_from "" rest'
                   else splitlines_from "" rest
               | EmptyString => splitlines_from "" rest
               end
      else splitlines_from (snoc cur c) rest
  end.

(** [s.splitlines()] *)
Definition splitlines (s : string) : list string := splitlines_from "" s.

Definition flush (cur : string) : list string :=
  if is_empty cur then [] else [cur].

Fixpoint split_from (cur s : string) : list string :=
  match s with
  | EmptyString => flush cur
  | String c rest =>
      if isspace c then flush cur ++ split_from "" rest
      else split_from (snoc cur c) rest
  end.

(** [s.split()]: fields separated by runs of white space. *)
Definition split (s : string) : list string := split_from "" s.

Fixpoint split_on_from (sep : ascii) (cur s : string) : list string :=
  match s with
  | EmptyString => [cur]
  | String c rest =>
      if Ascii.eqb c sep then cur :: split_on_from sep "" rest
      else split_on_from sep (snoc cur c) rest
  end.

(** [s.split(sep)] for a one-character separator. *)
Definition split_on (sep : ascii) (s : string) : list string :=
  split_on_from sep "" s.

Fixpoint rev_string (s : string) : string :=
  match s with
  | EmptyString => EmptyString
  | String c rest => snoc (rev_string rest) c
  end.

Fixpoint lstrip_char (ch : ascii) (s : string) : string :=
  match s with
  | EmptyString => EmptyString
  | String c rest => if Ascii.eqb c ch then lstrip_char ch rest else s
  end.

(** [s.rstrip(ch)] for a one-character argument. *)
Definition rstrip_char (ch : ascii) (s : string) : string :=
  rev_string (lstrip_char ch (rev_string s)).

(** [l[i]], negative indices counting from the end; [None] stands for
    the [IndexError]. *)
Definition index {A : Type} (l : list A) (i : Z) : option A :=
  let n := Z.of_nat (List.length l) in
  let j := if (i <? 0)%Z then (i + n)%Z else i in
  if ((0 <=? j) && (j <? n))%Z then nth_error l (Z.to_nat j) else None.

(** [os.path.basename]: what follows the last slash. *)
Definition basename (p : string) : string :=
  last (split_on "/"%char p) "".

(** [dir / name] of [pathlib]. *)
Definition path_join (dir name : string) : string :=
  (dir ++ "/" ++ name)%string.

(** Truth value of an [Optional] object, of a list and of a dict. *)
Definition truthy_opt {A : Type} (o : option A) : bool :=
  match o with Some _ => true | None => false end.

Definition truthy_list {A : Type} (l : list A) : bool :=
  match l with [] => false | _ :: _ => true end.

End Py.

(** ** Data model *)

(** The fields of [DianaGuestData] and the inherited [GuestSshData] fields
    the methods read or assign.  [guest] is the address, [key] the list of
    private key files.  [workdir] and [opt_dry] (the value of
    [self.opt('dry')]) come from the base classes, which live outside this
    file.  An attribute [_instance] is read by [reboot] and is declared and
    assigned nowhere in the file: the handle has no such field. *)
Record GuestDiana := {
  connection_uri : option string;
  location : option string;
  user : option string;
  instance_name : option string;
  hardware : option (list (string * string));
  kickstart : list (string * string);
  guest : option string;
  port : option Z;
  key : list string;
  workdir : string;
  opt_dry : bool
}.

Definition set_instance_name (v : option string) (g : GuestDiana) : GuestDiana :=
  {| connection_uri := connection_uri g; location := location g; user := user g;
     instance_name := v; hardware := hardware g; kickstart := kickstart g;
     guest := guest g; port := port g; key := key g; workdir := workdir g;
     opt_dry := opt_dry g |}.

Definition set_guest (v : option string) (g : GuestDiana) : GuestDiana :=
  {| connection_uri := connection_uri g; location := location g; user := user g;
     instance_name := instance_name g; hardware := hardware g;
     kickstart := kickstart g; guest := v; port := port g; key := key g;
     workdir := workdir g; opt_dry := opt_dry g |}.

Definition set_port (v : option Z) (g : GuestDiana) : GuestDiana :=
  {| connection_uri := connection_uri g; location := location g; user := user g;
     instance_name := instance_name g; hardware := hardware g;
     kickstart := kickstart g; guest := guest g; port := v; key := key g;
     workdir := workdir g; opt_dry := opt_dry g |}.

Definition set_key (v : list string) (g : GuestDiana) : GuestDiana :=
  {| connection_uri := connection_uri g; location := location g; user := user g;
     instance_name := instance_name g; hardware := hardware g;
     kickstart := kickstart g; guest := guest g; port := port g; key := v;
     workdir := workdir g; opt_dry := opt_dry g |}.

(** Exceptions.  [ProvisionError] keeps the text of its message and, for the
    f-string that interpolates a caught [CalledProcessError], the exit status
    and the command of that error. *)
Inductive exn :=
| CalledProcessError (returncode : Z) (cmd : list string)
| IndexError
| TypeError
| AssertionError
| UnboundLocalError (name : string)
| ProvisionError (message : string) (error : option (Z * list string))
| AttributeError (name : string)
| CollaboratorError (what : string).

Inductive result (A : Type) :=
| Ok (a : A)
| Raise (e : exn).
Arguments Ok {A} a.
Arguments Raise {A} e.

Inductive log_level := Verbose | Info.

(** What a method does to the world outside the guest object. *)
Inductive event :=
| Run (argv : list string)
| Sleep (seconds : Z)
| FileOpen (path : string)
| FileWrite (path data : string)
| Log (level : log_level) (key value color : string)
| SshIsReady
| SshStop
| SshReboot (hard : bool) (command : string)
| SshReconnect (timeout tick : option Z).

Record CompletedProcess := { returncode : Z; stdout : string }.

(** The environment answers every external call from the history of the
    calls made so far.  [env_process] is the process spawned by
    [subprocess.run]; the others are [self._tmt_name()] and the methods
    inherited from [tmt.GuestSsh]. *)
Record env := {
  env_process : list event -> list string -> CompletedProcess;
  env_tmt_name : list event -> string;
  env_is_ready : list event -> GuestDiana -> result bool;
  env_stop : list event -> GuestDiana -> result unit;
  env_reboot : list event -> GuestDiana -> bool -> string -> result bool;
  env_reconnect : list event -> GuestDiana -> option Z -> option Z -> result bool
}.

Record state := { self : GuestDiana; trace : list event }.

Definition record_event (ev : event) (st : state) : state :=
  {| self := self st; trace := trace st ++ [ev] |}.

(** ** The monad of methods: state and exceptions *)

Definition M (A : Type) : Type := state -> result A * state.

Definition ret {A : Type} (a : A) : M A := fun st => (Ok a, st).

Definition raise {A : Type} (e : exn) : M A := fun st => (Raise e, st).

Definition bind {A B : Type} (m : M A) (k : A -> M B) : M B :=
  fun st =>
    match m st with
    | (Ok a, st') => k a st'
    | (Raise e, st') => (Raise e, st')
    end.

Notation "x <- m ;; k" := (bind m (fun x => k))
  (at level 61, m at next level, right associativity).
Notation "m ;; k" := (bind m (fun _ => k))
  (at level 61, right associativity).

(** [try: body except <clause>: handler]; the clause answers [None] for an
    exception it does not catch. *)
Definition try_except {A : Type} (body : M A) (clause : exn -> option (M A)) : M A :=
  fun st =>
    match body st with
    | (Ok a, st') => (Ok a, st')
    | (Raise e, st') =>
        match clause e with
        | Some handler => handler st'
        | None => (Raise e, st')
        end
    end.

(** [except subprocess.CalledProcessError as e] *)
Definition except_CalledProcessError {A : Type} (handler : exn -> M A)
  : exn -> option (M A) :=
  fun e => match e with
           | CalledProcessError _ _ => Some (handler e)
           | _ => None
           end.

Definition get_self : M GuestDiana := fun st => (Ok (self st), st).

Definition modify_self (f : GuestDiana -> GuestDiana) : M unit :=
  fun st => (Ok tt, {| self := f (self st); trace := trace st |}).

Definition emit (ev : event) : M unit := fun st => (Ok tt, record_event ev st).

(** [l[i]] raising [IndexError] *)
Definition getitem {A : Type} (l : list A) (i : Z) : M A :=
  fun st =>
    match Py.index l i with
    | Some a => (Ok a, st)
    | None => (Raise IndexError, st)
    end.

(** An index expression whose [IndexError] is [None]. *)
Definition subscript {A : Type} (o : option A) : M A :=
  match o with
  | Some a => ret a
  | None => raise IndexError
  end.

(** [out.splitlines()[-2].split()[-1].split('/')[0]] of [get_guest_ip] *)
Definition parse_domifaddr (out : string) : option string :=
  match Py.index (Py.splitlines out) (-2) with
  | None => None
  | Some line =>
      match Py.index (Py.split line) (-1) with
      | None => None
      | Some field => Py.index (Py.split_on "/" field) 0
      end
  end.

(** Reading a local name that may be unbound. *)
Definition raise_name {A : Type} (name : string) (bound : option exn) : M A :=
  match bound with
  | Some e => raise e
  | None => raise (UnboundLocalError name)
  end.

Definition assert_ (b : bool) : M unit :=
  if b then ret tt else raise AssertionError.

Definition sleep (seconds : Z) : M unit := emit (Sleep seconds).

Definition verbose (key value color : string) : M unit :=
  emit (Log Verbose key value color).

Definition info (key value color : string) : M unit :=
  emit (Log Info key value color).

Definition file_open (path : string) : M unit := emit (FileOpen path).

Definition file_write (path data : string) : M unit := emit (FileWrite path data).

(** The argument list handed to [subprocess.run] holds [Optional] fields: a
    [None] among them is a [TypeError] raised before any process starts. *)
Fixpoint all_strings (argv : list (option string)) : option (list string) :=
  match argv with
  | [] => Some []
  | None :: _ => None
  | Some a :: rest =>
      match all_strings rest with
      | Some l => Some (a :: l)
      | None => None
      end
  end.

Definition nl : string := String Py.LF "".

Definition dict_get (k : string) (d : list (string * string)) : option string :=
  match find (fun kv => String.eqb (fst kv) k) d with
  | Some kv => Some (snd kv)
  | None => None
  end.

(** Jinja prints [None] as the word and an undefined item as nothing. *)
Definition render_attr (o : option string) : string :=
  match o with Some s => s | None => "None" end.

Definition render_item (k : string) (d : list (string * string)) : string :=
  match dict_get k d with Some s => s | None => "" end.

Definition KICKSTART_TEMPLATE (g : GuestDiana) (ssh_pubkey : string) : string :=
  String.concat nl
    [ "";
      "# partitioning";
      "clearpart --all --initlabel";
      "autopart";
      "";
      "# accounts";
      "rootpw rootoor";
      ("sshkey --username '" ++ render_attr (user g) ++ "' '" ++ ssh_pubkey ++ "'")%string;
      "";
      "reboot";
      "";
      "# packages";
      "%packages";
      "%end";
      "";
      "# scripts";
      "%post";
      "source /etc/os-release";
      "%end";
      "";
      "# user provided data";
      render_item "script" (kickstart g);
      render_item "pre-install" (kickstart g);
      render_item "post-install" (kickstart g) ].

(** The [cmd] list of [_install]; [ksfile] is the name of the answer file. *)
Definition virt_install_cmd (g : GuestDiana) (ksfile : string) : list (option string) :=
  [ Some "virt-install";
    Some "--connect"; connection_uri g;
    Some "--name"; instance_name g;
    Some "--memory"; Some "4096";
    Some "--vcpus"; Some "4";
    Some "--graphics"; Some "none";
    Some "--extra-args";
    Some ("console=ttyS0 inst.ks=file://" ++ Py.basename ksfile)%string;
    Some "--initrd-inject"; Some ksfile;
    Some "--noreboot";
    Some "--location"; location g ].

Definition str_int (z : Z) : string := NilZero.string_of_int (Z.to_int z).

Definition str_opt_int (o : option Z) : string :=
  match o with Some z => str_int z | None => "None" end.

Definition DEFAULT_CONNECT_TIMEOUT : Z := 60.
Definition DEFAULT_USER : string := "root".

(** ** The methods of [GuestDiana] *)

Section Methods.

Variable E : env.

(** [subprocess.run(argv, check=...)]: with [check], a non-zero exit status
    raises [CalledProcessError] once the process has run. *)
Definition subprocess_run (argv : list (option string)) (check : bool)
  : M CompletedProcess :=
  fun st =>
    match all_strings argv with
    | None => (Raise TypeError, st)
    | Some av =>
        let r := env_process E (trace st) av in
        let st' := record_event (Run av) st in
        if check && negb (returncode r =? 0)%Z
        then (Raise (CalledProcessError (returncode r) av), st')
        else (Ok r, st')
    end.

(** Inherited collaborators and framework calls. *)
Definition _tmt_name : M string :=
  fun st => (Ok (env_tmt_name E (trace st)), st).

Definition super_is_ready : M bool :=
  fun st => (env_is_ready E (trace st) (self st), record_event SshIsReady st).

Definition super_stop : M unit :=
  fun st => (env_stop E (trace st) (self st), record_event SshStop st).

Definition super_reboot (hard : bool) (command : string) : M bool :=
  fun st => (env_reboot E (trace st) (self st) hard command,
             record_event (SshReboot hard command) st).

Definition reconnect (timeout tick : option Z) : M bool :=
  fun st => (env_reconnect E (trace st) (self st) timeout tick,
             record_event (SshReconnect timeout tick) st).

(** [_virsh]: every caller leaves [check] at its default [True]. *)
Definition _virsh (args : list (option string)) : M CompletedProcess :=
  g <- get_self ;;
  subprocess_run ([Some "virsh"; Some "-c"; connection_uri g] ++ args) true.

Definition guest_state : M string :=
  g <- get_self ;;
  r <- _virsh [Some "domstate"; instance_name g] ;;
  getitem (Py.splitlines (stdout r)) 0.

Definition is_ready : M bool :=
  s <- guest_state ;;
  if negb (String.eqb s "running") then ret false
  else super_is_ready.

(** The body of the [try] in [get_guest_ip]. *)
Definition get_guest_ip_try : M string :=
  g <- get_self ;;
  r <- _virsh [Some "domifaddr"; instance_name g] ;;
  subscript (parse_domifaddr (stdout r)).

(** [for i in range(n)] of [get_guest_ip], followed by [raise e].  The
    name [e] is bound by [except ... as e] and unbound again when the
    handler is left, so the loop carries no value for it into the next
    round or past its end. *)
Fixpoint get_guest_ip_range (n : nat) (e : option exn) : M string :=
  match n with
  | O => raise_name "e" e
  | S n' =>
      try_except get_guest_ip_try
        (except_CalledProcessError (fun _ =>
           sleep 1 ;;
           get_guest_ip_range n' None))
  end.

Definition get_guest_ip : M string := get_guest_ip_range 10 None.

Definition _generate_ssh_key : M unit :=
  g <- get_self ;;
  if Py.truthy_list (key g) then ret tt
  else
    modify_self (set_key [Py.path_join (workdir g) "ssh_key"]) ;;
    g <- get_self ;;
    key0 <- getitem (key g) 0 ;;
    subprocess_run
      [Some "ssh-keygen"; Some "-f"; Some key0; Some "-N"; Some ""] true ;;
    ret tt.

Definition ssh_pubkey : M string :=
  _generate_ssh_key ;;
  g <- get_self ;;
  key0 <- getitem (key g) 0 ;;
  r <- subprocess_run
         [Some "ssh-keygen"; Some "-y"; Some "-f"; Some key0] false ;;
  ret (Py.rstrip_char Py.LF (stdout r)).

(** Rendering the template reads the [ssh_pubkey] property. *)
Definition _kickstart : M string :=
  pubkey <- ssh_pubkey ;;
  g <- get_self ;;
  ret (KICKSTART_TEMPLATE g pubkey).

Definition _install : M unit :=
  exists_ <- try_except (guest_state ;; ret true)
               (except_CalledProcessError (fun _ => ret false)) ;;
  if (exists_ : bool) then ret tt
  else
    g <- get_self ;;
    let hardware_ := hardware g in
    verbose "progress" "preparing for installation..." "cyan" ;;
    let ksfile := Py.path_join (workdir g) "ks.cfg" in
    file_open ksfile ;;
    text <- _kickstart ;;
    file_write ksfile text ;;
    g <- get_self ;;
    let cmd := virt_install_cmd g ksfile in
    assert_ (negb (match hardware_ with
                   | Some d => Py.truthy_list d
                   | None => false
                   end)) ;;
    info "progress" "installing..." "cyan" ;;
    subprocess_run cmd true ;;
    ret tt.

Definition start : M unit :=
  name <- _tmt_name ;;
  modify_self (set_instance_name (Some name)) ;;
  verbose "instance_name" name "yellow" ;;
  g <- get_self ;;
  if opt_dry g then ret tt
  else
    try_except _install
      (fun error =>
         match error with
         | CalledProcessError rc cmd =>
             Some (raise (ProvisionError
                            "Failed to install OS on a libvirt guest ({error})."
                            (Some (rc, cmd))))
         | _ => None
         end) ;;
    s <- guest_state ;;
    (if negb (String.eqb s "running")
     then g <- get_self ;; _virsh [Some "start"; instance_name g] ;; ret tt
     else ret tt) ;;
    ip <- get_guest_ip ;;
    modify_self (set_guest (Some ip)) ;;
    modify_self (set_port (Some 22%Z)) ;;
    g <- get_self ;;
    verbose "ip" (render_attr (guest g)) "green" ;;
    verbose "port" (str_opt_int (port g)) "green" ;;
    let time_coeff := 1%Z in
    ok <- reconnect (Some (DEFAULT_CONNECT_TIMEOUT * time_coeff)%Z) (Some 1%Z) ;;
    if negb ok
    then raise (ProvisionError
                  ("Failed to connect in "
                   ++ str_int (DEFAULT_CONNECT_TIMEOUT * time_coeff) ++ "s.")%string
                  None)
    else ret tt.

Definition stop : M unit :=
  super_stop ;;
  g <- get_self ;;
  _virsh [Some "shutdown"; instance_name g] ;;
  info "guest" "stopped" "green".

(** [for i in range(n)] of [remove]: leave on "shut off", else sleep. *)
Fixpoint remove_range (n : nat) : M unit :=
  match n with
  | O => ret tt
  | S n' =>
      s <- guest_state ;;
      if String.eqb s "shut off" then ret tt
      else sleep 1 ;; remove_range n'
  end.

Definition remove : M unit :=
  s <- guest_state ;;
  (if negb (String.eqb s "shut off")
   then
     g <- get_self ;;
     _virsh [Some "destroy"; instance_name g] ;;
     remove_range 10
   else ret tt) ;;
  g <- get_self ;;
  _virsh [Some "undefine"; Some "--remove-all-storage"; Some "--nvram";
          Some "--tpm"; instance_name g] ;;
  info "guest" "removed" "green".

(** [self._instance]: no class of the file declares the attribute and no
    method assigns it; the base classes, outside this file, are taken not to
    supply it, so the read finds nothing on the object. *)
Definition read__instance : M (option string) :=
  raise (AttributeError "_instance").

(** [tick] and [tick_increase] are accepted and not used. *)
Definition reboot (hard : bool) (command : option string) (timeout : option Z)
  : M bool :=
  match command with
  | Some c => super_reboot hard c
  | None =>
      instance <- read__instance ;;
      if negb (Py.truthy_opt instance)
      then raise (ProvisionError "No instance initialized." None)
      else reconnect timeout None
  end.

End Methods.

(** ** The address as the specification words it

    "The last-but-one output line's final whitespace-delimited field,
    stripped of any subnet-prefix suffix"; to be compared with
    [parse_domifaddr]. *)

Definition spec_last_but_one {A : Type} (l : list A) : option A :=
  nth_error (rev l) 1.

Definition spec_final {A : Type} (l : list A) : option A :=
  nth_error (rev l) 0.

(** The field up to its first slash. *)
Fixpoint spec_strip_subnet (field : string) : string :=
  match field with
  | EmptyString => EmptyString
  | String c rest =>
      if Ascii.eqb c "/" then EmptyString else String c (spec_strip_subnet rest)
  end.

Definition spec_resolved_address (out : string) : option string :=
  match spec_last_but_one (Py.splitlines out) with
  | None => None
  | Some line =>
      match spec_final (Py.split line) with
      | None => None
      | Some field => Some (spec_strip_subnet field)
      end
  end.

(** No white space in a field. *)
Fixpoint no_space (s : string) : bool :=
  match s with
  | EmptyString => true
  | String c rest => negb (Py.isspace c) && no_space rest
  end.

(** ** Reading a trace *)

Definition program (ev : event) : option string :=
  match ev with
  | Run (prog :: _) => Some prog
  | _ => None
  end.

(** The sub-command of a [virsh -c URI SUBCOMMAND ...] invocation. *)
Definition virsh_subcommand (ev : event) : option string :=
  match ev with
  | Run (prog :: _ :: _ :: sub :: _) =>
      if String.eqb prog "virsh" then Some sub else None
  | _ => None
  end.

Definition is_install (ev : event) : bool :=
  match program ev with
  | Some prog => String.eqb prog "virt-install"
  | None => false
  end.

Definition is_virsh (sub : string) (ev : event) : bool :=
  match virsh_subcommand ev with
  | Some s => String.eqb s sub
  | None => false
  end.

(** [ssh-keygen -f FILE -N ''], the generation of a key pair. *)
Definition is_keygen (ev : event) : bool :=
  match ev with
  | Run (prog :: flag :: _) => String.eqb prog "ssh-keygen" && String.eqb flag "-f"
  | _ => false
  end.

Definition count (p : event -> bool) (tr : list event) : nat :=
  List.length (filter p tr).

Definition is_query (sub : string) : bool :=
  String.eqb sub "domstate" || String.eqb sub "domifaddr".

(** The hypervisor commands of a trace other than its queries, in order. *)
Definition hypervisor_commands (tr : list event) : list string :=
  flat_map (fun ev => match virsh_subcommand ev with
                      | Some sub => if is_query sub then [] else [sub]
                      | None => []
                      end) tr.

Definition virsh_argv (uri : string) (args : list string) : list string :=
  "virsh" :: "-c" :: uri :: args.

Definition domstate_argv (uri name : string) : list string :=
  virsh_argv uri ["domstate"; name].

Definition domifaddr_argv (uri name : string) : list string :=
  virsh_argv uri ["domifaddr"; name].

Definition undefine_argv (uri name : string) : list string :=
  virsh_argv uri ["undefine"; "--remove-all-storage"; "--nvram"; "--tpm"; name].

Definition destroy_argv (uri name : string) : list string :=
  virsh_argv uri ["destroy"; name].

Definition shutdown_argv (uri name : string) : list string :=
  virsh_argv uri ["shutdown"; name].

(** [j] rounds of a query [q] each followed by a one-second sleep. *)
Fixpoint rounds (q : list string) (j : nat) : list event :=
  match j with
  | O => []
  | S j' => Run q :: Sleep 1 :: rounds q j'
  end.

(** The domain state a successful [domstate] query reports. *)
Definition reported_state (r : CompletedProcess) : option string :=
  Py.index (Py.splitlines (stdout r)) 0.

(** What the hypervisor would answer to a [domstate] query made after the
    history [tr]: the state, or [None] when the query fails or prints
    nothing. *)
Definition state_at (E : env) (uri name : string) (tr : list event) : option string :=
  let r := env_process E tr (domstate_argv uri name) in
  if (returncode r =? 0)%Z then reported_state r else None.

(** What the hypervisor would answer to a [domifaddr] query after [tr]. *)
Definition addr_at (E : env) (uri name : string) (tr : list event) : CompletedProcess :=
  env_process E tr (domifaddr_argv uri name).

Definition keygen_argv (key0 : string) : list string :=
  ["ssh-keygen"; "-f"; key0; "-N"; ""].

Definition pubkey_argv (key0 : string) : list string :=
  ["ssh-keygen"; "-y"; "-f"; key0].

(** [n] accesses of the [ssh_pubkey] property, whatever each of them gives. *)
Fixpoint pubkey_calls (E : env) (n : nat) (st : state) : state :=
  match n with
  | O => st
  | S n' => pubkey_calls E n' (snd (ssh_pubkey E st))
  end.

Definition hardware_given (g : GuestDiana) : bool :=
  match hardware g with
  | Some d => Py.truthy_list d
  | None => false
  end.

(** The state in which [_install] renders the kickstart: after the failed
    state query that left [st1], the progress line and the opening of the
    answer file. *)
Definition ks_path (g : GuestDiana) : string := Py.path_join (workdir g) "ks.cfg".

Definition before_kickstart (st1 : state) : state :=
  record_event (FileOpen (ks_path (self st1)))
    (record_event (Log Verbose "progress" "preparing for installation..." "cyan") st1).

(** A computation keeps a relation between the state it starts from and the
    state it leaves, whether it returns or raises. *)
Definition keeps {A : Type} (R : state -> state -> Prop) (m : M A) : Prop :=
  forall st, R st (snd (m st)).

(** Between the two states no field of the handle but [key] has changed,
    and the trace has grown by events that all satisfy [p]. *)
Definition only_adds (p : event -> bool) (s s' : state) : Prop :=
  self s' = set_key (key (self s')) (self s)
  /\ exists evs, trace s' = trace s ++ evs /\ forallb p evs = true.

Definition not_install (ev : event) : bool := negb (is_install ev).

Definition any_event (ev : event) : bool := true.

(** ** A mock hypervisor

    The domain is whatever the commands issued so far made of it. *)

Module Mock.

Inductive domain := NoDomain | ShutOff | Running.

Record config := {
  initial : domain;
  (** answers to the first [domifaddr] queries, in order *)
  addr_script : list CompletedProcess;
  (** whether [destroy] powers the domain off *)
  destroy_works : bool
}.

Definition step (c : config) (d : domain) (ev : event) : domain :=
  if is_install ev then match d with NoDomain => ShutOff | _ => d end
  else if is_virsh "start" ev then match d with ShutOff => Running | _ => d end
  else if is_virsh "destroy" ev then
    match d with
    | Running => if destroy_works c then ShutOff else Running
    | _ => d
    end
  else if is_virsh "undefine" ev then NoDomain
  else d.

Definition domain_of (c : config) (tr : list event) : domain :=
  fold_left (step c) tr (initial c).

Definition ok (out : string) : CompletedProcess :=
  {| returncode := 0; stdout := out |}.

Definition failed : CompletedProcess := {| returncode := 1; stdout := "" |}.

Definition domifaddr_table (address : string) : string :=
  String.concat nl
    [ " Name       MAC address          Protocol     Address";
      "-------------------------------------------------------------------------------";
      (" vnet0      52:54:00:8b:6f:4d    ipv4         " ++ address)%string;
      "";
      "" ].

Definition process (c : config) (tr : list event) (argv : list string)
  : CompletedProcess :=
  match virsh_subcommand (Run argv) with
  | Some sub =>
      if String.eqb sub "domstate" then
        match domain_of c tr with
        | NoDomain => failed
        | ShutOff => ok ("shut off" ++ nl ++ nl)
        | Running => ok ("running" ++ nl ++ nl)
        end
      else if String.eqb sub "domifaddr" then
        nth (count (is_virsh "domifaddr") tr) (addr_script c)
            (ok (domifaddr_table "192.0.2.5/24"))
      else
        match domain_of c tr with
        | NoDomain => failed
        | _ => ok ""
        end
  | None =>
      match argv with
      | prog :: flag :: _ =>
          if String.eqb prog "ssh-keygen" && String.eqb flag "-y"
          then ok ("ssh-ed25519 AAAAC3NzaC1lZDI1NTE5 tmt" ++ nl)
          else ok ""
      | _ => ok ""
      end
  end.

Definition hypervisor (c : config) : env :=
  {| env_process := process c;
     env_tmt_name := fun _ => "tmt-001-abcdefgh";
     env_is_ready := fun _ _ => Ok true;
     env_stop := fun _ _ => Ok tt;
     env_reboot := fun _ _ _ _ => Ok true;
     env_reconnect := fun _ _ _ _ => Ok true |}.

(** A hypervisor that answers every state query with the same state and
    lets every other command succeed. *)
Definition always (state_ : string) : env :=
  {| env_process := fun _ argv =>
       if is_virsh "domstate" (Run argv) then ok (state_ ++ nl ++ nl) else ok "";
     env_tmt_name := fun _ => "tmt-001-abcdefgh";
     env_is_ready := fun _ _ => Ok true;
     env_stop := fun _ _ => Ok tt;
     env_reboot := fun _ _ _ _ => Ok true;
     env_reconnect := fun _ _ _ _ => Ok true |}.

Definition fresh : config :=
  {| initial := NoDomain; addr_script := []; destroy_works := true |}.

Definition handle : GuestDiana :=
  {| connection_uri := Some "qemu:///system";
     location := Some "http://example/os";
     user := Some DEFAULT_USER;
     instance_name := None;
     hardware := None;
     kickstart := [];
     guest := None;
     port := None;
     key := [];
     workdir := "/var/tmp/tmt/run-001/plan/provision/default-0";
     opt_dry := false |}.

Definition named (name : string) (g : GuestDiana) : GuestDiana :=
  set_instance_name (Some name) g.

(** The same handle with a hardware requirement, and with the dry-run
    option. *)
Definition constrained : GuestDiana :=
  {| connection_uri := Some "qemu:///system";
     location := Some "http://example/os";
     user := Some DEFAULT_USER;
     instance_name := Some "g1";
     hardware := Some [("memory", "2 GB")];
     kickstart := [];
     guest := None;
     port := None;
     key := [];
     workdir := "/var/tmp/tmt/run-001/plan/provision/default-0";
     opt_dry := false |}.

Definition dry : GuestDiana :=
  {| connection_uri := Some "qemu:///system";
     location := Some "http://example/os";
     user := Some DEFAULT_USER;
     instance_name := None;
     hardware := None;
     kickstart := [];
     guest := None;
     port := None;
     key := [];
     workdir := "/var/tmp/tmt/run-001/plan/provision/default-0";
     opt_dry := true |}.

(** A running domain whose first address queries get the answers [script]. *)
Definition running (script : list CompletedProcess) : config :=
  {| initial := Running; addr_script := script; destroy_works := true |}.

Definition begin (g : GuestDiana) : state := {| self := g; trace := [] |}.

End Mock.

(** ** Observations for the further properties *)

Fixpoint all_chars (p : ascii -> bool) (s : string) : bool :=
  match s with
  | EmptyString => true
  | String c rest => p c && all_chars p rest
  end.

Definition no_linebreak (s : string) : bool :=
  all_chars (fun c => negb (Py.is_linebreak c)) s.

Definition no_slash (s : string) : bool :=
  all_chars (fun c => negb (Ascii.eqb c "/")) s.

Fixpoint last_char (s : string) : option ascii :=
  match s with
  | EmptyString => None
  | String c EmptyString => Some c
  | String _ rest => last_char rest
  end.

Definition first_char (s : string) : option ascii :=
  match s with
  | EmptyString => None
  | String c _ => Some c
  end.

Definition is_sleep (ev : event) : bool :=
  match ev with Sleep _ => true | _ => false end.

Definition is_run (ev : event) : bool :=
  match ev with Run _ => true | _ => false end.

Definition is_reconnect (ev : event) : bool :=
  match ev with SshReconnect _ _ => true | _ => false end.

Definition is_file_write (ev : event) : bool :=
  match ev with FileWrite _ _ => true | _ => false end.

(** A computation adds at most [n] events that satisfy [q] to the trace,
    whether it returns or raises. *)
Definition within {A : Type} (q : event -> bool) (n : nat) (m : M A) : Prop :=
  forall st, count q (trace (snd (m st))) <= count q (trace st) + n.

(** The handle is the same in both states. *)
Definition unchanged (s s' : state) : Prop := self s' = self s.

(** The state of [start] once the instance name is assigned and logged. *)
Definition start_prelude (E : env) (st : state) : state :=
  let name := env_tmt_name E (trace st) in
  {| self := set_instance_name (Some name) (self st);
     trace := trace st ++ [Log Verbose "instance_name" name "yellow"] |}.

(** What [start] raises for an error that leaves [_install]: the
    [except] clause of [start] wraps a [CalledProcessError] and no other. *)
Definition install_error (e : exn) : exn :=
  match e with
  | CalledProcessError rc cmd =>
      ProvisionError "Failed to install OS on a libvirt guest ({error})."
        (Some (rc, cmd))
  | _ => e
  end.

(** The step of [start] between the state query and the address:
    [if self.guest_state != "running": self._virsh('start', ...)]. *)
Definition start_if_not_running (E : env) (s : string) : M unit :=
  if negb (String.eqb s "running")
  then g <- get_self ;; _virsh E [Some "start"; instance_name g] ;; ret tt
  else ret tt.

(** The state [start] is left in after the address [ip] was resolved in
    [s4]: address and port assigned, both logged, the reconnect made. *)
Definition start_connected (ip : string) (s4 : state) : state :=
  {| self := set_port (Some 22%Z) (set_guest (Some ip) (self s4));
     trace := trace s4 ++ [Log Verbose "ip" ip "green";
                           Log Verbose "port" "22" "green";
                           SshReconnect (Some 60%Z) (Some 1%Z)] |}.

Definition connect_failed : exn := ProvisionError "Failed to connect in 60s." None.

Definition virt_install_argv (uri name ksfile loc : string) : list string :=
  [ "virt-install"; "--connect"; uri; "--name"; name; "--memory"; "4096";
    "--vcpus"; "4"; "--graphics"; "none"; "--extra-args";
    "console=ttyS0 inst.ks=file://ks.cfg"; "--initrd-inject"; ksfile;
    "--noreboot"; "--location"; loc ].

(** Between the two states the handle is the same and the trace has grown
    by events that all satisfy [p]. *)
Definition adds (p : event -> bool) (s s' : state) : Prop :=
  self s' = self s
  /\ exists evs, trace s' = trace s ++ evs /\ forallb p evs = true.

(** An event that is no hypervisor command other than a query. *)
Definition quiet (ev : event) : bool :=
  match virsh_subcommand ev with
  | Some sub => is_query sub
  | None => true
  end.

(** An event that is neither a state query nor a sleep. *)
Definition no_poll (ev : event) : bool :=
  negb (is_virsh "domstate" ev) && negb (is_sleep ev).

(** A hypervisor without the domain on which [virt-install] fails. *)
Definition failing_install : env :=
  {| env_process := fun _ argv =>
       if is_install (Run argv) || is_virsh "domstate" (Run argv)
       then Mock.failed else Mock.ok "";
     env_tmt_name := fun _ => "tmt-001-abcdefgh";
     env_is_ready := fun _ _ => Ok true;
     env_stop := fun _ _ => Ok tt;
     env_reboot := fun _ _ _ _ => Ok true;
     env_reconnect := fun _ _ _ _ => Ok false |}.

(** The mock hypervisor with a guest that never answers on SSH. *)
Definition unreachable : env :=
  {| env_process := Mock.process Mock.fresh;
     env_tmt_name := fun _ => "tmt-001-abcdefgh";
     env_is_ready := fun _ _ => Ok false;
     env_stop := fun _ _ => Ok tt;
     env_reboot := fun _ _ _ _ => Ok false;
     env_reconnect := fun _ _ _ _ => Ok false |}.

(** The second handle has the configuration and the name of the first:
    every field but the address, the port and the key. *)
Definition same_config (g g' : GuestDiana) : Prop :=
  connection_uri g' = connection_uri g
  /\ location g' = location g
  /\ user g' = user g
  /\ instance_name g' = instance_name g
  /\ hardware g' = hardware g
  /\ kickstart g' = kickstart g
  /\ workdir g' = workdir g
  /\ opt_dry g' = opt_dry g.

(** A hypervisor that reports the domain as running and on which the
    command [sub] fails. *)
Definition refusing (sub : string) : env :=
  {| env_process := fun _ argv =>
       if is_virsh "domstate" (Run argv) then Mock.ok ("running" ++ nl ++ nl)
       else if is_virsh sub (Run argv) then Mock.failed
       else Mock.ok "";
     env_tmt_name := fun _ => "tmt-001-abcdefgh";
     env_is_ready := fun _ _ => Ok true;
     env_stop := fun _ _ => Ok tt;
     env_reboot := fun _ _ _ _ => Ok true;
     env_reconnect := fun _ _ _ _ => Ok true |}.

(** An address query or a sleep of one second. *)
Definition is_address_poll (ev : event) : bool :=
  is_virsh "domifaddr" ev
  || match ev with Sleep seconds => (seconds =? 1)%Z | _ => false end.

(** A hypervisor whose every command exits with 0 and prints nothing. *)
Definition silent : env :=
  {| env_process := fun _ _ => Mock.ok "";
     env_tmt_name := fun _ => "tmt-001-abcdefgh";
     env_is_ready := fun _ _ => Ok true;
     env_stop := fun _ _ => Ok tt;
     env_reboot := fun _ _ _ _ => Ok true;
     env_reconnect := fun _ _ _ _ => Ok true |}.

(** The history in which [remove] makes its confirmation poll number [j]
    (counted from 0): the history [tr] of the call, the first state query,
    the [destroy] and [j] polls that were each followed by a sleep. *)
Definition poll_history (uri name : string) (tr : list event) (j : nat) : list event :=
  tr ++ Run (domstate_argv uri name) :: Run (destroy_argv uri name)
     :: rounds (domstate_argv uri name) j.

(** Every confirmation poll that [remove] makes is answered: the poll [j]
    is made when no earlier poll reported "shut off". *)
Definition polls_answered (E : env) (uri name : string) (tr : list event) : Prop :=
  forall j,
    j < 10 ->
    (forall i, i < j ->
       state_at E uri name (poll_history uri name tr i) <> Some "shut off") ->
    state_at E uri name (poll_history uri name tr j) <> None.

(** No confirmation poll ever reports "shut off". *)
Definition never_shut_off (E : env) (uri name : string) (tr : list event) : Prop :=
  forall j,
    j < 10 -> state_at E uri name (poll_history uri name tr j) <> Some "shut off".

(** A hypervisor like the mock, on which [destroy] has no effect. *)
Definition stuck_running : Mock.config :=
  {| Mock.initial := Mock.Running; Mock.addr_script := [];
     Mock.destroy_works := false |}.
Example splitlines_ex :
  Py.splitlines ("a" ++ String Py.CR (String Py.LF ("b" ++ String Py.LF (String Py.LF ""))))
  = ["a"; "b"; ""].
Proof. reflexivity. Qed.

Example split_ex : Py.split "  a  bc d " = ["a"; "bc"; "d"].
Proof. reflexivity. Qed.

Example split_on_ex : Py.split_on "/" "192.0.2.5/24" = ["192.0.2.5"; "24"].
Proof. reflexivity. Qed.

Example rstrip_ex : Py.rstrip_char "x" "axbxx" = "axb".
Proof. reflexivity. Qed.

Example index_ex : Py.index [1; 2; 3] (-2) = Some 2 /\ Py.index [1] (-2) = None.
Proof. split; reflexivity. Qed.

(** ** The mock hypervisor runs the end-to-end scenarios *)

(** A fresh guest: install, boot, resolve the address, reconnect. *)
Example start_end_to_end :
  let '(r, s) := start (Mock.hypervisor Mock.fresh) (Mock.begin Mock.handle) in
  r = Ok tt
  /\ guest (self s) = Some "192.0.2.5"
  /\ port (self s) = Some 22%Z
  /\ fst (is_ready (Mock.hypervisor Mock.fresh) s) = Ok true
  /\ hypervisor_commands (trace s) = ["start"]
  /\ count is_install (trace s) = 1.
Proof. vm_compute. repeat split; reflexivity. Qed.

(** ** Dry run, reboot and readiness *)

(** C10: with the dry-run option set, [start] records the generated instance
    name, logs it and returns; nothing is installed, no hypervisor command,
    address query or reconnect probe is made, and the address, the port and
    the key of the handle are left as they were. *)
Theorem start_dry_run (E : env) (st : state) :
  opt_dry (self st) = true ->
  let name := env_tmt_name E (trace st) in
  start E st
  = (Ok tt,
     {| self := set_instance_name (Some name) (self st);
        trace := trace st ++ [Log Verbose "instance_name" name "yellow"] |})
  /\ guest (self (snd (start E st))) = guest (self st)
  /\ port (self (snd (start E st))) = port (self st)
  /\ key (self (snd (start E st))) = key (self st)
  /\ instance_name (self (snd (start E st))) = Some name.
Proof.
  intros Hdry name.
  assert (Hrun : start E st
                 = (Ok tt,
                    {| self := set_instance_name (Some name) (self st);
                       trace := trace st ++ [Log Verbose "instance_name" name "yellow"] |})).
  { unfold start, bind, _tmt_name, modify_self, verbose, emit, get_self,
      record_event; cbn.
    rewrite Hdry. reflexivity. }
  rewrite Hrun. cbn. repeat split; reflexivity.
Qed.

Lemma start_dry_run_witness :
  let g := Mock.dry in
  opt_dry g = true
  /\ trace (snd (start (Mock.hypervisor Mock.fresh) (Mock.begin g)))
     = [Log Verbose "instance_name" "tmt-001-abcdefgh" "yellow"].
Proof.
  split; [reflexivity |].
  match goal with
  | |- context [start ?E ?s] =>
      destruct (start_dry_run E s eq_refl) as [H _]; rewrite H
  end.
  reflexivity.
Defined.

(** C5: without a command of the caller, [reboot] reads [self._instance]
    for its instance check, an attribute the handle does not have: whatever
    the handle, whether started or not, it raises [AttributeError] and not
    the "No instance initialized." provisioning error; the trace is left as
    it was, no external call is made. *)
Theorem reboot_reads_missing_instance (E : env) (st : state) (hard : bool)
    (timeout : option Z) :
  reboot E hard None timeout st = (Raise (AttributeError "_instance"), st)
  /\ fst (reboot E hard None timeout st)
     <> Raise (ProvisionError "No instance initialized." None).
Proof. split; [reflexivity | discriminate]. Qed.

(** C7: [is_ready] gives [True] exactly when the domain-state query gives
    "running" and the inherited readiness property, read after that query,
    gives [True]. *)
Theorem is_ready_iff (E : env) (st : state) :
  fst (is_ready E st) = Ok true
  <-> fst (guest_state E st) = Ok "running"
      /\ fst (super_is_ready E (snd (guest_state E st))) = Ok true.
Proof.
  unfold is_ready, bind.
  destruct (guest_state E st) as [[s | e] st']; cbn [fst snd].
  - destruct (String.eqb_spec s "running") as [-> | Hne]; cbn [negb].
    + split; [intros H; split; [reflexivity | exact H] | intros [_ H]; exact H].
    + split.
      * unfold ret; cbn. discriminate.
      * intros [H _]. injection H as H. contradiction.
  - split; [discriminate | intros [H _]; discriminate].
Qed.

Lemma is_ready_iff_witness :
  let E := Mock.hypervisor {| Mock.initial := Mock.Running;
                               Mock.addr_script := [];
                               Mock.destroy_works := true |} in
  fst (is_ready E (Mock.begin (Mock.named "g1" Mock.handle))) = Ok true.
Proof.
  intros E. apply (is_ready_iff E). split; reflexivity.
Defined.

(** ** Stepping through a computation *)

Lemma bind_ok {A B : Type} (m : M A) (k : A -> M B) (st st' : state) (a : A) :
  m st = (Ok a, st') -> bind m k st = k a st'.
Proof. intros H. unfold bind. rewrite H. reflexivity. Qed.

Lemma bind_raise {A B : Type} (m : M A) (k : A -> M B) (st st' : state) (e : exn) :
  m st = (Raise e, st') -> bind m k st = (Raise e, st').
Proof. intros H. unfold bind. rewrite H. reflexivity. Qed.

Lemma get_self_run (st : state) : get_self st = (Ok (self st), st).
Proof. reflexivity. Qed.

Lemma modify_self_run (f : GuestDiana -> GuestDiana) (st : state) :
  modify_self f st = (Ok tt, {| self := f (self st); trace := trace st |}).
Proof. reflexivity. Qed.

Lemma _tmt_name_run (E : env) (st : state) :
  _tmt_name E st = (Ok (env_tmt_name E (trace st)), st).
Proof. reflexivity. Qed.

(** ** Running [virsh] *)

Lemma _virsh_run (E : env) (st : state) (uri : string)
    (args : list (option string)) (av : list string) :
  connection_uri (self st) = Some uri ->
  all_strings args = Some av ->
  _virsh E args st
  = (let r := env_process E (trace st) (virsh_argv uri av) in
     if (returncode r =? 0)%Z then Ok r
     else Raise (CalledProcessError (returncode r) (virsh_argv uri av)),
     record_event (Run (virsh_argv uri av)) st).
Proof.
  intros Huri Hargs.
  unfold _virsh, bind, get_self, subprocess_run. rewrite Huri.
  cbn [app all_strings]. rewrite Hargs. unfold virsh_argv. cbn [andb].
  destruct (returncode _ =? 0)%Z; reflexivity.
Qed.

Lemma guest_state_run (E : env) (st : state) (uri name : string) :
  connection_uri (self st) = Some uri ->
  instance_name (self st) = Some name ->
  guest_state E st
  = (let r := env_process E (trace st) (domstate_argv uri name) in
     if (returncode r =? 0)%Z then
       match reported_state r with
       | Some s => Ok s
       | None => Raise IndexError
       end
     else Raise (CalledProcessError (returncode r) (domstate_argv uri name)),
     record_event (Run (domstate_argv uri name)) st).
Proof.
  intros Huri Hname.
  unfold guest_state, bind, get_self. rewrite Hname.
  rewrite (_virsh_run E st uri [Some "domstate"; Some name] ["domstate"; name]
             Huri eq_refl).
  cbv zeta. fold (domstate_argv uri name).
  destruct (returncode _ =? 0)%Z; [| reflexivity].
  unfold getitem, reported_state.
  destruct (Py.index _ 0); reflexivity.
Qed.

Lemma guest_state_reported (E : env) (st : state) (uri name s : string) :
  connection_uri (self st) = Some uri ->
  instance_name (self st) = Some name ->
  state_at E uri name (trace st) = Some s ->
  guest_state E st = (Ok s, record_event (Run (domstate_argv uri name)) st).
Proof.
  intros Huri Hname Hs.
  rewrite (guest_state_run E st uri name Huri Hname). cbv zeta.
  unfold state_at in Hs.
  destruct (returncode _ =? 0)%Z; [| discriminate].
  rewrite Hs. reflexivity.
Qed.

(** ** Counting and filtering traces *)

Lemma count_app (p : event -> bool) (a b : list event) :
  count p (a ++ b) = count p a + count p b.
Proof.
  unfold count. rewrite filter_app, length_app. reflexivity.
Qed.

Lemma hypervisor_commands_app (a b : list event) :
  hypervisor_commands (a ++ b) = hypervisor_commands a ++ hypervisor_commands b.
Proof.
  unfold hypervisor_commands. apply flat_map_app.
Qed.

Lemma rounds_snoc (q : list string) (j : nat) :
  rounds q (S j) = rounds q j ++ [Run q; Sleep 1].
Proof.
  induction j as [| j IH]; [reflexivity |].
  cbn [rounds app]. rewrite <- IH. reflexivity.
Qed.

Lemma count_rounds_other (p : event -> bool) (q : list string) (j : nat) :
  p (Run q) = false -> p (Sleep 1) = false -> count p (rounds q j) = 0.
Proof.
  intros Hq Hs. induction j as [| j IH]; [reflexivity |].
  unfold count in *. cbn [rounds filter]. rewrite Hq, Hs. exact IH.
Qed.

Lemma hypervisor_commands_rounds (uri name : string) (j : nat) :
  hypervisor_commands (rounds (domstate_argv uri name) j) = [].
Proof.
  induction j as [| j IH]; [reflexivity |].
  cbn [rounds]. exact IH.
Qed.

(** ** Removal *)

Section Removal.

Variable E : env.
Variables uri name : string.

Lemma trace_two_events (st : state) (a b : event) :
  trace (record_event b (record_event a st)) = trace st ++ [a; b].
Proof.
  unfold record_event; cbn [trace]. rewrite <- app_assoc. reflexivity.
Qed.

(** The confirmation loop: [j] unsuccessful polls, each followed by a
    sleep, and either the rounds are used up or one more poll sees
    "shut off". *)
Lemma remove_range_polls (n : nat) :
  forall st,
    connection_uri (self st) = Some uri ->
    instance_name (self st) = Some name ->
    (forall j,
       j < n ->
       (forall i, i < j ->
          state_at E uri name (trace st ++ rounds (domstate_argv uri name) i)
          <> Some "shut off") ->
       state_at E uri name (trace st ++ rounds (domstate_argv uri name) j) <> None) ->
    exists j,
      (remove_range E n st
       = (Ok tt, {| self := self st; trace := trace st ++ rounds (domstate_argv uri name) j |})
       /\ j = n
       /\ forall i, i < n -> state_at E uri name (trace st ++ rounds (domstate_argv uri name) i) <> Some "shut off")
      \/
      (remove_range E n st
       = (Ok tt, {| self := self st; trace := trace st ++ rounds (domstate_argv uri name) j ++ [Run (domstate_argv uri name)] |})
       /\ j < n
       /\ state_at E uri name (trace st ++ rounds (domstate_argv uri name) j) = Some "shut off").
Proof.
  induction n as [| n IH]; intros st Huri Hname Hanswers.
  - exists 0. left. cbn [remove_range rounds]. rewrite app_nil_r.
    split; [destruct st; reflexivity |]. split; [reflexivity | intros i Hi; lia].
  - cbn [remove_range]. unfold bind.
    destruct (state_at E uri name (trace st)) as [s |] eqn:Hs.
    2:{ exfalso. apply (Hanswers 0 ltac:(lia)); [intros i Hi; lia |].
        cbn [rounds]. rewrite app_nil_r. exact Hs. }
    rewrite (guest_state_reported E st uri name s Huri Hname Hs).
    destruct (String.eqb_spec s "shut off") as [-> | Hne].
    + exists 0. right. cbn [rounds app]. rewrite app_nil_r.
      split; [reflexivity |]. split; [lia | exact Hs].
    + unfold sleep, emit, ret.
      set (st2 := record_event (Sleep 1) (record_event (Run (domstate_argv uri name)) st)).
      assert (Htr : trace st2 = trace st ++ [Run (domstate_argv uri name); Sleep 1])
        by apply trace_two_events.
      destruct (IH st2) as [j [[Hrun [Hj Hnever]] | [Hrun [Hj Hoff]]]].
      * exact Huri.
      * exact Hname.
      * intros j Hj Hprev. rewrite Htr, <- app_assoc.
        apply (Hanswers (S j) ltac:(lia)).
        intros [| i] Hi.
        -- cbn [rounds]. rewrite app_nil_r, Hs. intros Heq.
           injection Heq as Heq. contradiction.
        -- specialize (Hprev i ltac:(lia)).
           rewrite Htr, <- app_assoc in Hprev. exact Hprev.
      * exists (S j). left. rewrite Hrun, Htr, <- app_assoc.
        split; [reflexivity |]. split; [lia |].
        intros [| i] Hi.
        -- cbn [rounds]. rewrite app_nil_r, Hs. intros Heq.
           injection Heq as Heq. contradiction.
        -- specialize (Hnever i ltac:(lia)).
           rewrite Htr, <- app_assoc in Hnever. exact Hnever.
      * exists (S j). right. rewrite Hrun, Htr, <- app_assoc.
        split; [reflexivity |]. split; [lia |].
        rewrite Htr, <- app_assoc in Hoff. exact Hoff.
Qed.

(** The last step of [remove]: [undefine], then the log line when the
    command succeeded. *)
Lemma remove_finish (st : state) :
  connection_uri (self st) = Some uri ->
  instance_name (self st) = Some name ->
  exists r after,
    (g <- get_self ;;
     _virsh E [Some "undefine"; Some "--remove-all-storage"; Some "--nvram";
               Some "--tpm"; instance_name g] ;;
     info "guest" "removed" "green") st
    = (r, {| self := self st;
             trace := trace st ++ Run (undefine_argv uri name) :: after |})
    /\ (after = [] \/ after = [Log Info "guest" "removed" "green"]).
Proof.
  intros Huri Hname.
  unfold bind at 1. unfold get_self at 1. rewrite Hname. unfold bind.
  rewrite (_virsh_run E st uri
             [Some "undefine"; Some "--remove-all-storage"; Some "--nvram";
              Some "--tpm"; Some name]
             ["undefine"; "--remove-all-storage"; "--nvram"; "--tpm"; name]
             Huri eq_refl).
  cbv zeta. fold (undefine_argv uri name).
  destruct (returncode _ =? 0)%Z.
  - eexists; exists [Log Info "guest" "removed" "green"].
    split; [| right; reflexivity].
    unfold info, emit, record_event; cbn [self trace].
    rewrite <- app_assoc. reflexivity.
  - eexists; exists []. split; [| left; reflexivity]. reflexivity.
Qed.

End Removal.

(** The trace of a [remove] whose first state query is answered and, when
    the state is not "shut off", whose [destroy] succeeds and whose
    confirmation polls are answered. *)
Lemma remove_runs (E : env) (st : state) (uri name : string) :
  connection_uri (self st) = Some uri ->
  instance_name (self st) = Some name ->
  state_at E uri name (trace st) <> None ->
  (state_at E uri name (trace st) <> Some "shut off" ->
   returncode (env_process E (trace st ++ [Run (domstate_argv uri name)])
                 (destroy_argv uri name)) = 0%Z
   /\ polls_answered E uri name (trace st)) ->
  let q := domstate_argv uri name in
  exists polling after,
    trace (snd (remove E st))
    = trace st ++ polling ++ Run (undefine_argv uri name) :: after
    /\ count (is_virsh "undefine") (polling ++ Run (undefine_argv uri name) :: after) = 1
    /\ (after = [] \/ after = [Log Info "guest" "removed" "green"])
    /\ ((state_at E uri name (trace st) = Some "shut off" /\ polling = [Run q])
        \/ (state_at E uri name (trace st) <> Some "shut off"
            /\ ((exists j, j < 10
                           /\ polling = Run q :: Run (destroy_argv uri name)
                                          :: rounds q j ++ [Run q])
                \/ polling = Run q :: Run (destroy_argv uri name) :: rounds q 10)))
    /\ (state_at E uri name (trace st) <> Some "shut off" ->
        never_shut_off E uri name (trace st) ->
        polling = Run q :: Run (destroy_argv uri name) :: rounds q 10).
Proof.
  intros Huri Hname Hfirst Hdestroy q.
  unfold remove.
  destruct (state_at E uri name (trace st)) as [s |] eqn:Hs.
  2:{ exfalso. apply Hfirst. reflexivity. }
  rewrite (bind_ok _ _ _ _ _ (guest_state_reported E st uri name s Huri Hname Hs)).
  fold q.
  set (st1 := record_event (Run q) st).
  assert (Hcount : forall extra after,
             count (is_virsh "undefine") extra = 0 ->
             (after = [] \/ after = [Log Info "guest" "removed" "green"]) ->
             count (is_virsh "undefine")
               (extra ++ Run (undefine_argv uri name) :: after) = 1).
  { intros extra after Hextra Hafter. rewrite count_app, Hextra.
    destruct Hafter as [-> | ->]; reflexivity. }
  assert (Hrounds : forall j, count (is_virsh "undefine") (rounds q j) = 0)
    by (intros j; apply count_rounds_other; reflexivity).
  destruct (String.eqb_spec s "shut off") as [-> | Hne]; cbn [negb].
  - (* already shut off *)
    rewrite (bind_ok _ _ st1 st1 tt eq_refl).
    destruct (remove_finish E uri name st1 Huri Hname)
      as [r [after [Hfin Hafter]]].
    rewrite Hfin. cbn [snd trace self st1 record_event].
    exists [Run q], after.
    split; [rewrite <- app_assoc; reflexivity |].
    split; [apply (Hcount [Run q] after eq_refl Hafter) |].
    split; [exact Hafter |].
    split; [left; split; reflexivity |].
    intros Hrunning _. exfalso. apply Hrunning. reflexivity.
  - (* destroy, then poll *)
    assert (Hrunning : Some s <> Some "shut off")
      by (intros Heq; injection Heq as Heq; contradiction).
    destruct (Hdestroy Hrunning) as [Hrc Hpolls].
    fold q in Hrc.
    set (st2 := record_event (Run (destroy_argv uri name)) st1).
    assert (Htr : trace st2 = trace st ++ [Run q; Run (destroy_argv uri name)])
      by apply trace_two_events.
    assert (Hpoll : exists j,
               ((g <- get_self ;;
                 _virsh E [Some "destroy"; instance_name g] ;;
                 remove_range E 10) st1
                = (Ok tt, {| self := self st; trace := trace st2 ++ rounds q j |})
                /\ j = 10)
               \/
               ((g <- get_self ;;
                 _virsh E [Some "destroy"; instance_name g] ;;
                 remove_range E 10) st1
                = (Ok tt, {| self := self st;
                             trace := trace st2 ++ rounds q j ++ [Run q] |})
                /\ j < 10
                /\ state_at E uri name (trace st2 ++ rounds q j) = Some "shut off")).
    { rewrite (bind_ok _ _ _ _ _ (get_self_run st1)).
      cbn [self st1 record_event]. rewrite Hname.
      assert (Hd : _virsh E [Some "destroy"; Some name] st1
                   = (Ok (env_process E (trace st1) (destroy_argv uri name)), st2)).
      { rewrite (_virsh_run E st1 uri [Some "destroy"; Some name] ["destroy"; name]
                   Huri eq_refl).
        cbv zeta. fold (destroy_argv uri name).
        cbn [trace st1 record_event]. rewrite Hrc. reflexivity. }
      rewrite (bind_ok _ _ _ _ _ Hd).
      destruct (remove_range_polls E uri name 10 st2 Huri Hname) as
        [j [[Hrun [Hj _]] | [Hrun [Hj Hoff]]]].
      { intros j Hj Hprev. rewrite Htr, <- app_assoc.
        apply (Hpolls j Hj). intros i Hi. specialize (Hprev i Hi).
        rewrite Htr, <- app_assoc in Hprev. exact Hprev. }
      - exists j. left. split; [exact Hrun | exact Hj].
      - exists j. right. split; [exact Hrun | split; [exact Hj | exact Hoff]]. }
    destruct Hpoll as [j [[Hrun Hj] | [Hrun [Hj Hoff]]]];
      rewrite (bind_ok _ _ _ _ _ Hrun);
      match goal with
      | |- context [bind get_self _ ?s3] =>
          destruct (remove_finish E uri name s3 Huri Hname)
            as [r [after [Hfin Hafter]]]
      end;
      rewrite Hfin; cbn [snd trace self]; rewrite Htr.
    + subst j.
      exists (Run q :: Run (destroy_argv uri name) :: rounds q 10), after.
      split; [rewrite <- !app_assoc; reflexivity |].
      split.
      { apply Hcount; [| exact Hafter].
        change (Run q :: Run (destroy_argv uri name) :: rounds q 10)
          with ([Run q; Run (destroy_argv uri name)] ++ rounds q 10).
        rewrite count_app, Hrounds. reflexivity. }
      split; [exact Hafter |].
      split; [right; split; [exact Hrunning | right; reflexivity]
             | intros _ _; reflexivity].
    + exists (Run q :: Run (destroy_argv uri name) :: rounds q j ++ [Run q]), after.
      split; [cbn [app]; rewrite <- !app_assoc; reflexivity |].
      split.
      { apply Hcount; [| exact Hafter].
        change (Run q :: Run (destroy_argv uri name) :: rounds q j ++ [Run q])
          with ([Run q; Run (destroy_argv uri name)] ++ rounds q j ++ [Run q]).
        rewrite !count_app, Hrounds. reflexivity. }
      split; [exact Hafter |].
      split; [right; split; [exact Hrunning |];
              left; exists j; split; [exact Hj | reflexivity] |].
      intros _ Hno. exfalso.
      rewrite Htr, <- app_assoc in Hoff. exact (Hno j Hj Hoff).
Qed.

(** C4 (amended): when the state queries that [remove] makes are answered
    and its [destroy] succeeds, [remove] issues
    [undefine --remove-all-storage --nvram --tpm] exactly once, after the
    polling: directly after the first state query when that one reports
    "shut off", else after [destroy] and at most ten polls one second apart;
    a hypervisor that never reports "shut off" gets all ten polls and sleeps
    and then the [undefine].  The premises speak only of the histories the
    call goes through: nothing is assumed of the hypervisor after the
    [undefine]. *)
Theorem remove_undefines_once (E : env) (st : state) (uri name : string) :
  connection_uri (self st) = Some uri ->
  instance_name (self st) = Some name ->
  state_at E uri name (trace st) <> None ->
  (state_at E uri name (trace st) <> Some "shut off" ->
   returncode (env_process E (trace st ++ [Run (domstate_argv uri name)])
                 (destroy_argv uri name)) = 0%Z
   /\ polls_answered E uri name (trace st)) ->
  let q := domstate_argv uri name in
  exists polling after,
    trace (snd (remove E st))
    = trace st ++ polling ++ Run (undefine_argv uri name) :: after
    /\ count (is_virsh "undefine") (polling ++ Run (undefine_argv uri name) :: after) = 1
    /\ (after = [] \/ after = [Log Info "guest" "removed" "green"])
    /\ ((state_at E uri name (trace st) = Some "shut off" /\ polling = [Run q])
        \/ (state_at E uri name (trace st) <> Some "shut off"
            /\ ((exists j, j < 10
                           /\ polling = Run q :: Run (destroy_argv uri name)
                                          :: rounds q j ++ [Run q])
                \/ polling = Run q :: Run (destroy_argv uri name) :: rounds q 10)))
    /\ (state_at E uri name (trace st) <> Some "shut off" ->
        never_shut_off E uri name (trace st) ->
        polling = Run q :: Run (destroy_argv uri name) :: rounds q 10).
Proof. exact (remove_runs E st uri name). Qed.

Lemma remove_undefines_once_witness :
  let E := Mock.hypervisor stuck_running in
  let E' := Mock.hypervisor (Mock.running []) in
  let st := Mock.begin (Mock.named "g1" Mock.handle) in
  let q := domstate_argv "qemu:///system" "g1" in
  let d := destroy_argv "qemu:///system" "g1" in
  let u := undefine_argv "qemu:///system" "g1" in
  polls_answered E "qemu:///system" "g1" (trace st)
  /\ never_shut_off E "qemu:///system" "g1" (trace st)
  /\ polls_answered E' "qemu:///system" "g1" (trace st)
  /\ trace (snd (remove E st))
     = Run q :: Run d :: rounds q 10 ++ [Run u; Log Info "guest" "removed" "green"]
  /\ count (is_virsh "undefine") (trace (snd (remove E st))) = 1
  /\ trace (snd (remove E' st))
     = [Run q; Run d; Run q; Run u; Log Info "guest" "removed" "green"]
  /\ count (is_virsh "undefine") (trace (snd (remove E' st))) = 1
  /\ state_at E "qemu:///system" "g1" (trace (snd (remove E st))) = None.
Proof.
  intros E E' st q d u.
  assert (Hpolls : polls_answered E "qemu:///system" "g1" (trace st)).
  { intros j Hj _.
    do 10 (destruct j as [| j]; [vm_compute; discriminate |]). lia. }
  assert (Hnever : never_shut_off E "qemu:///system" "g1" (trace st)).
  { intros j Hj.
    do 10 (destruct j as [| j]; [vm_compute; discriminate |]). lia. }
  assert (Hpolls' : polls_answered E' "qemu:///system" "g1" (trace st)).
  { intros j Hj Hprev.
    destruct j as [| j]; [vm_compute; discriminate |].
    exfalso. apply (Hprev 0 ltac:(lia)). vm_compute. reflexivity. }
  destruct (remove_undefines_once E st "qemu:///system" "g1" eq_refl eq_refl
              ltac:(vm_compute; discriminate)
              ltac:(intros _; split; [reflexivity | exact Hpolls]))
    as [polling [after [Htr [Hcount [_ [_ Hfull]]]]]].
  destruct (remove_undefines_once E' st "qemu:///system" "g1" eq_refl eq_refl
              ltac:(vm_compute; discriminate)
              ltac:(intros _; split; [reflexivity | exact Hpolls']))
    as [polling' [after' [Htr' [Hcount' _]]]].
  split; [exact Hpolls |]. split; [exact Hnever |]. split; [exact Hpolls' |].
  split; [vm_compute; reflexivity |].
  split; [rewrite Htr; exact Hcount |].
  split; [vm_compute; reflexivity |].
  split; [rewrite Htr'; exact Hcount' |].
  vm_compute. reflexivity.
Defined.

(** On a guest whose domain is not defined, the state query of [remove]
    fails: [remove] raises and [undefine] is not issued. *)
Lemma remove_undefined_domain_counterexample :
  let E := Mock.hypervisor Mock.fresh in
  let st := Mock.begin (Mock.named "g1" Mock.handle) in
  remove E st
  = (Raise (CalledProcessError 1 (domstate_argv "qemu:///system" "g1")),
     {| self := self st; trace := [Run (domstate_argv "qemu:///system" "g1")] |})
  /\ count (is_virsh "undefine") (trace (snd (remove E st))) = 0.
Proof. vm_compute. split; reflexivity. Qed.

(** ** Stopping *)

Lemma stop_returns (E : env) (st s1 : state) (uri name : string) :
  connection_uri (self st) = Some uri ->
  instance_name (self st) = Some name ->
  stop E st = (Ok tt, s1) ->
  s1 = {| self := self st;
          trace := trace st ++ [SshStop; Run (shutdown_argv uri name);
                                Log Info "guest" "stopped" "green"] |}.
Proof.
  intros Huri Hname.
  unfold stop. unfold bind at 1. unfold super_stop.
  destruct (env_stop E (trace st) (self st)) as [[] | e]; [| discriminate].
  rewrite (bind_ok _ _ _ _ _ (get_self_run _)).
  cbn [self record_event]. rewrite Hname.
  unfold bind.
  rewrite (_virsh_run E (record_event SshStop st) uri
             [Some "shutdown"; Some name] ["shutdown"; name] Huri eq_refl).
  cbv zeta. fold (shutdown_argv uri name).
  destruct (returncode _ =? 0)%Z; [| discriminate].
  unfold info, emit, record_event; cbn [self trace].
  intros H. injection H as <-.
  rewrite <- !app_assoc. reflexivity.
Qed.

Lemma stop_shape (E : env) (st : state) :
  trace (snd (stop E st)) = trace st ++ [SshStop]
  \/ exists uri name after,
       trace (snd (stop E st))
       = trace st ++ SshStop :: Run (shutdown_argv uri name) :: after
       /\ (after = [] \/ after = [Log Info "guest" "stopped" "green"]).
Proof.
  destruct (env_stop E (trace st) (self st)) as [[] | e] eqn:Hstop.
  2:{ left. unfold stop, bind, super_stop. rewrite Hstop. reflexivity. }
  assert (Hs : super_stop E st = (Ok tt, record_event SshStop st))
    by (unfold super_stop; rewrite Hstop; reflexivity).
  unfold stop. rewrite (bind_ok _ _ _ _ _ Hs).
  rewrite (bind_ok _ _ _ _ _ (get_self_run _)).
  cbn [self record_event].
  destruct (connection_uri (self st)) as [uri |] eqn:Huri.
  2:{ left. unfold _virsh, bind, get_self, subprocess_run, record_event.
      cbn [self].
      rewrite Huri. reflexivity. }
  destruct (instance_name (self st)) as [name |] eqn:Hname.
  2:{ left. unfold _virsh, bind, get_self, subprocess_run, record_event.
      cbn [self].
      rewrite Huri. reflexivity. }
  right. exists uri, name.
  unfold bind.
  rewrite (_virsh_run E (record_event SshStop st) uri
             [Some "shutdown"; Some name] ["shutdown"; name] Huri eq_refl).
  cbv zeta. fold (shutdown_argv uri name).
  destruct (returncode _ =? 0)%Z.
  - exists [Log Info "guest" "stopped" "green"]. split; [| right; reflexivity].
    unfold info, emit, record_event; cbn [snd self trace].
    rewrite <- !app_assoc. reflexivity.
  - exists []. split; [| left; reflexivity].
    unfold record_event; cbn [snd self trace].
    rewrite <- !app_assoc. reflexivity.
Qed.

(** C8: whatever [stop] does, the inherited stop sequence is its first
    external call and the hypervisor [shutdown], when it is issued, comes
    right after it; and when [stop] returns on a guest that the hypervisor
    then reports as running, a following [remove] whose [destroy] succeeds
    and whose confirmation polls are answered makes the hypervisor commands
    of the two calls [shutdown], [destroy], [undefine], in that order. *)
Theorem stop_then_remove_order (E : env) (st : state) :
  (trace (snd (stop E st)) = trace st ++ [SshStop]
   \/ exists uri name after,
        trace (snd (stop E st))
        = trace st ++ SshStop :: Run (shutdown_argv uri name) :: after
        /\ (after = [] \/ after = [Log Info "guest" "stopped" "green"]))
  /\ forall uri name s1,
       connection_uri (self st) = Some uri ->
       instance_name (self st) = Some name ->
       stop E st = (Ok tt, s1) ->
       state_at E uri name (trace s1) = Some "running" ->
       returncode (env_process E (trace s1 ++ [Run (domstate_argv uri name)])
                     (destroy_argv uri name)) = 0%Z ->
       polls_answered E uri name (trace s1) ->
       hypervisor_commands (trace (snd (remove E s1)))
       = hypervisor_commands (trace st) ++ ["shutdown"; "destroy"; "undefine"].
Proof.
  split; [apply stop_shape |].
  intros uri name s1 Huri Hname Hstop Hrunning Hdestroy Hpolls.
  pose proof (stop_returns E st s1 uri name Huri Hname Hstop) as Hs1.
  assert (Huri1 : connection_uri (self s1) = Some uri) by (subst s1; exact Huri).
  assert (Hname1 : instance_name (self s1) = Some name) by (subst s1; exact Hname).
  destruct (remove_runs E s1 uri name Huri1 Hname1
              ltac:(rewrite Hrunning; discriminate)
              (fun _ => conj Hdestroy Hpolls))
    as [polling [after [Htr [_ [Hafter [Hpolling _]]]]]].
  rewrite Htr.
  assert (Hstopped : hypervisor_commands (trace s1)
                     = hypervisor_commands (trace st) ++ ["shutdown"]).
  { subst s1. cbn [trace]. rewrite hypervisor_commands_app. reflexivity. }
  assert (Hpoll : hypervisor_commands polling = ["destroy"]).
  { destruct Hpolling as [[Hoff _] | [_ [[j [_ ->]] | ->]]].
    - rewrite Hrunning in Hoff. discriminate.
    - change (Run (domstate_argv uri name) :: Run (destroy_argv uri name)
                :: rounds (domstate_argv uri name) j ++ [Run (domstate_argv uri name)])
        with ([Run (domstate_argv uri name); Run (destroy_argv uri name)]
                ++ rounds (domstate_argv uri name) j ++ [Run (domstate_argv uri name)]).
      rewrite !hypervisor_commands_app, hypervisor_commands_rounds. reflexivity.
    - change (Run (domstate_argv uri name) :: Run (destroy_argv uri name)
                :: rounds (domstate_argv uri name) 10)
        with ([Run (domstate_argv uri name); Run (destroy_argv uri name)]
                ++ rounds (domstate_argv uri name) 10).
      rewrite hypervisor_commands_app, hypervisor_commands_rounds. reflexivity. }
  rewrite !hypervisor_commands_app, Hstopped, Hpoll.
  change (Run (undefine_argv uri name) :: after)
    with ([Run (undefine_argv uri name)] ++ after).
  rewrite hypervisor_commands_app.
  destruct Hafter as [-> | ->]; rewrite <- app_assoc; reflexivity.
Qed.

Lemma stop_then_remove_order_witness :
  let E := Mock.hypervisor (Mock.running []) in
  let st := Mock.begin (Mock.named "g1" Mock.handle) in
  let s1 := snd (stop E st) in
  stop E st = (Ok tt, s1)
  /\ state_at E "qemu:///system" "g1" (trace s1) = Some "running"
  /\ polls_answered E "qemu:///system" "g1" (trace s1)
  /\ hypervisor_commands (trace (snd (remove E s1)))
     = ["shutdown"; "destroy"; "undefine"]
  /\ state_at E "qemu:///system" "g1" (trace (snd (remove E s1))) = None.
Proof.
  intros E st s1.
  assert (Hstop : stop E st = (Ok tt, s1)) by reflexivity.
  assert (Hrunning : state_at E "qemu:///system" "g1" (trace s1) = Some "running")
    by reflexivity.
  assert (Hpolls : polls_answered E "qemu:///system" "g1" (trace s1)).
  { intros j Hj Hprev.
    destruct j as [| j]; [vm_compute; discriminate |].
    exfalso. apply (Hprev 0 ltac:(lia)). vm_compute. reflexivity. }
  split; [exact Hstop |]. split; [exact Hrunning |]. split; [exact Hpolls |].
  destruct (stop_then_remove_order E st) as [_ Horder].
  split; [| vm_compute; reflexivity].
  apply (Horder "qemu:///system" "g1" s1 eq_refl eq_refl Hstop Hrunning eq_refl Hpolls).
Defined.

(** The same scenario on the mock hypervisor that follows the commands:
    the guest is started, stopped and removed. *)
Example stop_then_remove_end_to_end :
  let E := Mock.hypervisor Mock.fresh in
  let s := snd (start E (Mock.begin Mock.handle)) in
  let s1 := snd (stop E s) in
  let s2 := snd (remove E s1) in
  hypervisor_commands (trace s2) = ["start"; "shutdown"; "destroy"; "undefine"]
  /\ fst (guest_state E s2) = Raise (CalledProcessError 1
                                      (domstate_argv "qemu:///system" "tmt-001-abcdefgh")).
Proof. vm_compute. split; reflexivity. Qed.

(** ** Resolving the address *)

Lemma get_guest_ip_try_run (E : env) (st : state) (uri name : string) :
  connection_uri (self st) = Some uri ->
  instance_name (self st) = Some name ->
  get_guest_ip_try E st
  = (let r := addr_at E uri name (trace st) in
     if (returncode r =? 0)%Z then
       match parse_domifaddr (stdout r) with
       | Some address => Ok address
       | None => Raise IndexError
       end
     else Raise (CalledProcessError (returncode r) (domifaddr_argv uri name)),
     record_event (Run (domifaddr_argv uri name)) st).
Proof.
  intros Huri Hname.
  unfold get_guest_ip_try.
  rewrite (bind_ok _ _ _ _ _ (get_self_run st)). rewrite Hname.
  unfold bind.
  rewrite (_virsh_run E st uri [Some "domifaddr"; Some name] ["domifaddr"; name]
             Huri eq_refl).
  cbv zeta. fold (domifaddr_argv uri name). unfold addr_at.
  destruct (returncode _ =? 0)%Z; [| reflexivity].
  unfold subscript. destruct (parse_domifaddr _); reflexivity.
Qed.

(** One round of the loop makes at most one query. *)
Lemma get_guest_ip_try_grows (E : env) (st : state) :
  exists evs,
    snd (get_guest_ip_try E st) = {| self := self st; trace := trace st ++ evs |}
    /\ count (is_virsh "domifaddr") evs <= 1.
Proof.
  unfold get_guest_ip_try, _virsh, bind, get_self, subprocess_run.
  cbn [app all_strings].
  destruct (connection_uri (self st)) as [uri |].
  2:{ exists []. rewrite app_nil_r. split; [destruct st; reflexivity | cbn; lia]. }
  destruct (instance_name (self st)) as [name |].
  2:{ exists []. rewrite app_nil_r. split; [destruct st; reflexivity | cbn; lia]. }
  exists [Run ["virsh"; "-c"; uri; "domifaddr"; name]].
  split; [| cbn; lia].
  destruct (true && _); [reflexivity |].
  unfold subscript. destruct (parse_domifaddr _); reflexivity.
Qed.

Lemma get_guest_ip_range_bounded (E : env) (n : nat) :
  forall st e,
    exists evs,
      snd (get_guest_ip_range E n e st)
      = {| self := self st; trace := trace st ++ evs |}
      /\ count (is_virsh "domifaddr") evs <= n.
Proof.
  induction n as [| n IH]; intros st e.
  - exists []. rewrite app_nil_r.
    split; [destruct e; destruct st; reflexivity | cbn; lia].
  - cbn [get_guest_ip_range]. unfold try_except.
    destruct (get_guest_ip_try_grows E st) as [evs [Hst Hc]].
    destruct (get_guest_ip_try E st) as [[a | err] st1]; cbn [snd] in Hst; subst st1.
    + exists evs. split; [reflexivity | lia].
    + destruct err; cbn [except_CalledProcessError];
        try (exists evs; split; [reflexivity | lia]).
      unfold bind, sleep, emit.
      destruct (IH (record_event (Sleep 1) {| self := self st; trace := trace st ++ evs |}) None)
        as [evs' [Hst' Hc']].
      rewrite Hst'. cbn [self trace record_event].
      exists (evs ++ [Sleep 1] ++ evs').
      split; [rewrite <- !app_assoc; reflexivity |].
      rewrite !count_app. cbn [count filter is_virsh virsh_subcommand length].
      change (count (is_virsh "domifaddr") [Sleep 1]) with 0. lia.
Qed.

(** As long as the query fails with a non-zero exit status the loop sleeps
    one second and asks again; the first query that exits with 0 decides:
    its parsed address is returned, or the [IndexError] of a short output is
    raised. *)
Lemma get_guest_ip_range_decided (E : env) (uri name : string) (k : nat) :
  forall n st e,
    connection_uri (self st) = Some uri ->
    instance_name (self st) = Some name ->
    k < n ->
    (forall j, j < k ->
       returncode (addr_at E uri name (trace st ++ rounds (domifaddr_argv uri name) j))
       <> 0%Z) ->
    returncode (addr_at E uri name (trace st ++ rounds (domifaddr_argv uri name) k))
    = 0%Z ->
    get_guest_ip_range E n e st
    = (match parse_domifaddr
               (stdout (addr_at E uri name
                          (trace st ++ rounds (domifaddr_argv uri name) k))) with
       | Some address => Ok address
       | None => Raise IndexError
       end,
       {| self := self st;
          trace := trace st ++ rounds (domifaddr_argv uri name) k
                            ++ [Run (domifaddr_argv uri name)] |}).
Proof.
  set (q := domifaddr_argv uri name).
  induction k as [| k IH]; intros n st e Huri Hname Hk Hfail Hok;
    (destruct n as [| n]; [lia |]); cbn [get_guest_ip_range]; unfold try_except;
    rewrite (get_guest_ip_try_run E st uri name Huri Hname); cbv zeta; fold q.
  - cbn [rounds app] in *. rewrite app_nil_r in *. rewrite Hok. cbn [Z.eqb].
    destruct (parse_domifaddr _); reflexivity.
  - pose proof (Hfail 0 ltac:(lia)) as H0.
    cbn [rounds] in H0. rewrite app_nil_r in H0.
    destruct (Z.eqb_spec (returncode (addr_at E uri name (trace st))) 0) as [Heq | _];
      [contradiction |].
    cbn [except_CalledProcessError]. unfold bind, sleep, emit.
    set (st2 := record_event (Sleep 1) (record_event (Run q) st)).
    assert (Htr : trace st2 = trace st ++ [Run q; Sleep 1])
      by (unfold st2, record_event; cbn [trace]; rewrite <- app_assoc; reflexivity).
    rewrite (IH n st2 None Huri Hname ltac:(lia)).
    + rewrite Htr. cbn [self st2 record_event rounds].
      rewrite <- !app_assoc. reflexivity.
    + intros j Hj. rewrite Htr, <- app_assoc. apply (Hfail (S j)). lia.
    + rewrite Htr, <- app_assoc. exact Hok.
Qed.

(** When every one of the ten queries fails, the [raise e] after the loop
    finds the name [e] unbound: the error of the last query is lost. *)
Lemma get_guest_ip_exhausted (E : env) (st : state) (uri name : string) :
  connection_uri (self st) = Some uri ->
  instance_name (self st) = Some name ->
  (forall j, j < 10 ->
     returncode (addr_at E uri name (trace st ++ rounds (domifaddr_argv uri name) j))
     <> 0%Z) ->
  get_guest_ip E st
  = (Raise (UnboundLocalError "e"),
     {| self := self st;
        trace := trace st ++ rounds (domifaddr_argv uri name) 10 |}).
Proof.
  intros Huri Hname. unfold get_guest_ip.
  generalize 10 as n. intros n. revert st Huri Hname.
  set (q := domifaddr_argv uri name).
  induction n as [| n IH]; intros st Huri Hname Hfail.
  - cbn [get_guest_ip_range rounds]. rewrite app_nil_r. destruct st; reflexivity.
  - cbn [get_guest_ip_range]. unfold try_except.
    rewrite (get_guest_ip_try_run E st uri name Huri Hname); cbv zeta; fold q.
    pose proof (Hfail 0 ltac:(lia)) as H0.
    cbn [rounds] in H0. rewrite app_nil_r in H0.
    destruct (Z.eqb_spec (returncode (addr_at E uri name (trace st))) 0) as [Heq | _];
      [contradiction |].
    cbn [except_CalledProcessError]. unfold bind, sleep, emit.
    set (st2 := record_event (Sleep 1) (record_event (Run q) st)).
    assert (Htr : trace st2 = trace st ++ [Run q; Sleep 1])
      by (unfold st2, record_event; cbn [trace]; rewrite <- app_assoc; reflexivity).
    rewrite (IH st2 Huri Hname).
    + rewrite Htr. cbn [self st2 record_event rounds].
      rewrite <- !app_assoc. reflexivity.
    + intros j Hj. rewrite Htr, <- app_assoc. apply (Hfail (S j)). lia.
Qed.

(** ** Python's indexing and splitting *)

Lemma string_app_nil_r (s : string) : (s ++ "")%string = s.
Proof. induction s as [| c s IH]; [reflexivity | cbn; rewrite IH; reflexivity]. Qed.

Lemma string_app_assoc (a b c : string) :
  ((a ++ b) ++ c)%string = (a ++ (b ++ c))%string.
Proof. induction a as [| x a IH]; [reflexivity | cbn; rewrite IH; reflexivity]. Qed.

Lemma index_last_but_one {A : Type} (l : list A) :
  Py.index l (-2) = spec_last_but_one l.
Proof.
  unfold spec_last_but_one.
  rewrite <- (rev_involutive l) at 1. generalize (rev l). clear l.
  intros [| b [| a r]]; [reflexivity | reflexivity |].
  unfold Py.index. cbn [rev nth_error]. rewrite !length_app, length_rev. cbn [List.length].
  cbn [Z.ltb Z.compare].
  replace ((0 <=? -2 + Z.of_nat (List.length r + 1 + 1))
           && (-2 + Z.of_nat (List.length r + 1 + 1) <? Z.of_nat (List.length r + 1 + 1)))%Z
    with true by (symmetry; apply andb_true_iff; split; [apply Z.leb_le | apply Z.ltb_lt]; lia).
  replace (Z.to_nat (-2 + Z.of_nat (List.length r + 1 + 1))) with (List.length r) by lia.
  rewrite nth_error_app1 by (rewrite length_app, length_rev; cbn; lia).
  rewrite nth_error_app2 by (rewrite length_rev; lia).
  rewrite length_rev, Nat.sub_diag. reflexivity.
Qed.

Lemma index_final {A : Type} (l : list A) :
  Py.index l (-1) = spec_final l.
Proof.
  unfold spec_final.
  rewrite <- (rev_involutive l) at 1. generalize (rev l). clear l.
  intros [| b r]; [reflexivity |].
  unfold Py.index. cbn [rev nth_error]. rewrite !length_app, length_rev. cbn [List.length].
  cbn [Z.ltb Z.compare].
  replace ((0 <=? -1 + Z.of_nat (List.length r + 1))
           && (-1 + Z.of_nat (List.length r + 1) <? Z.of_nat (List.length r + 1)))%Z
    with true by (symmetry; apply andb_true_iff; split; [apply Z.leb_le | apply Z.ltb_lt]; lia).
  replace (Z.to_nat (-1 + Z.of_nat (List.length r + 1))) with (List.length r) by lia.
  rewrite nth_error_app2 by (rewrite length_rev; lia).
  rewrite length_rev, Nat.sub_diag. reflexivity.
Qed.

Lemma index_first {A : Type} (x : A) (l : list A) : Py.index (x :: l) 0 = Some x.
Proof.
  unfold Py.index. cbn [Z.ltb Z.compare Z.leb List.length andb].
  replace (0 <? Z.of_nat (S (List.length l)))%Z with true
    by (symmetry; apply Z.ltb_lt; lia).
  reflexivity.
Qed.

Lemma split_on_from_head (cur field : string) :
  exists others,
    Py.split_on_from "/" cur field = (cur ++ spec_strip_subnet field)%string :: others.
Proof.
  revert cur. induction field as [| c rest IH]; intros cur.
  - exists []. cbn. rewrite string_app_nil_r. reflexivity.
  - cbn [Py.split_on_from spec_strip_subnet].
    destruct (Ascii.eqb c "/").
    + eexists. rewrite string_app_nil_r. reflexivity.
    + destruct (IH (Py.snoc cur c)) as [others Hothers]. exists others.
      rewrite Hothers. unfold Py.snoc. rewrite string_app_assoc. reflexivity.
Qed.

Lemma index_split_on (field : string) :
  Py.index (Py.split_on "/" field) 0 = Some (spec_strip_subnet field).
Proof.
  unfold Py.split_on.
  destruct (split_on_from_head "" field) as [others ->].
  apply index_first.
Qed.

(** The parser of the source picks what the specification describes. *)
Lemma parse_domifaddr_refines (out : string) :
  parse_domifaddr out = spec_resolved_address out.
Proof.
  unfold parse_domifaddr, spec_resolved_address.
  rewrite index_last_but_one.
  destruct (spec_last_but_one (Py.splitlines out)) as [line |]; [| reflexivity].
  rewrite index_final.
  destruct (spec_final (Py.split line)) as [field |]; [| reflexivity].
  apply index_split_on.
Qed.

Lemma split_from_field (field : string) :
  forall cur,
    no_space field = true ->
    (cur ++ field)%string <> ""%string ->
    Py.split_from cur field = [(cur ++ field)%string].
Proof.
  induction field as [| c rest IH]; intros cur Hns Hne.
  - cbn. rewrite string_app_nil_r in *. unfold Py.flush.
    destruct cur; [contradiction | reflexivity].
  - cbn [no_space] in Hns. apply andb_true_iff in Hns as [Hc Hrest].
    cbn [Py.split_from]. apply negb_true_iff in Hc. rewrite Hc.
    rewrite (IH (Py.snoc cur c) Hrest).
    + unfold Py.snoc. rewrite string_app_assoc. reflexivity.
    + unfold Py.snoc. rewrite string_app_assoc. cbn.
      destruct cur; discriminate.
Qed.

(** A field that follows white space at the end of a line is the last
    field of the line. *)
Lemma split_from_last_field (before : string) (c : ascii) (field : string) :
  Py.isspace c = true ->
  no_space field = true ->
  field <> ""%string ->
  forall cur,
    Py.split_from cur (before ++ String c field)
    = Py.split_from cur before ++ [field].
Proof.
  intros Hc Hns Hne.
  induction before as [| a before IH]; intros cur.
  - cbn [append Py.split_from]. rewrite Hc.
    rewrite (split_from_field field "" Hns Hne). reflexivity.
  - cbn [append Py.split_from].
    destruct (Py.isspace a).
    + rewrite IH, app_assoc. reflexivity.
    + apply IH.
Qed.

Lemma spec_final_snoc {A : Type} (l : list A) (x : A) : spec_final (l ++ [x]) = Some x.
Proof. unfold spec_final. rewrite rev_app_distr. reflexivity. Qed.

Lemma spec_last_but_one_snoc {A : Type} (l : list A) (x y : A) :
  spec_last_but_one (l ++ [x; y]) = Some x.
Proof. unfold spec_last_but_one. rewrite rev_app_distr. reflexivity. Qed.

(** ** What a computation leaves alone *)

Section Keeping.

Variable p : event -> bool.

Lemma only_adds_refl (s : state) : only_adds p s s.
Proof.
  split; [destruct (self s); reflexivity |].
  exists []. rewrite app_nil_r. split; reflexivity.
Qed.

Lemma only_adds_trans (s1 s2 s3 : state) :
  only_adds p s1 s2 -> only_adds p s2 s3 -> only_adds p s1 s3.
Proof.
  intros [H12 [e12 [T12 P12]]] [H23 [e23 [T23 P23]]]. split.
  - rewrite H23, H12. destruct (self s1); reflexivity.
  - exists (e12 ++ e23). rewrite T23, T12, <- app_assoc.
    split; [reflexivity |]. rewrite forallb_app, P12, P23. reflexivity.
Qed.

Lemma only_adds_event (s : state) (ev : event) :
  p ev = true -> only_adds p s (record_event ev s).
Proof.
  intros Hev. split; [destruct s as [[] tr]; reflexivity |].
  exists [ev]. split; [reflexivity |]. cbn. rewrite Hev. reflexivity.
Qed.

Lemma keeps_ret {A : Type} (a : A) : keeps (only_adds p) (ret a).
Proof. intros st. apply only_adds_refl. Qed.

Lemma keeps_raise {A : Type} (e : exn) : keeps (only_adds p) (@raise A e).
Proof. intros st. apply only_adds_refl. Qed.

Lemma keeps_get_self : keeps (only_adds p) get_self.
Proof. intros st. apply only_adds_refl. Qed.

Lemma keeps_getitem {A : Type} (l : list A) (i : Z) :
  keeps (only_adds p) (getitem l i).
Proof.
  intros st. unfold getitem. destruct (Py.index l i); apply only_adds_refl.
Qed.

Lemma keeps_subscript {A : Type} (o : option A) : keeps (only_adds p) (subscript o).
Proof. destruct o; [apply keeps_ret | apply keeps_raise]. Qed.

Lemma keeps_assert (b : bool) : keeps (only_adds p) (assert_ b).
Proof. destruct b; [apply keeps_ret | apply keeps_raise]. Qed.

Lemma keeps_raise_name {A : Type} (n : string) (e : option exn) :
  keeps (only_adds p) (@raise_name A n e).
Proof. destruct e; apply keeps_raise. Qed.

Lemma keeps_emit (ev : event) : p ev = true -> keeps (only_adds p) (emit ev).
Proof. intros Hev st. apply only_adds_event. exact Hev. Qed.

Lemma keeps_set_key (v : list string) : keeps (only_adds p) (modify_self (set_key v)).
Proof.
  intros st. split; [destruct st as [[] tr]; reflexivity |].
  exists []. cbn. rewrite app_nil_r. split; reflexivity.
Qed.

Lemma keeps_bind {A B : Type} (m : M A) (k : A -> M B) :
  keeps (only_adds p) m ->
  (forall a, keeps (only_adds p) (k a)) ->
  keeps (only_adds p) (bind m k).
Proof.
  intros Hm Hk st. unfold bind. specialize (Hm st).
  destruct (m st) as [[a | e] st1]; cbn [snd] in *; [| exact Hm].
  eapply only_adds_trans; [exact Hm | apply Hk].
Qed.

Lemma keeps_try_except {A : Type} (body : M A) (clause : exn -> option (M A)) :
  keeps (only_adds p) body ->
  (forall e handler, clause e = Some handler -> keeps (only_adds p) handler) ->
  keeps (only_adds p) (try_except body clause).
Proof.
  intros Hbody Hclause st. unfold try_except. specialize (Hbody st).
  destruct (body st) as [[a | e] st1]; cbn [snd] in *; [exact Hbody |].
  destruct (clause e) as [handler |] eqn:Hc; [| exact Hbody].
  eapply only_adds_trans; [exact Hbody | apply (Hclause e handler Hc)].
Qed.

Lemma keeps_except_CalledProcessError {A : Type} (h : exn -> M A) :
  (forall e, keeps (only_adds p) (h e)) ->
  forall e handler,
    except_CalledProcessError h e = Some handler -> keeps (only_adds p) handler.
Proof.
  intros Hh e handler. destruct e; cbn; try discriminate.
  intros H. injection H as <-. apply Hh.
Qed.

Variable E : env.

Lemma all_strings_head (a : string) (rest : list (option string)) (av : list string) :
  all_strings (Some a :: rest) = Some av -> exists tl, av = a :: tl.
Proof.
  cbn. destruct (all_strings rest) as [l |]; [| discriminate].
  intros H. injection H as <-. exists l. reflexivity.
Qed.

Lemma keeps_subprocess_run (prog : string) (rest : list (option string)) (check : bool) :
  (forall tl, p (Run (prog :: tl)) = true) ->
  keeps (only_adds p) (subprocess_run E (Some prog :: rest) check).
Proof.
  intros Hp st. unfold subprocess_run.
  destruct (all_strings (Some prog :: rest)) as [av |] eqn:Hav;
    [| apply only_adds_refl].
  destruct (all_strings_head prog rest av Hav) as [tl ->].
  destruct (check && _); apply only_adds_event; apply Hp.
Qed.

Hypothesis p_virsh : forall tl, p (Run ("virsh" :: tl)) = true.
Hypothesis p_keygen : forall tl, p (Run ("ssh-keygen" :: tl)) = true.
Hypothesis p_other : forall ev, program ev = None -> p ev = true.

Lemma keeps__virsh (args : list (option string)) : keeps (only_adds p) (_virsh E args).
Proof.
  unfold _virsh. apply keeps_bind; [apply keeps_get_self |].
  intros g. apply keeps_subprocess_run. exact p_virsh.
Qed.

Lemma keeps_guest_state : keeps (only_adds p) (guest_state E).
Proof.
  unfold guest_state. apply keeps_bind; [apply keeps_get_self |].
  intros g. apply keeps_bind; [apply keeps__virsh |].
  intros r. apply keeps_getitem.
Qed.

Lemma keeps__generate_ssh_key : keeps (only_adds p) (_generate_ssh_key E).
Proof.
  unfold _generate_ssh_key. apply keeps_bind; [apply keeps_get_self |].
  intros g. destruct (Py.truthy_list (key g)); [apply keeps_ret |].
  apply keeps_bind; [apply keeps_set_key |]. intros _.
  apply keeps_bind; [apply keeps_get_self |]. intros g'.
  apply keeps_bind; [apply keeps_getitem |]. intros key0.
  apply keeps_bind; [apply keeps_subprocess_run; exact p_keygen |].
  intros _. apply keeps_ret.
Qed.

Lemma keeps_ssh_pubkey : keeps (only_adds p) (ssh_pubkey E).
Proof.
  unfold ssh_pubkey. apply keeps_bind; [apply keeps__generate_ssh_key |].
  intros _. apply keeps_bind; [apply keeps_get_self |]. intros g.
  apply keeps_bind; [apply keeps_getitem |]. intros key0.
  apply keeps_bind; [apply keeps_subprocess_run; exact p_keygen |].
  intros r. apply keeps_ret.
Qed.

Lemma keeps__kickstart : keeps (only_adds p) (_kickstart E).
Proof.
  unfold _kickstart. apply keeps_bind; [apply keeps_ssh_pubkey |].
  intros pubkey. apply keeps_bind; [apply keeps_get_self |].
  intros g. apply keeps_ret.
Qed.

Lemma keeps_get_guest_ip_range (n : nat) :
  forall e, keeps (only_adds p) (get_guest_ip_range E n e).
Proof.
  induction n as [| n IH]; intros e; cbn [get_guest_ip_range].
  - apply keeps_raise_name.
  - apply keeps_try_except.
    + unfold get_guest_ip_try. apply keeps_bind; [apply keeps_get_self |].
      intros g. apply keeps_bind; [apply keeps__virsh |].
      intros r. apply keeps_subscript.
    + apply keeps_except_CalledProcessError. intros _.
      apply keeps_bind; [apply keeps_emit; apply p_other; reflexivity |].
      intros _. apply IH.
Qed.

End Keeping.

(** ** Installation *)

Lemma emit_run (ev : event) (st : state) : emit ev st = (Ok tt, record_event ev st).
Proof. reflexivity. Qed.

(** The ways through [_install], by the outcome of the state query, of the
    rendering of the kickstart, of the assertion and of [virt-install]. *)
Lemma _install_cases (E : env) (st : state) :
  let st1 := snd (guest_state E st) in
  match fst (guest_state E st) with
  | Ok _ => _install E st = (Ok tt, st1)
  | Raise (CalledProcessError _ _) =>
      let st4 := snd (_kickstart E (before_kickstart st1)) in
      match fst (_kickstart E (before_kickstart st1)) with
      | Raise e => _install E st = (Raise e, st4)
      | Ok text =>
          let st5 := record_event (FileWrite (ks_path (self st1)) text) st4 in
          if hardware_given (self st1)
          then _install E st = (Raise AssertionError, st5)
          else
            let st6 := record_event (Log Info "progress" "installing..." "cyan") st5 in
            match all_strings (virt_install_cmd (self st5) (ks_path (self st1))) with
            | None => _install E st = (Raise TypeError, st6)
            | Some av =>
                _install E st
                = (if (returncode (env_process E (trace st6) av) =? 0)%Z
                   then Ok tt
                   else Raise (CalledProcessError
                                 (returncode (env_process E (trace st6) av)) av),
                   record_event (Run av) st6)
            end
      end
  | Raise e => _install E st = (Raise e, st1)
  end.
Proof.
  cbv zeta. remember (_install E st) as res eqn:Hres.
  unfold _install in Hres. unfold bind at 1 in Hres.
  unfold try_except in Hres. unfold bind at 1 in Hres.
  destruct (guest_state E st) as [[s | e] st1]; cbn [fst snd]; [exact Hres |].
  destruct e; cbn [except_CalledProcessError] in Hres; try exact Hres.
  unfold ret at 1 in Hres.
  rewrite (bind_ok _ _ _ _ _ (get_self_run st1)) in Hres.
  unfold verbose, file_open, file_write, info in Hres.
  rewrite (bind_ok _ _ _ _ _ (emit_run _ st1)) in Hres.
  rewrite (bind_ok _ _ _ _ _ (emit_run _ _)) in Hres.
  fold (ks_path (self st1)) in Hres. fold (before_kickstart st1) in Hres.
  unfold bind at 1 in Hres.
  destruct (_kickstart E (before_kickstart st1)) as [[text | e] st4];
    cbn [fst snd]; [| exact Hres].
  rewrite (bind_ok _ _ _ _ _ (emit_run _ st4)) in Hres.
  rewrite (bind_ok _ _ _ _ _ (get_self_run _)) in Hres.
  fold (hardware_given (self st1)) in Hres.
  destruct (hardware_given (self st1)); cbn [negb assert_] in Hres.
  - exact Hres.
  - rewrite (bind_ok _ _ _ _ tt eq_refl) in Hres.
    rewrite (bind_ok _ _ _ _ _ (emit_run _ _)) in Hres.
    unfold bind, subprocess_run in Hres.
    destruct (all_strings _) as [av |]; [| exact Hres].
    cbn [andb] in Hres. rewrite Hres.
    destruct (returncode _ =? 0)%Z; reflexivity.
Qed.

Lemma count_none (p q : event -> bool) (evs : list event) :
  (forall ev, p ev = true -> q ev = false) ->
  forallb p evs = true -> count q evs = 0.
Proof.
  intros Hpq. induction evs as [| ev evs IH]; [reflexivity |].
  cbn [forallb]. intros H. apply andb_true_iff in H as [Hev Hevs].
  unfold count in *. cbn [filter]. rewrite (Hpq ev Hev). apply IH. exact Hevs.
Qed.

Lemma only_adds_count (p q : event -> bool) (s s' : state) :
  (forall ev, p ev = true -> q ev = false) ->
  only_adds p s s' -> count q (trace s') = count q (trace s).
Proof.
  intros Hpq [_ [evs [-> Hevs]]].
  rewrite count_app, (count_none p q evs Hpq Hevs). lia.
Qed.

Lemma not_install_false (ev : event) : not_install ev = true -> is_install ev = false.
Proof. unfold not_install. apply negb_true_iff. Qed.

Lemma guest_state_only_adds (E : env) (p : event -> bool) (st : state) :
  (forall tl, p (Run ("virsh" :: tl)) = true) ->
  only_adds p st (snd (guest_state E st)).
Proof. intros Hp. apply (keeps_guest_state p E Hp). Qed.

Lemma guest_state_self (E : env) (st : state) :
  self (snd (guest_state E st)) = self st.
Proof.
  unfold guest_state, _virsh, bind, get_self, subprocess_run, getitem.
  destruct (all_strings _); [| reflexivity].
  destruct (true && _); [reflexivity |].
  destruct (Py.index _ 0); reflexivity.
Qed.

Lemma count_record_event (q : event -> bool) (ev : event) (st : state) :
  count q (trace (record_event ev st))
  = count q (trace st) + (if q ev then 1 else 0).
Proof.
  unfold record_event; cbn [trace]. rewrite count_app.
  unfold count at 2. cbn [filter]. destruct (q ev); reflexivity.
Qed.

Lemma guest_state_no_install (E : env) (st : state) :
  count is_install (trace (snd (guest_state E st))) = count is_install (trace st).
Proof.
  apply (only_adds_count not_install is_install); [exact not_install_false |].
  apply guest_state_only_adds. reflexivity.
Qed.

Lemma _kickstart_no_install (E : env) (st : state) :
  count is_install (trace (snd (_kickstart E st))) = count is_install (trace st).
Proof.
  apply (only_adds_count not_install is_install); [exact not_install_false |].
  apply (keeps__kickstart not_install E); reflexivity.
Qed.

Lemma before_kickstart_no_install (st : state) :
  count is_install (trace (before_kickstart st)) = count is_install (trace st).
Proof.
  unfold before_kickstart. rewrite !count_record_event. cbn. lia.
Qed.

(** When the state query finds the domain, [_install] is that query and
    nothing more. *)
Lemma _install_skips (E : env) (st : state) (s : string) :
  fst (guest_state E st) = Ok s ->
  _install E st = (Ok tt, snd (guest_state E st)).
Proof.
  intros Hgs. pose proof (_install_cases E st) as Hc. cbv zeta in Hc.
  rewrite Hgs in Hc. exact Hc.
Qed.

(** When the state query fails and [_install] returns, it has run
    [virt-install] once. *)
Lemma _install_installs (E : env) (st : state) (rc : Z) (cmd : list string) :
  fst (guest_state E st) = Raise (CalledProcessError rc cmd) ->
  fst (_install E st) = Ok tt ->
  count is_install (trace (snd (_install E st))) = count is_install (trace st) + 1.
Proof.
  intros Hgs Hok. pose proof (_install_cases E st) as Hc. cbv zeta in Hc.
  rewrite Hgs in Hc.
  pose proof (_kickstart_no_install E (before_kickstart (snd (guest_state E st))))
    as Hks.
  rewrite before_kickstart_no_install, guest_state_no_install in Hks.
  destruct (fst (_kickstart E _)) as [text | e].
  2:{ rewrite Hc in Hok. discriminate. }
  destruct (hardware_given _).
  { rewrite Hc in Hok. discriminate. }
  destruct (all_strings _) as [av |] eqn:Hav.
  2:{ rewrite Hc in Hok. discriminate. }
  destruct (all_strings_head _ _ _ Hav) as [tl ->].
  rewrite Hc. cbn [snd]. rewrite !count_record_event, Hks. cbn. lia.
Qed.

(** One call of [_install] runs [virt-install] at most once. *)
Lemma _install_bounded (E : env) (st : state) :
  count is_install (trace (snd (_install E st))) <= count is_install (trace st) + 1.
Proof.
  pose proof (_install_cases E st) as Hc. cbv zeta in Hc.
  pose proof (_kickstart_no_install E (before_kickstart (snd (guest_state E st))))
    as Hks.
  rewrite before_kickstart_no_install, guest_state_no_install in Hks.
  pose proof (guest_state_no_install E st) as Hgs.
  destruct (fst (guest_state E st)) as [s | e]; [rewrite Hc; cbn [snd]; lia |].
  destruct e; try (rewrite Hc; cbn [snd]; lia).
  destruct (fst (_kickstart E _)) as [text | e]; [| rewrite Hc; cbn [snd]; lia].
  destruct (hardware_given _).
  { rewrite Hc. cbn [snd]. rewrite count_record_event, Hks. cbn. lia. }
  destruct (all_strings _) as [av |].
  - rewrite Hc. cbn [snd]. rewrite !count_record_event, Hks. cbn [is_install program].
    destruct (is_install (Run av)); lia.
  - rewrite Hc. cbn [snd]. rewrite !count_record_event, Hks. cbn. lia.
Qed.

(** C2: when the state query finds the domain, [_install] returns at once
    and [virt-install] is not run; a call runs it at most once; so when a
    first call that found no domain has installed it and the hypervisor then
    reports the domain, a second call returns without installing: the two
    calls run [virt-install] exactly once. *)
Theorem install_at_most_once (E : env) (st : state) :
  (forall s,
     fst (guest_state E st) = Ok s ->
     _install E st = (Ok tt, snd (guest_state E st))
     /\ count is_install (trace (snd (_install E st))) = count is_install (trace st))
  /\ count is_install (trace (snd (_install E st))) <= count is_install (trace st) + 1
  /\ (forall rc cmd s,
        fst (guest_state E st) = Raise (CalledProcessError rc cmd) ->
        fst (_install E st) = Ok tt ->
        let s1 := snd (_install E st) in
        fst (guest_state E s1) = Ok s ->
        fst (_install E s1) = Ok tt
        /\ count is_install (trace s1) = count is_install (trace st) + 1
        /\ count is_install (trace (snd (_install E s1)))
           = count is_install (trace st) + 1).
Proof.
  split; [| split].
  - intros s Hgs. pose proof (_install_skips E st s Hgs) as Hskip.
    split; [exact Hskip |].
    rewrite Hskip. cbn [snd]. apply guest_state_no_install.
  - apply _install_bounded.
  - intros rc cmd s Hgs Hok s1 Hgs1.
    pose proof (_install_installs E st rc cmd Hgs Hok) as Hone.
    pose proof (_install_skips E s1 s Hgs1) as Hskip.
    split; [rewrite Hskip; reflexivity |].
    split; [exact Hone |].
    rewrite Hskip. cbn [snd]. rewrite guest_state_no_install. exact Hone.
Qed.

Lemma install_at_most_once_witness :
  let E := Mock.hypervisor Mock.fresh in
  let st := Mock.begin (Mock.named "g1" Mock.handle) in
  let s1 := snd (_install E st) in
  fst (guest_state E st)
  = Raise (CalledProcessError 1 (domstate_argv "qemu:///system" "g1"))
  /\ fst (_install E st) = Ok tt
  /\ fst (guest_state E s1) = Ok "shut off"
  /\ fst (_install E s1) = Ok tt
  /\ count is_install (trace (snd (_install E s1))) = 1.
Proof.
  intros E st s1.
  assert (H1 : fst (guest_state E st)
               = Raise (CalledProcessError 1 (domstate_argv "qemu:///system" "g1")))
    by reflexivity.
  assert (H2 : fst (_install E st) = Ok tt) by (vm_compute; reflexivity).
  assert (H3 : fst (guest_state E s1) = Ok "shut off") by (vm_compute; reflexivity).
  destruct (install_at_most_once E st) as [_ [_ Htwice]].
  destruct (Htwice _ _ _ H1 H2 H3) as [Hok [_ Hcount]].
  repeat split; assumption.
Defined.

(** C3 (amended): with a non-empty hardware descriptor [virt-install] is
    never run.  The check is the assertion in front of the install command:
    when the state query fails with a command error and the kickstart is
    rendered, the answer file is written and then [AssertionError] is
    raised; when the state query finds the domain, the call returns without
    an error. *)
Theorem install_hardware_assertion (E : env) (st : state) :
  hardware_given (self st) = true ->
  count is_install (trace (snd (_install E st))) = count is_install (trace st)
  /\ (forall s,
        fst (guest_state E st) = Ok s ->
        _install E st = (Ok tt, snd (guest_state E st)))
  /\ (forall rc cmd text,
        fst (guest_state E st) = Raise (CalledProcessError rc cmd) ->
        let st3 := before_kickstart (snd (guest_state E st)) in
        fst (_kickstart E st3) = Ok text ->
        _install E st
        = (Raise AssertionError,
           record_event (FileWrite (ks_path (self st)) text) (snd (_kickstart E st3)))).
Proof.
  intros Hhw.
  pose proof (_install_cases E st) as Hc. cbv zeta in Hc.
  rewrite (guest_state_self E st), Hhw in Hc.
  pose proof (_kickstart_no_install E (before_kickstart (snd (guest_state E st))))
    as Hks.
  rewrite before_kickstart_no_install, guest_state_no_install in Hks.
  split; [| split].
  - destruct (fst (guest_state E st)) as [s | e].
    + rewrite Hc. apply guest_state_no_install.
    + destruct e; try (rewrite Hc; apply guest_state_no_install).
      destruct (fst (_kickstart E _)) as [text | e].
      * rewrite Hc. cbn [snd]. rewrite count_record_event, Hks. cbn. lia.
      * rewrite Hc. exact Hks.
  - intros s Hgs. apply (_install_skips E st s Hgs).
  - intros rc cmd text Hgs st3 Htext.
    rewrite Hgs in Hc. unfold st3 in *. rewrite Htext in Hc. exact Hc.
Qed.

Lemma install_hardware_assertion_witness :
  let E := Mock.hypervisor Mock.fresh in
  let g := Mock.constrained in
  hardware_given g = true
  /\ count is_install (trace (snd (_install E (Mock.begin g)))) = 0.
Proof.
  intros E g. split; [reflexivity |].
  destruct (install_hardware_assertion E (Mock.begin g) eq_refl) as [Hcount _].
  exact Hcount.
Defined.

(** With a hardware descriptor and no domain yet, the error comes after the
    hypervisor was queried, the key generated and the answer file written. *)
Lemma install_hardware_counterexample :
  let E := Mock.hypervisor Mock.fresh in
  let g := Mock.constrained in
  exists text,
    fst (_install E (Mock.begin g)) = Raise AssertionError
    /\ trace (snd (_install E (Mock.begin g)))
       = [ Run ["virsh"; "-c"; "qemu:///system"; "domstate"; "g1"];
           Log Verbose "progress" "preparing for installation..." "cyan";
           FileOpen "/var/tmp/tmt/run-001/plan/provision/default-0/ks.cfg";
           Run ["ssh-keygen"; "-f"; "/var/tmp/tmt/run-001/plan/provision/default-0/ssh_key"; "-N"; ""];
           Run ["ssh-keygen"; "-y"; "-f"; "/var/tmp/tmt/run-001/plan/provision/default-0/ssh_key"];
           FileWrite "/var/tmp/tmt/run-001/plan/provision/default-0/ks.cfg" text ].
Proof.
  intros E g. eexists. split; vm_compute; reflexivity.
Qed.

(** With a hardware descriptor and the domain already defined, there is no
    error at all. *)
Example install_hardware_existing_domain :
  let E := Mock.hypervisor {| Mock.initial := Mock.ShutOff;
                               Mock.addr_script := [];
                               Mock.destroy_works := true |} in
  let g := Mock.constrained in
  fst (_install E (Mock.begin g)) = Ok tt.
Proof. vm_compute. reflexivity. Qed.

(** C1 (amended): [get_guest_ip] makes at most ten address queries.  While
    the query exits with a non-zero status it sleeps one second and asks
    again; the first query that exits with status 0, say the one after [k]
    failures with [k < 10], ends the loop after exactly [k + 1] queries and
    [k] sleeps: its parsed address is returned, or, when its output has no
    last-but-one line or that line no field, the [IndexError] is raised at
    once and nothing is retried. *)
Theorem get_guest_ip_polling (E : env) (st : state) :
  (exists evs,
     trace (snd (get_guest_ip E st)) = trace st ++ evs
     /\ count (is_virsh "domifaddr") evs <= 10)
  /\ forall uri name k,
       connection_uri (self st) = Some uri ->
       instance_name (self st) = Some name ->
       k < 10 ->
       let q := domifaddr_argv uri name in
       (forall j, j < k ->
          returncode (addr_at E uri name (trace st ++ rounds q j)) <> 0%Z) ->
       returncode (addr_at E uri name (trace st ++ rounds q k)) = 0%Z ->
       get_guest_ip E st
       = (match parse_domifaddr
                  (stdout (addr_at E uri name (trace st ++ rounds q k))) with
          | Some address => Ok address
          | None => Raise IndexError
          end,
          {| self := self st; trace := trace st ++ rounds q k ++ [Run q] |}).
Proof.
  split.
  - destruct (get_guest_ip_range_bounded E 10 st None) as [evs [Hst Hc]].
    exists evs. unfold get_guest_ip. rewrite Hst. split; [reflexivity | exact Hc].
  - intros uri name k Huri Hname Hk q Hfail Hok.
    apply (get_guest_ip_range_decided E uri name k 10 st None Huri Hname Hk Hfail Hok).
Qed.

Lemma get_guest_ip_polling_witness :
  let E := Mock.hypervisor (Mock.running [Mock.failed; Mock.failed]) in
  let st := Mock.begin (Mock.named "g1" Mock.handle) in
  let q := domifaddr_argv "qemu:///system" "g1" in
  (forall j, j < 2 ->
     returncode (addr_at E "qemu:///system" "g1" (trace st ++ rounds q j)) <> 0%Z)
  /\ returncode (addr_at E "qemu:///system" "g1" (trace st ++ rounds q 2)) = 0%Z
  /\ get_guest_ip E st
     = (Ok "192.0.2.5",
        {| self := self st;
           trace := [Run q; Sleep 1; Run q; Sleep 1; Run q] |}).
Proof.
  intros E st q.
  assert (Hfail : forall j, j < 2 ->
             returncode (addr_at E "qemu:///system" "g1" (trace st ++ rounds q j))
             <> 0%Z).
  { intros [| [| j]] Hj; [vm_compute; discriminate | vm_compute; discriminate | lia]. }
  assert (Hok : returncode (addr_at E "qemu:///system" "g1" (trace st ++ rounds q 2))
                = 0%Z) by reflexivity.
  split; [exact Hfail |]. split; [exact Hok |].
  destruct (get_guest_ip_polling E st) as [_ Hpoll].
  rewrite (Hpoll "qemu:///system" "g1" 2 eq_refl eq_refl ltac:(lia) Hfail Hok).
  vm_compute. reflexivity.
Defined.

(** A first answer with exit status 0 and an empty output is not retried,
    although the next query would have given the address: the [IndexError]
    leaves [get_guest_ip] after one query and without a sleep. *)
Lemma get_guest_ip_short_output_counterexample :
  let E := Mock.hypervisor (Mock.running [Mock.ok ""]) in
  let st := Mock.begin (Mock.named "g1" Mock.handle) in
  let q := domifaddr_argv "qemu:///system" "g1" in
  parse_domifaddr (stdout (addr_at E "qemu:///system" "g1" [Run q; Sleep 1]))
  = Some "192.0.2.5"
  /\ get_guest_ip E st = (Raise IndexError, {| self := self st; trace := [Run q] |}).
Proof. vm_compute. split; reflexivity. Qed.

(** Ten failing queries end in [UnboundLocalError], not in the error of the
    last query. *)
Example get_guest_ip_exhausted_on_mock :
  let E := Mock.hypervisor (Mock.running (repeat Mock.failed 10)) in
  let st := Mock.begin (Mock.named "g1" Mock.handle) in
  get_guest_ip E st
  = (Raise (UnboundLocalError "e"),
     {| self := self st;
        trace := rounds (domifaddr_argv "qemu:///system" "g1") 10 |}).
Proof. vm_compute. reflexivity. Qed.

(** An output whose last-but-one line is the rule of dashes under the
    header resolves to that rule. *)
Example parse_domifaddr_rule_of_dashes :
  parse_domifaddr
    (String.concat nl
       [ " Name       MAC address          Protocol     Address";
         "-------------------------------------------------------------------------------";
         "";
         "" ])
  = Some "-------------------------------------------------------------------------------".
Proof. vm_compute. reflexivity. Qed.

(** ** What [start] does with the address and the port *)

Lemma only_adds_endpoint (p : event -> bool) (s s' : state) :
  only_adds p s s' ->
  guest (self s') = guest (self s) /\ port (self s') = port (self s).
Proof.
  intros [Hself _]. rewrite Hself. destruct (self s); split; reflexivity.
Qed.

Lemma keeps__install (E : env) : keeps (only_adds any_event) (_install E).
Proof.
  unfold _install. apply keeps_bind.
  - apply keeps_try_except.
    + apply keeps_bind; [apply keeps_guest_state; reflexivity |].
      intros _. apply keeps_ret.
    + apply keeps_except_CalledProcessError. intros _. apply keeps_ret.
  - intros [|]; [apply keeps_ret |].
    apply keeps_bind; [apply keeps_get_self |]. intros g.
    apply keeps_bind; [apply keeps_emit; reflexivity |]. intros _.
    apply keeps_bind; [apply keeps_emit; reflexivity |]. intros _.
    apply keeps_bind; [apply keeps__kickstart; reflexivity |]. intros text.
    apply keeps_bind; [apply keeps_emit; reflexivity |]. intros _.
    apply keeps_bind; [apply keeps_get_self |]. intros g'.
    apply keeps_bind; [apply keeps_assert |]. intros _.
    apply keeps_bind; [apply keeps_emit; reflexivity |]. intros _.
    apply keeps_bind; [| intros _; apply keeps_ret].
    unfold virt_install_cmd. apply keeps_subprocess_run. reflexivity.
Qed.

(** ** The key pair *)

Lemma getitem_first {A : Type} (x : A) (l : list A) (st : state) :
  getitem (x :: l) 0 st = (Ok x, st).
Proof. unfold getitem. rewrite index_first. reflexivity. Qed.

(** With a key on record, [ssh_pubkey] only derives the public half. *)
Lemma ssh_pubkey_recorded (E : env) (st : state) (key0 : string) (others : list string) :
  key (self st) = key0 :: others ->
  ssh_pubkey E st
  = (Ok (Py.rstrip_char Py.LF (stdout (env_process E (trace st) (pubkey_argv key0)))),
     record_event (Run (pubkey_argv key0)) st).
Proof.
  intros Hkey. unfold ssh_pubkey, _generate_ssh_key.
  rewrite (bind_ok _ _ st st tt).
  2:{ rewrite (bind_ok _ _ _ _ _ (get_self_run st)). rewrite Hkey. reflexivity. }
  rewrite (bind_ok _ _ _ _ _ (get_self_run st)). rewrite Hkey.
  rewrite (bind_ok _ _ _ _ _ (getitem_first key0 others st)).
  reflexivity.
Qed.

(** Without a key on record, the file name is recorded, the pair is
    generated and, when that succeeded, the public half is derived. *)
Lemma ssh_pubkey_first (E : env) (st : state) :
  key (self st) = [] ->
  let key0 := Py.path_join (workdir (self st)) "ssh_key" in
  let st1 := record_event (Run (keygen_argv key0))
               {| self := set_key [key0] (self st); trace := trace st |} in
  ssh_pubkey E st
  = if (returncode (env_process E (trace st) (keygen_argv key0)) =? 0)%Z
    then (Ok (Py.rstrip_char Py.LF
                (stdout (env_process E (trace st1) (pubkey_argv key0)))),
          record_event (Run (pubkey_argv key0)) st1)
    else (Raise (CalledProcessError
                   (returncode (env_process E (trace st) (keygen_argv key0)))
                   (keygen_argv key0)),
          st1).
Proof.
  intros Hkey key0 st1.
  unfold ssh_pubkey.
  assert (Hgen : _generate_ssh_key E st
                 = (if (returncode (env_process E (trace st) (keygen_argv key0)) =? 0)%Z
                    then Ok tt
                    else Raise (CalledProcessError
                                  (returncode (env_process E (trace st) (keygen_argv key0)))
                                  (keygen_argv key0)),
                    st1)).
  { unfold _generate_ssh_key.
    rewrite (bind_ok _ _ _ _ _ (get_self_run st)). rewrite Hkey. cbn [Py.truthy_list].
    rewrite (bind_ok _ _ _ _ _ (modify_self_run _ _)).
    rewrite (bind_ok _ _ _ _ _ (get_self_run _)).
    cbn [self key set_key].
    rewrite (bind_ok _ _ _ _ _ (getitem_first _ _ _)).
    unfold bind, subprocess_run. cbn [all_strings andb trace].
    fold key0. fold (keygen_argv key0).
    destruct (returncode _ =? 0)%Z; reflexivity. }
  destruct (returncode _ =? 0)%Z.
  - rewrite (bind_ok _ _ _ _ _ Hgen).
    fold (ssh_pubkey E).
    change (ssh_pubkey E st1
            = (Ok (Py.rstrip_char Py.LF
                     (stdout (env_process E (trace st1) (pubkey_argv key0)))),
               record_event (Run (pubkey_argv key0)) st1)).
    apply (ssh_pubkey_recorded E st1 key0 []). reflexivity.
  - rewrite (bind_raise _ _ _ _ _ Hgen). reflexivity.
Qed.

Lemma pubkey_calls_recorded (E : env) (n : nat) :
  forall st key0 others,
    key (self st) = key0 :: others ->
    self (pubkey_calls E n st) = self st
    /\ count is_keygen (trace (pubkey_calls E n st)) = count is_keygen (trace st).
Proof.
  induction n as [| n IH]; intros st key0 others Hkey; [split; reflexivity |].
  cbn [pubkey_calls]. rewrite (ssh_pubkey_recorded E st key0 others Hkey). cbn [snd].
  destruct (IH (record_event (Run (pubkey_argv key0)) st) key0 others Hkey)
    as [Hself Hcount].
  rewrite Hself, Hcount, count_record_event. split; [reflexivity | cbn; lia].
Qed.

Lemma ssh_pubkey_first_state (E : env) (st : state) :
  key (self st) = [] ->
  let key0 := Py.path_join (workdir (self st)) "ssh_key" in
  key (self (snd (ssh_pubkey E st))) = [key0]
  /\ exists after,
       trace (snd (ssh_pubkey E st)) = trace st ++ Run (keygen_argv key0) :: after
       /\ (after = [] \/ after = [Run (pubkey_argv key0)]).
Proof.
  intros Hkey key0. rewrite (ssh_pubkey_first E st Hkey). cbv zeta. fold key0.
  destruct (returncode _ =? 0)%Z; cbn [snd].
  - split; [reflexivity |]. exists [Run (pubkey_argv key0)].
    split; [| right; reflexivity].
    unfold record_event; cbn [trace self]. rewrite <- app_assoc. reflexivity.
  - split; [reflexivity |]. exists []. split; [reflexivity | left; reflexivity].
Qed.

(** C9: with a key on record every access of [ssh_pubkey] skips the
    generation and returns what [ssh-keygen -y] derives from that key;
    without one, the first access records the key file and generates the
    pair before anything else, and every later access finds that key on
    record, generates nothing and derives from the same file: over any
    number of accesses the pair is generated at most once. *)
Theorem ssh_key_generated_once (E : env) (st : state) :
  (forall key0 others,
     key (self st) = key0 :: others ->
     ssh_pubkey E st
     = (Ok (Py.rstrip_char Py.LF (stdout (env_process E (trace st) (pubkey_argv key0)))),
        record_event (Run (pubkey_argv key0)) st)
     /\ forall n,
          self (pubkey_calls E n st) = self st
          /\ count is_keygen (trace (pubkey_calls E n st)) = count is_keygen (trace st))
  /\ (key (self st) = [] ->
      let key0 := Py.path_join (workdir (self st)) "ssh_key" in
      let st1 := record_event (Run (keygen_argv key0))
                   {| self := set_key [key0] (self st); trace := trace st |} in
      ssh_pubkey E st
      = (if (returncode (env_process E (trace st) (keygen_argv key0)) =? 0)%Z
         then (Ok (Py.rstrip_char Py.LF
                     (stdout (env_process E (trace st1) (pubkey_argv key0)))),
               record_event (Run (pubkey_argv key0)) st1)
         else (Raise (CalledProcessError
                        (returncode (env_process E (trace st) (keygen_argv key0)))
                        (keygen_argv key0)),
               st1))
      /\ forall n,
           let later := pubkey_calls E (S n) st in
           key (self later) = [key0]
           /\ count is_keygen (trace later) = count is_keygen (trace st) + 1
           /\ ssh_pubkey E later
              = (Ok (Py.rstrip_char Py.LF
                       (stdout (env_process E (trace later) (pubkey_argv key0)))),
                 record_event (Run (pubkey_argv key0)) later))
  /\ (forall n,
        count is_keygen (trace (pubkey_calls E n st)) <= count is_keygen (trace st) + 1).
Proof.
  assert (Hrecorded : forall key0 others,
             key (self st) = key0 :: others ->
             forall n,
               self (pubkey_calls E n st) = self st
               /\ count is_keygen (trace (pubkey_calls E n st))
                  = count is_keygen (trace st)).
  { intros key0 others Hkey n. apply (pubkey_calls_recorded E n st key0 others Hkey). }
  assert (Hfirst : key (self st) = [] ->
             forall n,
               key (self (pubkey_calls E (S n) st))
               = [Py.path_join (workdir (self st)) "ssh_key"]
               /\ count is_keygen (trace (pubkey_calls E (S n) st))
                  = count is_keygen (trace st) + 1).
  { intros Hkey n. cbn [pubkey_calls].
    destruct (ssh_pubkey_first_state E st Hkey) as [Hk [after [Htr Hafter]]].
    destruct (pubkey_calls_recorded E n _ _ [] Hk) as [Hself Hcount].
    rewrite Hself, Hcount, Hk, Htr, count_app. split; [reflexivity |].
    destruct Hafter as [-> | ->]; cbn; lia. }
  split; [| split].
  - intros key0 others Hkey.
    split; [apply (ssh_pubkey_recorded E st key0 others Hkey) |].
    apply (Hrecorded key0 others Hkey).
  - intros Hkey key0 st1.
    split; [apply (ssh_pubkey_first E st Hkey) |].
    intros n later. destruct (Hfirst Hkey n) as [Hk Hc].
    split; [exact Hk |]. split; [exact Hc |].
    apply (ssh_pubkey_recorded E later key0 []). exact Hk.
  - intros n. destruct (key (self st)) as [| key0 others] eqn:Hkey.
    + destruct n as [| n]; [cbn; lia |].
      destruct (Hfirst eq_refl n) as [_ Hc]. lia.
    + destruct (Hrecorded key0 others eq_refl n) as [_ Hc]. lia.
Qed.

Lemma ssh_key_generated_once_witness :
  let E := Mock.hypervisor Mock.fresh in
  let st := Mock.begin (Mock.named "g1" Mock.handle) in
  key (self st) = []
  /\ count is_keygen (trace (pubkey_calls E 3 st)) = 1
  /\ fst (ssh_pubkey E (pubkey_calls E 3 st)) = Ok "ssh-ed25519 AAAAC3NzaC1lZDI1NTE5 tmt".
Proof.
  intros E st.
  assert (Hkey : key (self st) = []) by reflexivity.
  destruct (ssh_key_generated_once E st) as [_ [Hfirst _]].
  destruct (Hfirst Hkey) as [_ Hlater].
  destruct (Hlater 2) as [_ [Hcount Hpub]].
  split; [exact Hkey |]. split; [exact Hcount |].
  rewrite Hpub. vm_compute. reflexivity.
Defined.

(** A generation that fails leaves the key file on record: the next access
    does not generate again and derives from a file that was never made. *)
Example ssh_pubkey_after_failed_generation :
  let E := {| env_process := fun _ argv =>
                if is_keygen (Run argv) then Mock.failed else Mock.ok "";
              env_tmt_name := fun _ => "tmt-001-abcdefgh";
              env_is_ready := fun _ _ => Ok true;
              env_stop := fun _ _ => Ok tt;
              env_reboot := fun _ _ _ _ => Ok true;
              env_reconnect := fun _ _ _ _ => Ok true |} in
  let st := Mock.begin (Mock.named "g1" Mock.handle) in
  let key0 := "/var/tmp/tmt/run-001/plan/provision/default-0/ssh_key" in
  fst (ssh_pubkey E st) = Raise (CalledProcessError 1 (keygen_argv key0))
  /\ ssh_pubkey E (snd (ssh_pubkey E st))
     = (Ok "", {| self := set_key [key0] (self st);
                  trace := [Run (keygen_argv key0); Run (pubkey_argv key0)] |}).
Proof. vm_compute. split; reflexivity. Qed.

(** * Further properties of the methods *)

(** ** What the parsers give back *)

Lemma all_chars_app (p : ascii -> bool) (a b : string) :
  all_chars p (a ++ b)%string = all_chars p a && all_chars p b.
Proof.
  induction a as [| c a IH]; [reflexivity |].
  cbn [append all_chars]. rewrite IH, andb_assoc. reflexivity.
Qed.

Lemma all_chars_snoc (p : ascii -> bool) (s : string) (c : ascii) :
  all_chars p s = true -> p c = true -> all_chars p (Py.snoc s c) = true.
Proof.
  intros Hs Hc. unfold Py.snoc. rewrite all_chars_app, Hs. cbn. rewrite Hc. reflexivity.
Qed.

(** Every field of [str.split] is free of white space. *)
Lemma split_from_fields (s : string) :
  forall cur,
    all_chars (fun c => negb (Py.isspace c)) cur = true ->
    Forall (fun f => all_chars (fun c => negb (Py.isspace c)) f = true)
           (Py.split_from cur s).
Proof.
  induction s as [| c rest IH]; intros cur Hcur.
  - cbn. unfold Py.flush. destruct (Py.is_empty cur); auto.
  - cbn [Py.split_from]. destruct (Py.isspace c) eqn:Hc.
    + apply Forall_app. split; [| apply IH; reflexivity].
      unfold Py.flush. destruct (Py.is_empty cur); auto.
    + apply IH. apply all_chars_snoc; [exact Hcur | rewrite Hc; reflexivity].
Qed.

Lemma spec_strip_subnet_prefix (field : string) :
  exists rest, field = (spec_strip_subnet field ++ rest)%string.
Proof.
  induction field as [| c field [rest IH]].
  - exists "". reflexivity.
  - cbn [spec_strip_subnet]. destruct (Ascii.eqb c "/").
    + exists (String c field). reflexivity.
    + exists rest. cbn. rewrite <- IH. reflexivity.
Qed.

Lemma spec_strip_subnet_no_slash (field : string) :
  no_slash (spec_strip_subnet field) = true.
Proof.
  induction field as [| c field IH]; [reflexivity |].
  cbn [spec_strip_subnet]. destruct (Ascii.eqb c "/") eqn:Hc; [reflexivity |].
  unfold no_slash in *. cbn [all_chars]. rewrite Hc, IH. reflexivity.
Qed.

Lemma nth_error_Forall {A : Type} (P : A -> Prop) (l : list A) (n : nat) (x : A) :
  Forall P l -> nth_error l n = Some x -> P x.
Proof.
  intros Hall Hn. apply nth_error_In in Hn.
  rewrite Forall_forall in Hall. apply Hall. exact Hn.
Qed.

(** X2: whatever the output of the query, an address that [get_guest_ip]
    parses from it holds no slash and no white space. *)
Theorem parsed_address_is_clean (out address : string) :
  parse_domifaddr out = Some address ->
  no_slash address = true
  /\ all_chars (fun c => negb (Py.isspace c)) address = true.
Proof.
  rewrite parse_domifaddr_refines. unfold spec_resolved_address.
  destruct (spec_last_but_one (Py.splitlines out)) as [line |]; [| discriminate].
  destruct (spec_final (Py.split line)) as [field |] eqn:Hfield; [| discriminate].
  intros H. injection H as <-.
  split; [apply spec_strip_subnet_no_slash |].
  assert (Hclean : all_chars (fun c => negb (Py.isspace c)) field = true).
  { unfold spec_final in Hfield.
    apply (nth_error_Forall
             (fun f => all_chars (fun c => negb (Py.isspace c)) f = true)
             (rev (Py.split line)) 0 field); [| exact Hfield].
    apply Forall_rev. apply split_from_fields. reflexivity. }
  destruct (spec_strip_subnet_prefix field) as [rest Hrest].
  rewrite Hrest, all_chars_app in Hclean.
  apply andb_true_iff in Hclean as [Hclean _]. exact Hclean.
Qed.

Lemma parsed_address_is_clean_witness :
  parse_domifaddr (Mock.domifaddr_table "192.0.2.5/24") = Some "192.0.2.5"
  /\ no_slash "192.0.2.5" = true.
Proof.
  assert (H : parse_domifaddr (Mock.domifaddr_table "192.0.2.5/24") = Some "192.0.2.5")
    by (vm_compute; reflexivity).
  split; [exact H |].
  exact (proj1 (parsed_address_is_clean _ _ H)).
Defined.

Lemma splitlines_from_clean (n : nat) :
  forall s cur,
    String.length s <= n ->
    no_linebreak cur = true ->
    Forall (fun l => no_linebreak l = true) (Py.splitlines_from cur s).
Proof.
  induction n as [| n IH]; intros s cur Hlen Hcur.
  - destruct s; [| cbn in Hlen; lia].
    cbn. destruct (Py.is_empty cur); auto.
  - destruct s as [| c rest]; [cbn; destruct (Py.is_empty cur); auto |].
    cbn [String.length] in Hlen. cbn [Py.splitlines_from].
    destruct (Py.is_linebreak c) eqn:Hc.
    + constructor; [exact Hcur |].
      destruct rest as [| c' rest']; [apply IH; [cbn; lia | reflexivity] |].
      cbn [String.length] in Hlen.
      destruct (Ascii.eqb c Py.CR && Ascii.eqb c' Py.LF);
        apply IH; cbn [String.length]; try lia; reflexivity.
    + apply IH; [lia |].
      apply all_chars_snoc; [exact Hcur | rewrite Hc; reflexivity].
Qed.

Lemma splitlines_from_first_line (s : string) :
  forall cur rest,
    no_linebreak s = true ->
    exists others,
      Py.splitlines_from cur (s ++ String Py.LF rest) = (cur ++ s)%string :: others.
Proof.
  induction s as [| c s IH]; intros cur rest Hs.
  - cbn [append]. rewrite string_app_nil_r.
    destruct rest as [| c' rest']; eexists; reflexivity.
  - unfold no_linebreak in Hs. cbn [all_chars] in Hs.
    apply andb_true_iff in Hs as [Hc Hs]. apply negb_true_iff in Hc.
    cbn [append Py.splitlines_from]. rewrite Hc.
    destruct (IH (Py.snoc cur c) rest Hs) as [others Hothers].
    exists others. rewrite Hothers. unfold Py.snoc.
    rewrite string_app_assoc. reflexivity.
Qed.

Lemma index_zero_in {A : Type} (l : list A) (x : A) :
  Py.index l 0 = Some x -> In x l.
Proof.
  unfold Py.index. cbn [Z.ltb Z.compare].
  destruct ((0 <=? 0)%Z && (0 <? Z.of_nat (List.length l))%Z); [| discriminate].
  apply nth_error_In.
Qed.

(** X3: the state [guest_state] returns is one line: it never holds a line
    boundary, and when the query exits with 0 and its output starts with a
    line [s], whatever follows the first line feed, the state is [s]. *)
Theorem guest_state_is_first_line (E : env) (st : state) :
  (forall s, fst (guest_state E st) = Ok s -> no_linebreak s = true)
  /\ (forall uri name s rest,
        connection_uri (self st) = Some uri ->
        instance_name (self st) = Some name ->
        returncode (env_process E (trace st) (domstate_argv uri name)) = 0%Z ->
        stdout (env_process E (trace st) (domstate_argv uri name))
        = (s ++ String Py.LF rest)%string ->
        no_linebreak s = true ->
        guest_state E st = (Ok s, record_event (Run (domstate_argv uri name)) st)).
Proof.
  split.
  - intros s. unfold guest_state, _virsh, bind, get_self, subprocess_run, getitem.
    destruct (all_strings _); [| discriminate].
    destruct (true && _); [discriminate |].
    destruct (Py.index _ 0) as [s' |] eqn:Hidx; [| discriminate].
    cbn [fst]. intros H. injection H as <-.
    apply index_zero_in in Hidx.
    pose proof (splitlines_from_clean
                  (String.length (stdout (env_process E (trace st) l)))
                  (stdout (env_process E (trace st) l)) "" (le_n _) eq_refl) as Hall.
    rewrite Forall_forall in Hall. apply Hall. exact Hidx.
  - intros uri name s rest Huri Hname Hrc Hout Hs.
    apply (guest_state_reported E st uri name s Huri Hname).
    unfold state_at, reported_state. rewrite Hrc, Hout. cbn [Z.eqb].
    unfold Py.splitlines.
    destruct (splitlines_from_first_line s "" rest Hs) as [others ->].
    apply index_first.
Qed.

Lemma guest_state_is_first_line_witness :
  let E := Mock.always "running" in
  let st := Mock.begin (Mock.named "g1" Mock.handle) in
  stdout (env_process E (trace st) (domstate_argv "qemu:///system" "g1"))
  = ("running" ++ String Py.LF nl)%string
  /\ guest_state E st
     = (Ok "running", record_event (Run (domstate_argv "qemu:///system" "g1")) st).
Proof.
  intros E st.
  assert (Hout : stdout (env_process E (trace st) (domstate_argv "qemu:///system" "g1"))
                 = ("running" ++ String Py.LF nl)%string) by reflexivity.
  split; [exact Hout |].
  destruct (guest_state_is_first_line E st) as [_ Hfirst].
  apply (Hfirst "qemu:///system" "g1" "running" nl eq_refl eq_refl eq_refl Hout eq_refl).
Defined.

(** ** The public key *)

Lemma last_char_snoc (s : string) (c : ascii) : last_char (Py.snoc s c) = Some c.
Proof.
  induction s as [| a s IH]; [reflexivity |].
  unfold Py.snoc in *. cbn [append last_char].
  destruct (s ++ String c "")%string eqn:Happ; [destruct s; discriminate |].
  exact IH.
Qed.

Lemma last_char_rev (s : string) : last_char (Py.rev_string s) = first_char s.
Proof. destruct s as [| c s]; [reflexivity | apply last_char_snoc]. Qed.

Lemma first_char_lstrip (ch : ascii) (s : string) :
  first_char (Py.lstrip_char ch s) <> Some ch.
Proof.
  induction s as [| c s IH]; [discriminate |].
  cbn [Py.lstrip_char]. destruct (Ascii.eqb_spec c ch) as [-> | Hne]; [exact IH |].
  cbn. intros H. injection H as H. contradiction.
Qed.

Lemma lstrip_char_split (ch : ascii) (s : string) :
  exists stripped,
    s = (stripped ++ Py.lstrip_char ch s)%string
    /\ all_chars (Ascii.eqb ch) stripped = true.
Proof.
  induction s as [| c s [stripped [IH Hall]]]; [exists ""; split; reflexivity |].
  cbn [Py.lstrip_char]. destruct (Ascii.eqb_spec c ch) as [-> | Hne].
  - exists (String ch stripped). cbn [append all_chars].
    rewrite <- IH, Ascii.eqb_refl, Hall. split; reflexivity.
  - exists "". split; reflexivity.
Qed.

Lemma rev_string_app (a b : string) :
  Py.rev_string (a ++ b) = (Py.rev_string b ++ Py.rev_string a)%string.
Proof.
  induction a as [| c a IH]; [cbn; rewrite string_app_nil_r; reflexivity |].
  cbn [append Py.rev_string]. rewrite IH. unfold Py.snoc.
  apply string_app_assoc.
Qed.

Lemma rev_string_involutive (s : string) : Py.rev_string (Py.rev_string s) = s.
Proof.
  induction s as [| c s IH]; [reflexivity |].
  cbn [Py.rev_string]. unfold Py.snoc. rewrite rev_string_app, IH. reflexivity.
Qed.

Lemma all_chars_rev (p : ascii -> bool) (s : string) :
  all_chars p (Py.rev_string s) = all_chars p s.
Proof.
  induction s as [| c s IH]; [reflexivity |].
  cbn [Py.rev_string all_chars]. unfold Py.snoc.
  rewrite all_chars_app, IH. cbn [all_chars].
  rewrite andb_true_r. apply andb_comm.
Qed.

(** [rstrip] takes a run of the character off the end and nothing else. *)
Lemma rstrip_char_split (ch : ascii) (s : string) :
  last_char (Py.rstrip_char ch s) <> Some ch
  /\ exists stripped,
       s = (Py.rstrip_char ch s ++ stripped)%string
       /\ all_chars (Ascii.eqb ch) stripped = true.
Proof.
  unfold Py.rstrip_char. split.
  - rewrite last_char_rev. apply first_char_lstrip.
  - destruct (lstrip_char_split ch (Py.rev_string s)) as [stripped [Hs Hall]].
    exists (Py.rev_string stripped). split; [| rewrite all_chars_rev; exact Hall].
    rewrite <- rev_string_app, <- Hs, rev_string_involutive. reflexivity.
Qed.

(** X4: whenever [ssh_pubkey] returns, the key is the output of
    [ssh-keygen -y] on the first recorded key file with the line feeds at
    its end taken off and nothing else changed; it never ends in a line
    feed. *)
Theorem ssh_pubkey_strips_newlines (E : env) (st s' : state) (pubkey : string) :
  ssh_pubkey E st = (Ok pubkey, s') ->
  last_char pubkey <> Some Py.LF
  /\ exists key0 tr stripped,
       hd_error (key (self s')) = Some key0
       /\ trace s' = tr ++ [Run (pubkey_argv key0)]
       /\ stdout (env_process E tr (pubkey_argv key0)) = (pubkey ++ stripped)%string
       /\ all_chars (Ascii.eqb Py.LF) stripped = true.
Proof.
  intros Hrun.
  assert (Hshape : exists key0 tr,
             pubkey = Py.rstrip_char Py.LF (stdout (env_process E tr (pubkey_argv key0)))
             /\ hd_error (key (self s')) = Some key0
             /\ trace s' = tr ++ [Run (pubkey_argv key0)]).
  { destruct (key (self st)) as [| key0 others] eqn:Hkey.
    - rewrite (ssh_pubkey_first E st Hkey) in Hrun. cbv zeta in Hrun.
      destruct (returncode _ =? 0)%Z; [| discriminate].
      injection Hrun as <- <-. eexists; eexists.
      split; [reflexivity |]. split; reflexivity.
    - rewrite (ssh_pubkey_recorded E st key0 others Hkey) in Hrun.
      injection Hrun as <- <-. exists key0, (trace st).
      split; [reflexivity |]. cbn [self record_event trace]. rewrite Hkey.
      split; reflexivity. }
  destruct Hshape as [key0 [tr [-> [Hhd Htr]]]].
  destruct (rstrip_char_split Py.LF (stdout (env_process E tr (pubkey_argv key0))))
    as [Hlast [stripped [Hsplit Hall]]].
  split; [exact Hlast |].
  exists key0, tr, stripped. repeat split; assumption.
Qed.

Lemma ssh_pubkey_strips_newlines_witness :
  let E := Mock.hypervisor Mock.fresh in
  let st := Mock.begin (Mock.named "g1" Mock.handle) in
  ssh_pubkey E st = (Ok "ssh-ed25519 AAAAC3NzaC1lZDI1NTE5 tmt", snd (ssh_pubkey E st))
  /\ last_char "ssh-ed25519 AAAAC3NzaC1lZDI1NTE5 tmt" <> Some Py.LF.
Proof.
  intros E st.
  assert (H : ssh_pubkey E st
              = (Ok "ssh-ed25519 AAAAC3NzaC1lZDI1NTE5 tmt", snd (ssh_pubkey E st)))
    by (vm_compute; reflexivity).
  split; [exact H |].
  exact (proj1 (ssh_pubkey_strips_newlines E st _ _ H)).
Defined.

(** ** The ways through [start] *)

Lemma start_cases (E : env) (st : state) :
  opt_dry (self st) = false ->
  let s0 := start_prelude E st in
  let s1 := snd (_install E s0) in
  match fst (_install E s0) with
  | Raise e => start E st = (Raise (install_error e), s1)
  | Ok _ =>
      let s2 := snd (guest_state E s1) in
      match fst (guest_state E s1) with
      | Raise e => start E st = (Raise e, s2)
      | Ok s =>
          let s3 := snd (start_if_not_running E s s2) in
          match fst (start_if_not_running E s s2) with
          | Raise e => start E st = (Raise e, s3)
          | Ok _ =>
              let s4 := snd (get_guest_ip E s3) in
              match fst (get_guest_ip E s3) with
              | Raise e => start E st = (Raise e, s4)
              | Ok ip =>
                  start E st
                  = (match env_reconnect E
                             (trace s4 ++ [Log Verbose "ip" ip "green";
                                           Log Verbose "port" "22" "green"])
                             (set_port (Some 22%Z) (set_guest (Some ip) (self s4)))
                             (Some 60%Z) (Some 1%Z) with
                     | Ok true => Ok tt
                     | Ok false => Raise connect_failed
                     | Raise e => Raise e
                     end,
                     start_connected ip s4)
              end
          end
      end
  end.
Proof.
  intros Hdry. cbv zeta.
  remember (start E st) as res eqn:Hres.
  unfold start in Hres.
  rewrite (bind_ok _ _ _ _ _ (_tmt_name_run E st)) in Hres.
  rewrite (bind_ok _ _ _ _ _ (modify_self_run _ _)) in Hres.
  unfold verbose at 1 in Hres.
  rewrite (bind_ok _ _ _ _ _ (emit_run _ _)) in Hres.
  rewrite (bind_ok _ _ _ _ _ (get_self_run _)) in Hres.
  change (record_event _ _) with (start_prelude E st) in Hres.
  change (opt_dry (self (start_prelude E st))) with (opt_dry (self st)) in Hres.
  rewrite Hdry in Hres.
  unfold bind at 1 in Hres. unfold try_except in Hres.
  destruct (_install E (start_prelude E st)) as [[[] | e] s1]; cbn [fst snd].
  2:{ destruct e; exact Hres. }
  unfold bind at 1 in Hres.
  destruct (guest_state E s1) as [[s | e] s2]; cbn [fst snd]; [| exact Hres].
  unfold bind at 1 in Hres. fold (start_if_not_running E s) in Hres.
  destruct (start_if_not_running E s s2) as [[[] | e] s3]; cbn [fst snd];
    [| exact Hres].
  unfold bind at 1 in Hres.
  destruct (get_guest_ip E s3) as [[ip | e] s4]; cbn [fst snd]; [| exact Hres].
  rewrite (bind_ok _ _ _ _ _ (modify_self_run _ _)) in Hres.
  rewrite (bind_ok _ _ _ _ _ (modify_self_run _ _)) in Hres.
  rewrite (bind_ok _ _ _ _ _ (get_self_run _)) in Hres.
  unfold verbose in Hres.
  rewrite (bind_ok _ _ _ _ _ (emit_run _ _)) in Hres.
  rewrite (bind_ok _ _ _ _ _ (emit_run _ _)) in Hres.
  unfold bind, reconnect, record_event in Hres. cbn [self trace] in Hres.
  rewrite <- !app_assoc in Hres. cbn [app] in Hres.
  rewrite Hres. unfold start_connected.
  destruct (env_reconnect E _ _ _ _) as [[|] | e]; reflexivity.
Qed.

(** X5: an error that leaves [_install] ends [start] in the state
    [_install] left: a [CalledProcessError] is raised as the provisioning
    error that carries it, any other error (the [AssertionError] of the
    hardware check, a [TypeError], an [IndexError]) is raised as it is. *)
Theorem start_wraps_install_failure (E : env) (st s1 : state) (e : exn) :
  opt_dry (self st) = false ->
  _install E (start_prelude E st) = (Raise e, s1) ->
  start E st = (Raise (install_error e), s1)
  /\ (forall rc cmd,
        e = CalledProcessError rc cmd ->
        install_error e
        = ProvisionError "Failed to install OS on a libvirt guest ({error})."
            (Some (rc, cmd)))
  /\ ((forall rc cmd, e <> CalledProcessError rc cmd) -> install_error e = e).
Proof.
  intros Hdry Hinstall.
  pose proof (start_cases E st Hdry) as Hc. cbv zeta in Hc.
  rewrite Hinstall in Hc. cbn [fst snd] in Hc.
  split; [exact Hc |]. split.
  - intros rc cmd ->. reflexivity.
  - intros Hne. destruct e; try reflexivity.
    exfalso. apply (Hne returncode0 cmd). reflexivity.
Qed.

Lemma start_wraps_install_failure_witness :
  let st := Mock.begin Mock.handle in
  let cmd := virt_install_argv "qemu:///system" "tmt-001-abcdefgh"
               "/var/tmp/tmt/run-001/plan/provision/default-0/ks.cfg"
               "http://example/os" in
  opt_dry (self st) = false
  /\ fst (_install failing_install (start_prelude failing_install st))
     = Raise (CalledProcessError 1 cmd)
  /\ fst (start failing_install st)
     = Raise (ProvisionError "Failed to install OS on a libvirt guest ({error})."
                (Some (1%Z, cmd))).
Proof.
  intros st cmd.
  assert (Hi : _install failing_install (start_prelude failing_install st)
               = (Raise (CalledProcessError 1 cmd),
                  snd (_install failing_install (start_prelude failing_install st))))
    by (vm_compute; reflexivity).
  split; [reflexivity |]. split; [rewrite Hi; reflexivity |].
  destruct (start_wraps_install_failure failing_install st _ _ eq_refl Hi) as [Hs _].
  rewrite Hs. reflexivity.
Defined.

(** ** What a computation adds to the trace *)

Section Adding.

Variable p : event -> bool.

Lemma adds_refl (s : state) : adds p s s.
Proof.
  split; [reflexivity |]. exists []. rewrite app_nil_r. split; reflexivity.
Qed.

Lemma adds_trans (s1 s2 s3 : state) : adds p s1 s2 -> adds p s2 s3 -> adds p s1 s3.
Proof.
  intros [H12 [e12 [T12 P12]]] [H23 [e23 [T23 P23]]]. split.
  - rewrite H23. exact H12.
  - exists (e12 ++ e23). rewrite T23, T12, <- app_assoc.
    split; [reflexivity |]. rewrite forallb_app, P12, P23. reflexivity.
Qed.

Lemma adds_event (s : state) (ev : event) : p ev = true -> adds p s (record_event ev s).
Proof.
  intros Hev. split; [reflexivity |].
  exists [ev]. split; [reflexivity |]. cbn. rewrite Hev. reflexivity.
Qed.

Lemma adding_ret {A : Type} (a : A) : keeps (adds p) (ret a).
Proof. intros st. apply adds_refl. Qed.

Lemma adding_raise {A : Type} (e : exn) : keeps (adds p) (@raise A e).
Proof. intros st. apply adds_refl. Qed.

Lemma adding_get_self : keeps (adds p) get_self.
Proof. intros st. apply adds_refl. Qed.

Lemma adding_getitem {A : Type} (l : list A) (i : Z) : keeps (adds p) (getitem l i).
Proof. intros st. unfold getitem. destruct (Py.index l i); apply adds_refl. Qed.

Lemma adding_subscript {A : Type} (o : option A) : keeps (adds p) (subscript o).
Proof. destruct o; [apply adding_ret | apply adding_raise]. Qed.

Lemma adding_raise_name {A : Type} (n : string) (e : option exn) :
  keeps (adds p) (@raise_name A n e).
Proof. destruct e; apply adding_raise. Qed.

Lemma adding_emit (ev : event) : p ev = true -> keeps (adds p) (emit ev).
Proof. intros Hev st. apply adds_event. exact Hev. Qed.

Lemma adding_bind {A B : Type} (m : M A) (k : A -> M B) :
  keeps (adds p) m -> (forall a, keeps (adds p) (k a)) -> keeps (adds p) (bind m k).
Proof.
  intros Hm Hk st. unfold bind. specialize (Hm st).
  destruct (m st) as [[a | e] st1]; cbn [snd] in *; [| exact Hm].
  eapply adds_trans; [exact Hm | apply Hk].
Qed.

Lemma adding_try_except {A : Type} (body : M A) (clause : exn -> option (M A)) :
  keeps (adds p) body ->
  (forall e handler, clause e = Some handler -> keeps (adds p) handler) ->
  keeps (adds p) (try_except body clause).
Proof.
  intros Hbody Hclause st. unfold try_except. specialize (Hbody st).
  destruct (body st) as [[a | e] st1]; cbn [snd] in *; [exact Hbody |].
  destruct (clause e) as [handler |] eqn:Hc; [| exact Hbody].
  eapply adds_trans; [exact Hbody | apply (Hclause e handler Hc)].
Qed.

Variable E : env.

(** A [virsh] call adds its one event, known up to the URI and the
    arguments. *)
Lemma adding__virsh (sub : string) (rest : list (option string)) :
  (forall uri tl, p (Run ("virsh" :: "-c" :: uri :: sub :: tl)) = true) ->
  keeps (adds p) (_virsh E (Some sub :: rest)).
Proof.
  intros Hp st. unfold _virsh, bind, get_self, subprocess_run.
  cbn [app all_strings].
  destruct (connection_uri (self st)) as [uri |]; [| apply adds_refl].
  destruct (all_strings rest) as [tl |]; [| apply adds_refl].
  destruct (true && _); apply adds_event; apply Hp.
Qed.

Lemma adding_guest_state :
  (forall uri tl, p (Run ("virsh" :: "-c" :: uri :: "domstate" :: tl)) = true) ->
  keeps (adds p) (guest_state E).
Proof.
  intros Hp. unfold guest_state. apply adding_bind; [apply adding_get_self |].
  intros g. apply adding_bind; [apply adding__virsh; exact Hp |].
  intros r. apply adding_getitem.
Qed.

Lemma adding_get_guest_ip_range (n : nat) :
  (forall uri tl, p (Run ("virsh" :: "-c" :: uri :: "domifaddr" :: tl)) = true) ->
  p (Sleep 1) = true ->
  forall e, keeps (adds p) (get_guest_ip_range E n e).
Proof.
  intros Hq Hs. induction n as [| n IH]; intros e; cbn [get_guest_ip_range].
  - apply adding_raise_name.
  - apply adding_try_except.
    + unfold get_guest_ip_try. apply adding_bind; [apply adding_get_self |].
      intros g. apply adding_bind; [apply adding__virsh; exact Hq |].
      intros r. apply adding_subscript.
    + intros err handler. destruct err; cbn; try discriminate.
      intros H. injection H as <-.
      apply adding_bind; [apply adding_emit; exact Hs | intros _; apply IH].
Qed.

Lemma adding_remove_range (n : nat) :
  (forall uri tl, p (Run ("virsh" :: "-c" :: uri :: "domstate" :: tl)) = true) ->
  p (Sleep 1) = true ->
  keeps (adds p) (remove_range E n).
Proof.
  intros Hq Hs. induction n as [| n IH]; cbn [remove_range].
  - apply adding_ret.
  - apply adding_bind; [apply adding_guest_state; exact Hq |].
    intros s. destruct (String.eqb s "shut off"); [apply adding_ret |].
    apply adding_bind; [apply adding_emit; exact Hs | intros _; exact IH].
Qed.

End Adding.

Lemma adds_self (p : event -> bool) (s s' : state) : adds p s s' -> self s' = self s.
Proof. intros [H _]. exact H. Qed.

Lemma adds_count (p q : event -> bool) (s s' : state) :
  (forall ev, p ev = true -> q ev = false) ->
  adds p s s' -> count q (trace s') = count q (trace s).
Proof.
  intros Hpq [_ [evs [-> Hevs]]].
  rewrite count_app, (count_none p q evs Hpq Hevs). lia.
Qed.

Lemma hypervisor_commands_quiet (evs : list event) :
  forallb quiet evs = true -> hypervisor_commands evs = [].
Proof.
  induction evs as [| ev evs IH]; [reflexivity |].
  cbn [forallb]. intros H. apply andb_true_iff in H as [Hev Hevs].
  specialize (IH Hevs).
  unfold hypervisor_commands, quiet in *. cbn [flat_map]. rewrite IH.
  destruct (virsh_subcommand ev); [rewrite Hev |]; reflexivity.
Qed.

Lemma adds_quiet_commands (s s' : state) :
  adds quiet s s' -> hypervisor_commands (trace s') = hypervisor_commands (trace s).
Proof.
  intros [_ [evs [-> Hevs]]].
  rewrite hypervisor_commands_app, (hypervisor_commands_quiet evs Hevs), app_nil_r.
  reflexivity.
Qed.

Lemma _install_keeps_names (E : env) (st : state) :
  connection_uri (self (snd (_install E st))) = connection_uri (self st)
  /\ instance_name (self (snd (_install E st))) = instance_name (self st)
  /\ location (self (snd (_install E st))) = location (self st).
Proof.
  destruct (keeps__install E st) as [Hself _]. rewrite Hself.
  destruct (self st); repeat split; reflexivity.
Qed.

Lemma start_if_not_running_run (E : env) (s : string) (st : state) (uri name : string) :
  connection_uri (self st) = Some uri ->
  instance_name (self st) = Some name ->
  snd (start_if_not_running E s st)
  = if String.eqb s "running" then st
    else record_event (Run (virsh_argv uri ["start"; name])) st.
Proof.
  intros Huri Hname. unfold start_if_not_running.
  destruct (String.eqb s "running"); [reflexivity |]. cbn [negb].
  rewrite (bind_ok _ _ _ _ _ (get_self_run st)). rewrite Hname. unfold bind.
  rewrite (_virsh_run E st uri [Some "start"; Some name] ["start"; name] Huri eq_refl).
  cbv zeta. destruct (returncode _ =? 0)%Z; reflexivity.
Qed.

Lemma get_guest_ip_quiet (E : env) (st : state) :
  adds quiet st (snd (get_guest_ip E st)).
Proof.
  apply (adding_get_guest_ip_range quiet E 10); reflexivity.
Qed.

(** X6: once [_install] has returned and the state query has answered,
    [start] issues the hypervisor command [start] exactly when the state is
    not "running", and no other hypervisor command, whatever happens
    afterwards. *)
Theorem start_boots_only_when_needed (E : env) (st s1 s2 : state) (uri s : string) :
  opt_dry (self st) = false ->
  connection_uri (self st) = Some uri ->
  _install E (start_prelude E st) = (Ok tt, s1) ->
  guest_state E s1 = (Ok s, s2) ->
  hypervisor_commands (trace (snd (start E st)))
  = hypervisor_commands (trace s1)
    ++ (if String.eqb s "running" then [] else ["start"]).
Proof.
  intros Hdry Huri Hinstall Hgs.
  pose proof (start_cases E st Hdry) as Hc. cbv zeta in Hc.
  destruct (_install_keeps_names E (start_prelude E st)) as [Hu1 [Hn1 _]].
  rewrite Hinstall in Hc, Hu1, Hn1. cbn [fst snd] in Hc, Hu1, Hn1.
  change (connection_uri (self (start_prelude E st)))
    with (connection_uri (self st)) in Hu1.
  change (instance_name (self (start_prelude E st)))
    with (Some (env_tmt_name E (trace st))) in Hn1.
  rewrite Huri in Hu1.
  pose proof (adding_guest_state quiet E ltac:(reflexivity) s1) as H2.
  rewrite Hgs in Hc, H2. cbn [fst snd] in Hc, H2.
  pose proof (adds_self _ _ _ H2) as Hself2.
  pose proof (adds_quiet_commands _ _ H2) as Hcmd2.
  assert (Hcmd3 : hypervisor_commands (trace (snd (start_if_not_running E s s2)))
                  = hypervisor_commands (trace s1)
                    ++ (if String.eqb s "running" then [] else ["start"])).
  { rewrite (start_if_not_running_run E s s2 uri (env_tmt_name E (trace st)))
      by (rewrite Hself2; assumption).
    destruct (String.eqb s "running").
    - rewrite app_nil_r. exact Hcmd2.
    - unfold record_event; cbn [trace].
      rewrite hypervisor_commands_app, Hcmd2. reflexivity. }
  destruct (start_if_not_running E s s2) as [[[] | e] s3]; cbn [fst snd] in *.
  2:{ rewrite Hc. exact Hcmd3. }
  pose proof (adds_quiet_commands _ _ (get_guest_ip_quiet E s3)) as Hcmd4.
  destruct (get_guest_ip E s3) as [[ip | e] s4]; cbn [fst snd] in *.
  2:{ rewrite Hc. cbn [snd]. rewrite Hcmd4. exact Hcmd3. }
  rewrite Hc. cbn [snd]. unfold start_connected; cbn [trace].
  rewrite hypervisor_commands_app, Hcmd4, Hcmd3. cbn. rewrite app_nil_r. reflexivity.
Qed.

Lemma start_boots_only_when_needed_witness :
  let E := Mock.hypervisor Mock.fresh in
  let st := Mock.begin Mock.handle in
  let s1 := snd (_install E (start_prelude E st)) in
  _install E (start_prelude E st) = (Ok tt, s1)
  /\ guest_state E s1 = (Ok "shut off", snd (guest_state E s1))
  /\ hypervisor_commands (trace (snd (start E st))) = ["start"].
Proof.
  intros E st s1.
  assert (Hi : _install E (start_prelude E st) = (Ok tt, s1)) by (vm_compute; reflexivity).
  assert (Hg : guest_state E s1 = (Ok "shut off", snd (guest_state E s1)))
    by (vm_compute; reflexivity).
  split; [exact Hi |]. split; [exact Hg |].
  rewrite (start_boots_only_when_needed E st s1 _ "qemu:///system" "shut off"
             eq_refl eq_refl Hi Hg).
  vm_compute. reflexivity.
Defined.

(** X7: once the address is resolved, [start] assigns it with port 22, logs
    both and calls [reconnect] once with a timeout of 60 and a tick of 1;
    when the reconnect answers false, [start] raises "Failed to connect in
    60s." and the handle keeps the address and the port. *)
Theorem start_reconnects_once (E : env) (st s1 s2 s3 s4 : state) (s ip : string) :
  opt_dry (self st) = false ->
  _install E (start_prelude E st) = (Ok tt, s1) ->
  guest_state E s1 = (Ok s, s2) ->
  start_if_not_running E s s2 = (Ok tt, s3) ->
  get_guest_ip E s3 = (Ok ip, s4) ->
  let answer := env_reconnect E
                  (trace s4 ++ [Log Verbose "ip" ip "green";
                                Log Verbose "port" "22" "green"])
                  (set_port (Some 22%Z) (set_guest (Some ip) (self s4)))
                  (Some 60%Z) (Some 1%Z) in
  snd (start E st) = start_connected ip s4
  /\ count is_reconnect (trace (snd (start E st))) = count is_reconnect (trace s4) + 1
  /\ guest (self (snd (start E st))) = Some ip
  /\ port (self (snd (start E st))) = Some 22%Z
  /\ (answer = Ok true -> fst (start E st) = Ok tt)
  /\ (answer = Ok false -> fst (start E st) = Raise connect_failed)
  /\ (forall e, answer = Raise e -> fst (start E st) = Raise e).
Proof.
  intros Hdry Hinstall Hgs Hboot Hip answer.
  pose proof (start_cases E st Hdry) as Hc. cbv zeta in Hc.
  rewrite Hinstall in Hc. cbn [fst snd] in Hc.
  rewrite Hgs in Hc. cbn [fst snd] in Hc.
  rewrite Hboot in Hc. cbn [fst snd] in Hc.
  rewrite Hip in Hc. cbn [fst snd] in Hc. fold answer in Hc.
  rewrite Hc. cbn [fst snd].
  split; [reflexivity |].
  split; [unfold start_connected; cbn [trace]; rewrite count_app; reflexivity |].
  split; [reflexivity |]. split; [reflexivity |].
  split; [intros ->; reflexivity |].
  split; [intros ->; reflexivity | intros e ->; reflexivity].
Qed.

Lemma start_reconnects_once_witness :
  let E := unreachable in
  let st := Mock.begin Mock.handle in
  let s1 := snd (_install E (start_prelude E st)) in
  let s2 := snd (guest_state E s1) in
  let s3 := snd (start_if_not_running E "shut off" s2) in
  let s4 := snd (get_guest_ip E s3) in
  _install E (start_prelude E st) = (Ok tt, s1)
  /\ guest_state E s1 = (Ok "shut off", s2)
  /\ start_if_not_running E "shut off" s2 = (Ok tt, s3)
  /\ get_guest_ip E s3 = (Ok "192.0.2.5", s4)
  /\ fst (start E st) = Raise connect_failed
  /\ guest (self (snd (start E st))) = Some "192.0.2.5"
  /\ port (self (snd (start E st))) = Some 22%Z.
Proof.
  intros E st s1 s2 s3 s4.
  assert (H1 : _install E (start_prelude E st) = (Ok tt, s1)) by (vm_compute; reflexivity).
  assert (H2 : guest_state E s1 = (Ok "shut off", s2)) by (vm_compute; reflexivity).
  assert (H3 : start_if_not_running E "shut off" s2 = (Ok tt, s3))
    by (vm_compute; reflexivity).
  assert (H4 : get_guest_ip E s3 = (Ok "192.0.2.5", s4)) by (vm_compute; reflexivity).
  destruct (start_reconnects_once E st s1 s2 s3 s4 "shut off" "192.0.2.5"
              eq_refl H1 H2 H3 H4) as [_ [_ [Hg [Hp [_ [Hfalse _]]]]]].
  pose proof (Hfalse eq_refl) as Hfailed.
  repeat split; assumption.
Defined.

(** ** What [start] changes on the handle *)

Lemma same_config_refl (g : GuestDiana) : same_config g g.
Proof. repeat split. Qed.

Lemma same_config_trans (g1 g2 g3 : GuestDiana) :
  same_config g1 g2 -> same_config g2 g3 -> same_config g1 g3.
Proof.
  unfold same_config.
  intros [A1 [A2 [A3 [A4 [A5 [A6 [A7 A8]]]]]]]
         [B1 [B2 [B3 [B4 [B5 [B6 [B7 B8]]]]]]].
  repeat split; congruence.
Qed.

Lemma only_adds_config (p : event -> bool) (s s' : state) :
  only_adds p s s' -> same_config (self s) (self s').
Proof.
  intros [Hself _]. rewrite Hself. destruct (self s). repeat split.
Qed.

Lemma start_if_not_running_config (E : env) (s : string) (st : state) :
  same_config (self st) (self (snd (start_if_not_running E s st))).
Proof.
  apply (only_adds_config any_event). unfold start_if_not_running.
  destruct (negb _); [| apply keeps_ret].
  apply keeps_bind; [apply keeps_get_self |]. intros g.
  apply keeps_bind; [apply keeps__virsh; reflexivity | intros _; apply keeps_ret].
Qed.

(** X8: every call of [start], however it ends, leaves the freshly
    generated instance name on the handle and changes nothing of its
    configuration: the connection URI, the location, the user, the hardware
    descriptor, the kickstart fragments and the working directory stay. *)
Theorem start_renames_and_keeps_config (E : env) (st : state) :
  let g' := self (snd (start E st)) in
  instance_name g' = Some (env_tmt_name E (trace st))
  /\ connection_uri g' = connection_uri (self st)
  /\ location g' = location (self st)
  /\ user g' = user (self st)
  /\ hardware g' = hardware (self st)
  /\ kickstart g' = kickstart (self st)
  /\ workdir g' = workdir (self st).
Proof.
  assert (Hgoal : same_config (self (start_prelude E st)) (self (snd (start E st)))).
  { destruct (opt_dry (self st)) eqn:Hdry.
    - unfold start.
      rewrite (bind_ok _ _ _ _ _ (_tmt_name_run E st)).
      rewrite (bind_ok _ _ _ _ _ (modify_self_run _ _)).
      unfold verbose at 1.
      rewrite (bind_ok _ _ _ _ _ (emit_run _ _)).
      rewrite (bind_ok _ _ _ _ _ (get_self_run _)).
      change (record_event _ _) with (start_prelude E st).
      change (opt_dry (self (start_prelude E st))) with (opt_dry (self st)).
      rewrite Hdry. apply same_config_refl.
    - pose proof (start_cases E st Hdry) as Hc. cbv zeta in Hc.
      pose proof (only_adds_config _ _ _ (keeps__install E (start_prelude E st))) as H1.
      destruct (_install E (start_prelude E st)) as [[[] | e] s1]; cbn [fst snd] in *.
      2:{ rewrite Hc. exact H1. }
      pose proof (only_adds_config _ _ _
                    (keeps_guest_state any_event E ltac:(reflexivity) s1)) as H2.
      destruct (guest_state E s1) as [[s | e] s2]; cbn [fst snd] in *.
      2:{ rewrite Hc. exact (same_config_trans _ _ _ H1 H2). }
      pose proof (start_if_not_running_config E s s2) as H3.
      destruct (start_if_not_running E s s2) as [[[] | e] s3]; cbn [fst snd] in *.
      2:{ rewrite Hc.
          exact (same_config_trans _ _ _ H1 (same_config_trans _ _ _ H2 H3)). }
      pose proof (only_adds_config _ _ _
                    (keeps_get_guest_ip_range any_event E ltac:(reflexivity)
                       ltac:(reflexivity) 10 None s3)) as H4.
      fold (get_guest_ip E) in H4.
      destruct (get_guest_ip E s3) as [[ip | e] s4]; cbn [fst snd] in *.
      2:{ rewrite Hc.
          exact (same_config_trans _ _ _ H1
                   (same_config_trans _ _ _ H2 (same_config_trans _ _ _ H3 H4))). }
      rewrite Hc. cbn [snd].
      apply (same_config_trans _ _ _ H1).
      apply (same_config_trans _ _ _ H2).
      apply (same_config_trans _ _ _ H3).
      apply (same_config_trans _ _ _ H4).
      unfold start_connected; cbn [self]. destruct (self s4). repeat split. }
  destruct Hgoal as [A1 [A2 [A3 [A4 [A5 [A6 [A7 _]]]]]]].
  cbv zeta. repeat split; assumption.
Qed.

(** ** How much a computation adds to the trace *)

Section Bounding.

Variable q : event -> bool.

Lemma within_same {A : Type} (m : M A) :
  (forall st, trace (snd (m st)) = trace st) -> within q 0 m.
Proof. intros H st. rewrite H. lia. Qed.

Lemma within_ret {A : Type} (a : A) : within q 0 (ret a).
Proof. apply within_same. reflexivity. Qed.

Lemma within_raise {A : Type} (e : exn) : within q 0 (@raise A e).
Proof. apply within_same. reflexivity. Qed.

Lemma within_get_self : within q 0 get_self.
Proof. apply within_same. reflexivity. Qed.

Lemma within_modify_self (f : GuestDiana -> GuestDiana) : within q 0 (modify_self f).
Proof. apply within_same. reflexivity. Qed.

Lemma within_getitem {A : Type} (l : list A) (i : Z) : within q 0 (getitem l i).
Proof.
  apply within_same. intros st. unfold getitem. destruct (Py.index l i); reflexivity.
Qed.

Lemma within_subscript {A : Type} (o : option A) : within q 0 (subscript o).
Proof. destruct o; [apply within_ret | apply within_raise]. Qed.

Lemma within_assert (b : bool) : within q 0 (assert_ b).
Proof. destruct b; [apply within_ret | apply within_raise]. Qed.

Lemma within_raise_name {A : Type} (n : string) (e : option exn) :
  within q 0 (@raise_name A n e).
Proof. destruct e; apply within_raise. Qed.

Lemma within_weaken {A : Type} (n n' : nat) (m : M A) :
  within q n m -> n <= n' -> within q n' m.
Proof. intros H Hle st. specialize (H st). lia. Qed.

Lemma within_bind {A B : Type} (n1 n2 : nat) (m : M A) (k : A -> M B) :
  within q n1 m -> (forall a, within q n2 (k a)) -> within q (n1 + n2) (bind m k).
Proof.
  intros Hm Hk st. unfold bind. specialize (Hm st).
  destruct (m st) as [[a | e] st1]; cbn [snd] in *; [| lia].
  specialize (Hk a st1). lia.
Qed.

Lemma within_try_except {A : Type} (n1 n2 : nat) (body : M A)
    (clause : exn -> option (M A)) :
  within q n1 body ->
  (forall e handler, clause e = Some handler -> within q n2 handler) ->
  within q (n1 + n2) (try_except body clause).
Proof.
  intros Hbody Hclause st. unfold try_except. specialize (Hbody st).
  destruct (body st) as [[a | e] st1]; cbn [snd] in *; [lia |].
  destruct (clause e) as [handler |] eqn:Hc; [| cbn [snd]; lia].
  specialize (Hclause e handler Hc st1). lia.
Qed.

Lemma within_if {A : Type} (n1 n2 : nat) (b : bool) (m1 m2 : M A) :
  within q n1 m1 -> within q n2 m2 -> within q (Nat.max n1 n2) (if b then m1 else m2).
Proof.
  intros H1 H2. destruct b;
    [apply (within_weaken n1) | apply (within_weaken n2)]; auto; lia.
Qed.

Lemma within_event_other (ev : event) (st : state) :
  q ev = false -> count q (trace (record_event ev st)) = count q (trace st).
Proof. intros H. rewrite count_record_event, H. lia. Qed.

Lemma within_event_one (ev : event) (st : state) :
  count q (trace (record_event ev st)) <= count q (trace st) + 1.
Proof. rewrite count_record_event. destruct (q ev); lia. Qed.

Lemma within_emit_other (ev : event) : q ev = false -> within q 0 (emit ev).
Proof. intros H st. cbn [emit snd]. rewrite (within_event_other ev st H). lia. Qed.

Lemma within_emit_one (ev : event) : within q 1 (emit ev).
Proof. intros st. apply within_event_one. Qed.

Variable E : env.

Lemma within_run_one (argv : list (option string)) (check : bool) :
  within q 1 (subprocess_run E argv check).
Proof.
  intros st. unfold subprocess_run.
  destruct (all_strings argv) as [av |]; [| cbn [snd]; lia].
  destruct (check && _); apply within_event_one.
Qed.

Lemma within_run_other (prog : string) (rest : list (option string)) (check : bool) :
  (forall tl, q (Run (prog :: tl)) = false) ->
  within q 0 (subprocess_run E (Some prog :: rest) check).
Proof.
  intros Hq st. unfold subprocess_run.
  destruct (all_strings (Some prog :: rest)) as [av |] eqn:Hav; [| cbn [snd]; lia].
  destruct (all_strings_head prog rest av Hav) as [tl ->].
  destruct (check && _); cbn [snd]; rewrite (within_event_other _ st (Hq tl)); lia.
Qed.

Lemma within_run_known (argv : list (option string)) (av : list string) (check : bool) :
  all_strings argv = Some av ->
  q (Run av) = false ->
  within q 0 (subprocess_run E argv check).
Proof.
  intros Hav Hq st. unfold subprocess_run. rewrite Hav.
  destruct (check && _); cbn [snd]; rewrite (within_event_other _ st Hq); lia.
Qed.

Lemma within__virsh_one (args : list (option string)) : within q 1 (_virsh E args).
Proof.
  unfold _virsh. apply (within_bind 0 1); [apply within_get_self |].
  intros g. apply within_run_one.
Qed.

Lemma within__virsh_other (sub : string) (rest : list (option string)) :
  (forall uri tl, q (Run ("virsh" :: "-c" :: uri :: sub :: tl)) = false) ->
  within q 0 (_virsh E (Some sub :: rest)).
Proof.
  intros Hq st. unfold _virsh, bind, get_self, subprocess_run.
  cbn [app all_strings].
  destruct (connection_uri (self st)) as [uri |]; [| cbn [snd]; lia].
  destruct (all_strings rest) as [tl |]; [| cbn [snd]; lia].
  destruct (true && _); cbn [snd];
    rewrite (within_event_other _ st (Hq uri tl)); lia.
Qed.

Lemma within_super_is_ready : within q (if q SshIsReady then 1 else 0) (super_is_ready E).
Proof.
  intros st. unfold super_is_ready; cbn [snd]. rewrite count_record_event. lia.
Qed.

Lemma within_super_stop : within q (if q SshStop then 1 else 0) (super_stop E).
Proof.
  intros st. unfold super_stop; cbn [snd]. rewrite count_record_event. lia.
Qed.

Lemma within_super_reboot (hard : bool) (c : string) :
  within q (if q (SshReboot hard c) then 1 else 0) (super_reboot E hard c).
Proof.
  intros st. unfold super_reboot; cbn [snd]. rewrite count_record_event. lia.
Qed.

Lemma within_reconnect (timeout tick : option Z) :
  within q (if q (SshReconnect timeout tick) then 1 else 0) (reconnect E timeout tick).
Proof.
  intros st. unfold reconnect; cbn [snd]. rewrite count_record_event. lia.
Qed.

Lemma within__tmt_name : within q 0 (_tmt_name E).
Proof. apply within_same. reflexivity. Qed.

(** The two loops: [n] rounds of a query and a sleep. *)
Lemma within_get_guest_ip_range (a b : nat) :
  within q a (get_guest_ip_try E) ->
  within q b (sleep 1) ->
  forall n e, within q (n * (a + b)) (get_guest_ip_range E n e).
Proof.
  intros Ha Hb. induction n as [| n IH]; intros e; cbn [get_guest_ip_range].
  - apply within_raise_name.
  - apply (within_weaken (a + (b + n * (a + b)))); [| lia].
    apply within_try_except; [exact Ha |].
    intros err handler. destruct err; cbn; try discriminate.
    intros H. injection H as <-.
    apply within_bind; [exact Hb | intros _; apply IH].
Qed.

Lemma within_remove_range (a b : nat) :
  within q a (guest_state E) ->
  within q b (sleep 1) ->
  forall n, within q (n * (a + b)) (remove_range E n).
Proof.
  intros Ha Hb. induction n as [| n IH]; cbn [remove_range].
  - apply within_ret.
  - apply (within_weaken (a + Nat.max 0 (b + n * (a + b)))); [| lia].
    apply within_bind; [exact Ha |]. intros s.
    apply within_if; [apply within_ret |].
    apply within_bind; [exact Hb | intros _; exact IH].
Qed.

End Bounding.

Ltac bound_clause bound :=
  let e := fresh "e" in
  let h := fresh "h" in
  let H := fresh "H" in
  intros e h; destruct e; cbn; try discriminate;
  intros H; injection H as <-; bound.

Ltac bound :=
  cbv beta;
  lazymatch goal with
  | |- within _ _ (bind _ _) => eapply within_bind; [bound | intros; bound]
  | |- within _ _ (try_except _ _) =>
      eapply within_try_except; [bound | bound_clause bound]
  | |- within _ _ (if _ then _ else _) => eapply within_if; [bound | bound]
  | |- within _ _ (ret _) => apply within_ret
  | |- within _ _ (raise _) => apply within_raise
  | |- within _ _ get_self => apply within_get_self
  | |- within _ _ (modify_self _) => apply within_modify_self
  | |- within _ _ (getitem _ _) => apply within_getitem
  | |- within _ _ (subscript _) => apply within_subscript
  | |- within _ _ (assert_ _) => apply within_assert
  | |- within _ _ (raise_name _ _) => apply within_raise_name
  | |- within _ _ (emit _) =>
      first [apply within_emit_other; reflexivity | apply within_emit_one]
  | |- within _ _ (verbose _ _ _) => unfold verbose; bound
  | |- within _ _ (info _ _ _) => unfold info; bound
  | |- within _ _ (file_open _) => unfold file_open; bound
  | |- within _ _ (file_write _ _) => unfold file_write; bound
  | |- within _ _ (sleep _) => unfold sleep; bound
  | |- within _ _ (_tmt_name _) => apply within__tmt_name
  | |- within _ _ (super_is_ready _) => apply within_super_is_ready
  | |- within _ _ (super_stop _) => apply within_super_stop
  | |- within _ _ (super_reboot _ _ _) => apply within_super_reboot
  | |- within _ _ (reconnect _ _ _) => apply within_reconnect
  | |- within _ _ (_virsh _ _) =>
      first [apply within__virsh_other; intros; reflexivity | apply within__virsh_one]
  | |- within _ _ (subprocess_run _ _ _) =>
      first [ eapply within_run_known; [reflexivity | reflexivity]
            | unfold virt_install_cmd; apply within_run_other;
              let tl := fresh "tl" in
              intros tl; destruct tl as [| ? [| ? [| ? tl]]]; reflexivity
            | apply within_run_one ]
  | |- within _ _ (guest_state _) => unfold guest_state; bound
  | |- within _ _ (is_ready _) => unfold is_ready; bound
  | |- within _ _ (get_guest_ip_try _) => unfold get_guest_ip_try; bound
  | |- within _ _ (get_guest_ip _) =>
      unfold get_guest_ip; eapply within_get_guest_ip_range; [bound | bound]
  | |- within _ _ (remove_range _ _) => eapply within_remove_range; [bound | bound]
  | |- within _ _ (_generate_ssh_key _) => unfold _generate_ssh_key; bound
  | |- within _ _ (ssh_pubkey _) => unfold ssh_pubkey; bound
  | |- within _ _ (_kickstart _) => unfold _kickstart; bound
  | |- within _ _ (_install _) => unfold _install; bound
  | |- within _ _ (start _) => unfold start; bound
  | |- within _ _ (stop _) => unfold stop; bound
  | |- within _ _ (remove _) => unfold remove; bound
  end.

Ltac bounded := eapply within_weaken; [bound | vm_compute; lia].

(** X9: one call of [start], however it ends, runs [virt-install] at most
    once, generates at most one key pair, writes the answer file at most
    once, makes at most two state queries, issues the hypervisor [start]
    at most once, makes at most ten address queries and ten sleeps and at
    most one reconnect, and never issues [shutdown], [destroy] or
    [undefine]. *)
Theorem start_is_bounded (E : env) :
  within is_install 1 (start E)
  /\ within is_keygen 1 (start E)
  /\ within is_file_write 1 (start E)
  /\ within (is_virsh "domstate") 2 (start E)
  /\ within (is_virsh "start") 1 (start E)
  /\ within (is_virsh "domifaddr") 10 (start E)
  /\ within is_sleep 10 (start E)
  /\ within is_reconnect 1 (start E)
  /\ within (is_virsh "shutdown") 0 (start E)
  /\ within (is_virsh "destroy") 0 (start E)
  /\ within (is_virsh "undefine") 0 (start E).
Proof. repeat split; bounded. Qed.

(** X10: one call of [remove], however it ends, leaves the handle as it
    was, makes at most eleven state queries and ten sleeps, issues [destroy]
    and [undefine] at most once each and never installs, starts or shuts
    down anything. *)
Theorem remove_is_bounded (E : env) :
  keeps unchanged (remove E)
  /\ within (is_virsh "domstate") 11 (remove E)
  /\ within is_sleep 10 (remove E)
  /\ within (is_virsh "destroy") 1 (remove E)
  /\ within (is_virsh "undefine") 1 (remove E)
  /\ within is_install 0 (remove E)
  /\ within (is_virsh "start") 0 (remove E)
  /\ within (is_virsh "shutdown") 0 (remove E).
Proof.
  split; [| repeat split; bounded].
  intros st. apply (adds_self any_event). revert st.
  change (keeps (adds any_event) (remove E)).
  unfold remove.
  apply adding_bind; [apply adding_guest_state; reflexivity |]. intros s.
  apply adding_bind.
  - destruct (negb _); [| apply adding_ret].
    apply adding_bind; [apply adding_get_self |]. intros g.
    apply adding_bind; [apply adding__virsh; reflexivity |]. intros _.
    apply adding_remove_range; reflexivity.
  - intros _. apply adding_bind; [apply adding_get_self |]. intros g.
    apply adding_bind; [apply adding__virsh; reflexivity |]. intros _.
    apply adding_emit. reflexivity.
Qed.

(** X1: when each of the ten address queries exits with a non-zero status,
    [get_guest_ip] has made ten queries and ten sleeps of one second and
    then raises [UnboundLocalError] for the name [e]: the error of the last
    query is not the one raised. *)
Theorem get_guest_ip_loses_last_error (E : env) (st : state) (uri name : string) :
  connection_uri (self st) = Some uri ->
  instance_name (self st) = Some name ->
  let q := domifaddr_argv uri name in
  (forall j, j < 10 ->
     returncode (addr_at E uri name (trace st ++ rounds q j)) <> 0%Z) ->
  get_guest_ip E st
  = (Raise (UnboundLocalError "e"),
     {| self := self st; trace := trace st ++ rounds q 10 |})
  /\ count (is_virsh "domifaddr") (rounds q 10) = 10
  /\ count is_sleep (rounds q 10) = 10
  /\ forall rc cmd, fst (get_guest_ip E st) <> Raise (CalledProcessError rc cmd).
Proof.
  intros Huri Hname q Hfail.
  pose proof (get_guest_ip_exhausted E st uri name Huri Hname Hfail) as Hrun.
  split; [exact Hrun |]. split; [reflexivity |]. split; [reflexivity |].
  intros rc cmd. rewrite Hrun. discriminate.
Qed.

Lemma get_guest_ip_loses_last_error_witness :
  let E := Mock.hypervisor (Mock.running (repeat Mock.failed 10)) in
  let st := Mock.begin (Mock.named "g1" Mock.handle) in
  let q := domifaddr_argv "qemu:///system" "g1" in
  (forall j, j < 10 ->
     returncode (addr_at E "qemu:///system" "g1" (trace st ++ rounds q j)) <> 0%Z)
  /\ get_guest_ip E st
     = (Raise (UnboundLocalError "e"), {| self := self st; trace := rounds q 10 |}).
Proof.
  intros E st q.
  assert (Hfail : forall j, j < 10 ->
             returncode (addr_at E "qemu:///system" "g1" (trace st ++ rounds q j))
             <> 0%Z).
  { intros j Hj.
    do 10 (destruct j as [| j]; [vm_compute; discriminate |]). lia. }
  split; [exact Hfail |].
  apply (get_guest_ip_loses_last_error E st "qemu:///system" "g1" eq_refl eq_refl Hfail).
Defined.

(** ** Errors that end [remove], [stop] and [is_ready] *)

(** X11: [remove] gives up before [undefine] when a command fails: an error
    of the first state query is raised as it is; a [destroy] that exits with
    a non-zero status is raised as [CalledProcessError] right after the
    state query and the [destroy], without a poll; and an error raised
    during the confirmation polls leaves [remove] in the state of the poll
    that raised. *)
Theorem remove_aborts_on_errors (E : env) (st : state) :
  (forall e s1, guest_state E st = (Raise e, s1) -> remove E st = (Raise e, s1))
  /\ (forall uri name s,
        connection_uri (self st) = Some uri ->
        instance_name (self st) = Some name ->
        state_at E uri name (trace st) = Some s ->
        s <> "shut off" ->
        let tr1 := trace st ++ [Run (domstate_argv uri name)] in
        let rc := returncode (env_process E tr1 (destroy_argv uri name)) in
        (rc <> 0%Z ->
         remove E st
         = (Raise (CalledProcessError rc (destroy_argv uri name)),
            {| self := self st; trace := tr1 ++ [Run (destroy_argv uri name)] |}))
        /\ (forall e s3,
              rc = 0%Z ->
              remove_range E 10
                {| self := self st; trace := tr1 ++ [Run (destroy_argv uri name)] |}
              = (Raise e, s3) ->
              remove E st = (Raise e, s3))).
Proof.
  split.
  - intros e s1 Hgs. unfold remove. apply (bind_raise _ _ _ _ _ Hgs).
  - intros uri name s Huri Hname Hs Hne tr1 rc.
    assert (Hdestroy : _virsh E [Some "destroy"; Some name]
                         (record_event (Run (domstate_argv uri name)) st)
                       = (if (rc =? 0)%Z
                          then Ok (env_process E tr1 (destroy_argv uri name))
                          else Raise (CalledProcessError rc (destroy_argv uri name)),
                          {| self := self st;
                             trace := tr1 ++ [Run (destroy_argv uri name)] |})).
    { rewrite (_virsh_run E (record_event (Run (domstate_argv uri name)) st) uri
                 [Some "destroy"; Some name] ["destroy"; name] Huri eq_refl).
      cbv zeta. fold (destroy_argv uri name). unfold rc, tr1.
      cbn [trace record_event].
      destruct (returncode _ =? 0)%Z; reflexivity. }
    unfold remove.
    rewrite (bind_ok _ _ _ _ _ (guest_state_reported E st uri name s Huri Hname Hs)).
    destruct (String.eqb_spec s "shut off") as [-> | _]; [contradiction |].
    cbn [negb]. split.
    + intros Hrc.
      destruct (Z.eqb_spec rc 0) as [Heq | _]; [contradiction |].
      apply bind_raise.
      rewrite (bind_ok _ _ _ _ _ (get_self_run _)).
      cbn [self record_event]. rewrite Hname.
      apply (bind_raise _ _ _ _ _ Hdestroy).
    + intros e s3 Hrc Hpoll. rewrite Hrc in Hdestroy. cbn [Z.eqb] in Hdestroy.
      apply bind_raise.
      rewrite (bind_ok _ _ _ _ _ (get_self_run _)).
      cbn [self record_event]. rewrite Hname.
      rewrite (bind_ok _ _ _ _ _ Hdestroy). exact Hpoll.
Qed.

Lemma remove_aborts_on_errors_witness :
  let E := refusing "destroy" in
  let st := Mock.begin (Mock.named "g1" Mock.handle) in
  state_at E "qemu:///system" "g1" (trace st) = Some "running"
  /\ remove E st
     = (Raise (CalledProcessError 1 (destroy_argv "qemu:///system" "g1")),
        {| self := self st;
           trace := [Run (domstate_argv "qemu:///system" "g1");
                     Run (destroy_argv "qemu:///system" "g1")] |}).
Proof.
  intros E st.
  assert (Hs : state_at E "qemu:///system" "g1" (trace st) = Some "running")
    by reflexivity.
  split; [exact Hs |].
  destruct (remove_aborts_on_errors E st) as [_ Hdestroy].
  destruct (Hdestroy "qemu:///system" "g1" "running" eq_refl eq_refl Hs
              ltac:(discriminate)) as [Hfail _].
  apply Hfail. discriminate.
Defined.

(** X12: [stop] does not wait for the domain: however it ends it leaves the
    handle as it was, makes no state query and no sleep and runs at most one
    process.  An error of the inherited stop is raised before [shutdown] is
    issued; a [shutdown] that exits with a non-zero status is raised as
    [CalledProcessError] and "stopped" is not logged. *)
Theorem stop_is_fire_and_forget (E : env) (st : state) :
  self (snd (stop E st)) = self st
  /\ count (is_virsh "domstate") (trace (snd (stop E st)))
     = count (is_virsh "domstate") (trace st)
  /\ count is_sleep (trace (snd (stop E st))) = count is_sleep (trace st)
  /\ count is_run (trace (snd (stop E st))) <= count is_run (trace st) + 1
  /\ (forall e,
        env_stop E (trace st) (self st) = Raise e ->
        stop E st = (Raise e, record_event SshStop st))
  /\ (forall uri name,
        connection_uri (self st) = Some uri ->
        instance_name (self st) = Some name ->
        env_stop E (trace st) (self st) = Ok tt ->
        let tr1 := trace st ++ [SshStop] in
        let rc := returncode (env_process E tr1 (shutdown_argv uri name)) in
        rc <> 0%Z ->
        stop E st
        = (Raise (CalledProcessError rc (shutdown_argv uri name)),
           {| self := self st; trace := tr1 ++ [Run (shutdown_argv uri name)] |})).
Proof.
  assert (Hadds : adds no_poll st (snd (stop E st))).
  { revert st. change (keeps (adds no_poll) (stop E)). unfold stop.
    apply adding_bind.
    - intros st. apply adds_event. reflexivity.
    - intros _. apply adding_bind; [apply adding_get_self |]. intros g.
      apply adding_bind; [apply adding__virsh; reflexivity |]. intros _.
      apply adding_emit. reflexivity. }
  assert (Hno : forall q, (forall ev, no_poll ev = true -> q ev = false) ->
                count q (trace (snd (stop E st))) = count q (trace st))
    by (intros q Hq; apply (adds_count no_poll q _ _ Hq Hadds)).
  split; [apply (adds_self _ _ _ Hadds) |].
  split.
  { apply Hno. intros ev H. unfold no_poll in H.
    apply andb_true_iff in H as [H _]. apply negb_true_iff in H. exact H. }
  split.
  { apply Hno. intros ev H. unfold no_poll in H.
    apply andb_true_iff in H as [_ H]. apply negb_true_iff in H. exact H. }
  split.
  { assert (Hb : within is_run 1 (stop E)) by bounded. apply Hb. }
  split.
  - intros e Hstop. unfold stop. apply bind_raise.
    unfold super_stop. rewrite Hstop. reflexivity.
  - intros uri name Huri Hname Hstop tr1 rc Hrc.
    unfold stop.
    assert (Hs : super_stop E st = (Ok tt, record_event SshStop st))
      by (unfold super_stop; rewrite Hstop; reflexivity).
    rewrite (bind_ok _ _ _ _ _ Hs).
    rewrite (bind_ok _ _ _ _ _ (get_self_run _)).
    cbn [self record_event]. rewrite Hname.
    apply bind_raise.
    rewrite (_virsh_run E (record_event SshStop st) uri
               [Some "shutdown"; Some name] ["shutdown"; name] Huri eq_refl).
    cbv zeta. fold (shutdown_argv uri name). cbn [trace record_event]. fold tr1 rc.
    destruct (Z.eqb_spec rc 0) as [Heq | _]; [contradiction | reflexivity].
Qed.

Lemma stop_is_fire_and_forget_witness :
  let E := refusing "shutdown" in
  let st := Mock.begin (Mock.named "g1" Mock.handle) in
  env_stop E (trace st) (self st) = Ok tt
  /\ stop E st
     = (Raise (CalledProcessError 1 (shutdown_argv "qemu:///system" "g1")),
        {| self := self st;
           trace := [SshStop; Run (shutdown_argv "qemu:///system" "g1")] |}).
Proof.
  intros E st. split; [reflexivity |].
  destruct (stop_is_fire_and_forget E st) as [_ [_ [_ [_ [_ Hshut]]]]].
  apply (Hshut "qemu:///system" "g1" eq_refl eq_refl eq_refl). discriminate.
Defined.

(** X13: [is_ready] answers [False] without consulting the inherited
    readiness when the state is anything but "running", and an error of the
    state query (an undefined domain, an empty output) is raised instead of
    answered with [False]; the handle is left as it was and at most one
    process is run. *)
Theorem is_ready_short_circuits (E : env) (st : state) :
  (forall s s1,
     guest_state E st = (Ok s, s1) -> s <> "running" ->
     is_ready E st = (Ok false, s1))
  /\ (forall e s1, guest_state E st = (Raise e, s1) -> is_ready E st = (Raise e, s1))
  /\ self (snd (is_ready E st)) = self st
  /\ count is_run (trace (snd (is_ready E st))) <= count is_run (trace st) + 1.
Proof.
  split; [| split; [| split]].
  - intros s s1 Hgs Hne. unfold is_ready. rewrite (bind_ok _ _ _ _ _ Hgs).
    destruct (String.eqb_spec s "running"); [contradiction | reflexivity].
  - intros e s1 Hgs. unfold is_ready. apply (bind_raise _ _ _ _ _ Hgs).
  - apply (adds_self any_event). revert st.
    change (keeps (adds any_event) (is_ready E)). unfold is_ready.
    apply adding_bind; [apply adding_guest_state; reflexivity |]. intros s.
    destruct (negb _); [apply adding_ret |].
    intros st. apply adds_event. reflexivity.
  - assert (Hb : within is_run 1 (is_ready E)) by bounded. apply Hb.
Qed.

Lemma is_ready_short_circuits_witness :
  let E := Mock.hypervisor Mock.fresh in
  let st := Mock.begin (Mock.named "g1" Mock.handle) in
  guest_state E st
  = (Raise (CalledProcessError 1 (domstate_argv "qemu:///system" "g1")),
     record_event (Run (domstate_argv "qemu:///system" "g1")) st)
  /\ fst (is_ready E st)
     = Raise (CalledProcessError 1 (domstate_argv "qemu:///system" "g1")).
Proof.
  intros E st.
  assert (Hgs : guest_state E st
                = (Raise (CalledProcessError 1 (domstate_argv "qemu:///system" "g1")),
                   record_event (Run (domstate_argv "qemu:///system" "g1")) st))
    by reflexivity.
  split; [exact Hgs |].
  destruct (is_ready_short_circuits E st) as [_ [Hraise _]].
  rewrite (Hraise _ _ Hgs). reflexivity.
Defined.

(** ** The install command and the answer file *)

Lemma split_on_from_nonempty (sep : ascii) (s : string) :
  forall cur, Py.split_on_from sep cur s <> [].
Proof.
  induction s as [| c s IH]; intros cur; cbn [Py.split_on_from]; [discriminate |].
  destruct (Ascii.eqb c sep); [discriminate | apply IH].
Qed.

Lemma last_cons_nonempty {A : Type} (x d : A) (l : list A) :
  l <> [] -> last (x :: l) d = last l d.
Proof. destruct l; [contradiction | reflexivity]. Qed.

Lemma last_split_on_ks_cfg (dir : string) :
  forall cur,
    last (Py.split_on_from "/" cur (dir ++ "/ks.cfg")) ""%string = "ks.cfg"%string.
Proof.
  induction dir as [| c dir IH]; intros cur; [reflexivity |].
  cbn [append Py.split_on_from]. destruct (Ascii.eqb c "/").
  - rewrite last_cons_nonempty by apply split_on_from_nonempty. apply IH.
  - apply IH.
Qed.

(** The base name of a file [ks.cfg] is [ks.cfg], whatever its directory. *)
Lemma basename_ks_cfg (dir : string) :
  Py.basename (Py.path_join dir "ks.cfg") = "ks.cfg".
Proof. apply last_split_on_ks_cfg. Qed.

Lemma _kickstart_keeps_names (E : env) (st : state) :
  connection_uri (self (snd (_kickstart E st))) = connection_uri (self st)
  /\ instance_name (self (snd (_kickstart E st))) = instance_name (self st)
  /\ location (self (snd (_kickstart E st))) = location (self st).
Proof.
  destruct (keeps__kickstart any_event E ltac:(reflexivity) st) as [Hself _].
  rewrite Hself. destruct (self st); repeat split; reflexivity.
Qed.

(** X15: when [_install] finds no domain, has rendered the kickstart and no
    hardware is asked for, it writes the rendered text to [ks.cfg] in the
    working directory and then runs [virt-install] on that very file: the
    file is injected by its full name, the kernel command line names it as
    [file://ks.cfg] whatever the directory, memory 4096 and 4 CPUs are
    fixed; a non-zero exit status is raised as [CalledProcessError]. *)
Theorem install_command_line (E : env) (st st4 : state) (rc0 : Z)
    (cmd0 : list string) (uri name loc text : string) :
  fst (guest_state E st) = Raise (CalledProcessError rc0 cmd0) ->
  connection_uri (self st) = Some uri ->
  instance_name (self st) = Some name ->
  location (self st) = Some loc ->
  hardware_given (self st) = false ->
  _kickstart E (before_kickstart (snd (guest_state E st))) = (Ok text, st4) ->
  let ksfile := Py.path_join (workdir (self st)) "ks.cfg" in
  let argv := virt_install_argv uri name ksfile loc in
  let st6 := record_event (Log Info "progress" "installing..." "cyan")
               (record_event (FileWrite ksfile text) st4) in
  let rc := returncode (env_process E (trace st6) argv) in
  _install E st
  = (if (rc =? 0)%Z then Ok tt else Raise (CalledProcessError rc argv),
     record_event (Run argv) st6).
Proof.
  intros Hgs Huri Hname Hloc Hhw Hks ksfile argv st6 rc.
  pose proof (_install_cases E st) as Hc. cbv zeta in Hc.
  destruct (_kickstart_keeps_names E (before_kickstart (snd (guest_state E st))))
    as [Hu [Hn Hl]].
  rewrite Hgs, Hks in Hc. rewrite Hks in Hu, Hn, Hl.
  cbn [fst snd] in Hc, Hu, Hn, Hl.
  unfold before_kickstart in Hu, Hn, Hl. cbn [self record_event] in Hu, Hn, Hl.
  rewrite (guest_state_self E st) in Hc, Hu, Hn, Hl.
  rewrite Hhw in Hc.
  unfold virt_install_cmd in Hc. cbn [self record_event] in Hc.
  rewrite Hu, Hn, Hl, Huri, Hname, Hloc in Hc.
  cbn [all_strings] in Hc. unfold ks_path in Hc.
  rewrite basename_ks_cfg in Hc.
  exact Hc.
Qed.

Lemma install_command_line_witness :
  let E := Mock.hypervisor Mock.fresh in
  let st := Mock.begin (Mock.named "g1" Mock.handle) in
  let st3 := before_kickstart (snd (guest_state E st)) in
  fst (guest_state E st)
  = Raise (CalledProcessError 1 (domstate_argv "qemu:///system" "g1"))
  /\ fst (_kickstart E st3)
     = Ok (KICKSTART_TEMPLATE (self st) "ssh-ed25519 AAAAC3NzaC1lZDI1NTE5 tmt")
  /\ fst (_install E st) = Ok tt
  /\ count is_file_write (trace (snd (_install E st))) = 1.
Proof.
  intros E st st3.
  assert (Hgs : fst (guest_state E st)
                = Raise (CalledProcessError 1 (domstate_argv "qemu:///system" "g1")))
    by reflexivity.
  assert (Hks : _kickstart E st3
                = (Ok (KICKSTART_TEMPLATE (self st) "ssh-ed25519 AAAAC3NzaC1lZDI1NTE5 tmt"),
                   snd (_kickstart E st3)))
    by (vm_compute; reflexivity).
  split; [exact Hgs |]. split; [rewrite Hks; reflexivity |].
  rewrite (install_command_line E st _ _ _ "qemu:///system" "g1" "http://example/os" _
             Hgs eq_refl eq_refl eq_refl eq_refl Hks).
  split; vm_compute; reflexivity.
Defined.

(** X16: when [_install] finds no domain and the handle has no key, a key
    generation that exits with a non-zero status ends [_install] with that
    [CalledProcessError]: the answer file has been opened and nothing was
    written to it, [virt-install] is not run, and the name of the key file
    stays on the handle. *)
Theorem install_keygen_failure (E : env) (st : state) (rc0 : Z) (cmd0 : list string) :
  fst (guest_state E st) = Raise (CalledProcessError rc0 cmd0) ->
  key (self st) = [] ->
  let key0 := Py.path_join (workdir (self st)) "ssh_key" in
  let st3 := before_kickstart (snd (guest_state E st)) in
  let rc := returncode (env_process E (trace st3) (keygen_argv key0)) in
  rc <> 0%Z ->
  _install E st
  = (Raise (CalledProcessError rc (keygen_argv key0)),
     {| self := set_key [key0] (self st);
        trace := trace st3 ++ [Run (keygen_argv key0)] |})
  /\ count is_file_write (trace (snd (_install E st))) = count is_file_write (trace st)
  /\ count is_install (trace (snd (_install E st))) = count is_install (trace st).
Proof.
  intros Hgs Hkey key0 st3 rc Hrc.
  pose proof (_install_cases E st) as Hc. cbv zeta in Hc.
  rewrite Hgs in Hc.
  assert (Hkey3 : key (self st3) = [])
    by (unfold st3, before_kickstart; cbn [self record_event];
        rewrite (guest_state_self E st); exact Hkey).
  assert (Hself3 : self st3 = self st)
    by (unfold st3, before_kickstart; cbn [self record_event];
        apply guest_state_self).
  assert (Hks : _kickstart E st3
                = (Raise (CalledProcessError rc (keygen_argv key0)),
                   {| self := set_key [key0] (self st);
                      trace := trace st3 ++ [Run (keygen_argv key0)] |})).
  { unfold _kickstart. apply bind_raise.
    rewrite (ssh_pubkey_first E st3 Hkey3). cbv zeta. rewrite Hself3.
    fold key0. fold rc.
    destruct (Z.eqb_spec rc 0) as [Heq | _]; [contradiction | reflexivity]. }
  fold st3 in Hc. rewrite Hks in Hc. cbn [fst snd] in Hc.
  split; [exact Hc |].
  rewrite Hc. cbn [snd trace].
  assert (Htr3 : trace st3
                 = trace (snd (guest_state E st))
                   ++ [Log Verbose "progress" "preparing for installation..." "cyan";
                       FileOpen (ks_path (self (snd (guest_state E st))))])
    by (unfold st3, before_kickstart, record_event; cbn [trace];
        rewrite <- app_assoc; reflexivity).
  assert (Hfw : count is_file_write (trace (snd (guest_state E st)))
                = count is_file_write (trace st)).
  { apply (adds_count is_run is_file_write).
    - intros ev H. destruct ev; try discriminate. reflexivity.
    - apply (adding_guest_state is_run E). reflexivity. }
  split.
  - rewrite Htr3, !count_app, Hfw. cbn. lia.
  - rewrite Htr3, !count_app, (guest_state_no_install E st). cbn. lia.
Qed.

Lemma install_keygen_failure_witness :
  let E := {| env_process := fun _ argv =>
                if is_keygen (Run argv) || is_virsh "domstate" (Run argv)
                then Mock.failed else Mock.ok "";
              env_tmt_name := fun _ => "tmt-001-abcdefgh";
              env_is_ready := fun _ _ => Ok true;
              env_stop := fun _ _ => Ok tt;
              env_reboot := fun _ _ _ _ => Ok true;
              env_reconnect := fun _ _ _ _ => Ok true |} in
  let st := Mock.begin (Mock.named "g1" Mock.handle) in
  fst (guest_state E st)
  = Raise (CalledProcessError 1 (domstate_argv "qemu:///system" "g1"))
  /\ fst (_install E st)
     = Raise (CalledProcessError 1
                (keygen_argv "/var/tmp/tmt/run-001/plan/provision/default-0/ssh_key"))
  /\ count is_file_write (trace (snd (_install E st))) = 0.
Proof.
  intros E st.
  assert (Hgs : fst (guest_state E st)
                = Raise (CalledProcessError 1 (domstate_argv "qemu:///system" "g1")))
    by reflexivity.
  destruct (install_keygen_failure E st _ _ Hgs eq_refl ltac:(vm_compute; discriminate))
    as [Hrun [Hwrite _]].
  split; [exact Hgs |]. split; [rewrite Hrun; reflexivity | exact Hwrite].
Defined.

(** X17: a handle without a location (the default of the data class) cannot
    be installed: when [_install] finds no domain, has rendered the
    kickstart and no hardware is asked for, the [None] in the command list
    is a [TypeError] raised after the answer file was written, and
    [virt-install] is not run. *)
Theorem install_without_location (E : env) (st st4 : state) (rc0 : Z)
    (cmd0 : list string) (text : string) :
  fst (guest_state E st) = Raise (CalledProcessError rc0 cmd0) ->
  location (self st) = None ->
  hardware_given (self st) = false ->
  _kickstart E (before_kickstart (snd (guest_state E st))) = (Ok text, st4) ->
  let ksfile := Py.path_join (workdir (self st)) "ks.cfg" in
  _install E st
  = (Raise TypeError,
     record_event (Log Info "progress" "installing..." "cyan")
       (record_event (FileWrite ksfile text) st4))
  /\ count is_install (trace (snd (_install E st))) = count is_install (trace st).
Proof.
  intros Hgs Hloc Hhw Hks ksfile.
  pose proof (_install_cases E st) as Hc. cbv zeta in Hc.
  pose proof (_kickstart_no_install E (before_kickstart (snd (guest_state E st))))
    as Hcount.
  rewrite before_kickstart_no_install, guest_state_no_install in Hcount.
  destruct (_kickstart_keeps_names E (before_kickstart (snd (guest_state E st))))
    as [_ [_ Hl]].
  rewrite Hgs, Hks in Hc. rewrite Hks in Hl, Hcount. cbn [fst snd] in Hc, Hl, Hcount.
  unfold before_kickstart in Hl. cbn [self record_event] in Hl.
  rewrite (guest_state_self E st) in Hc, Hl.
  rewrite Hhw in Hc.
  unfold virt_install_cmd in Hc. cbn [self record_event] in Hc.
  rewrite Hl, Hloc in Hc.
  assert (Hnone : forall a b,
             all_strings
               [Some "virt-install"; Some "--connect"; a; Some "--name"; b;
                Some "--memory"; Some "4096"; Some "--vcpus"; Some "4";
                Some "--graphics"; Some "none"; Some "--extra-args";
                Some ("console=ttyS0 inst.ks=file://"
                      ++ Py.basename (ks_path (self st)))%string;
                Some "--initrd-inject"; Some (ks_path (self st));
                Some "--noreboot"; Some "--location"; None] = None)
    by (intros [a |] [b |]; reflexivity).
  rewrite Hnone in Hc.
  split; [exact Hc |].
  rewrite Hc. cbn [snd]. rewrite !count_record_event, Hcount. cbn. lia.
Qed.

Lemma install_without_location_witness :
  let E := Mock.hypervisor Mock.fresh in
  let g := {| connection_uri := Some "qemu:///system"; location := None;
              user := Some DEFAULT_USER; instance_name := Some "g1";
              hardware := None; kickstart := []; guest := None; port := None;
              key := []; workdir := "/var/tmp/tmt/run-001/plan/provision/default-0";
              opt_dry := false |} in
  let st := Mock.begin g in
  fst (guest_state E st)
  = Raise (CalledProcessError 1 (domstate_argv "qemu:///system" "g1"))
  /\ fst (_install E st) = Raise TypeError
  /\ count is_install (trace (snd (_install E st))) = 0.
Proof.
  intros E g st.
  assert (Hgs : fst (guest_state E st)
                = Raise (CalledProcessError 1 (domstate_argv "qemu:///system" "g1")))
    by reflexivity.
  assert (Hks : _kickstart E (before_kickstart (snd (guest_state E st)))
                = (Ok (KICKSTART_TEMPLATE g "ssh-ed25519 AAAAC3NzaC1lZDI1NTE5 tmt"),
                   snd (_kickstart E (before_kickstart (snd (guest_state E st))))))
    by (vm_compute; reflexivity).
  destruct (install_without_location E st _ _ _ _ Hgs eq_refl eq_refl Hks)
    as [Hrun Hcount].
  split; [exact Hgs |]. split; [rewrite Hrun; reflexivity | exact Hcount].
Defined.

(** X18: [get_guest_ip] only polls: however it ends, the handle is left as
    it was, every event it adds is an address query or a sleep of one second,
    and it sleeps at most ten times. *)
Theorem get_guest_ip_only_polls (E : env) (st : state) :
  self (snd (get_guest_ip E st)) = self st
  /\ (exists evs,
        trace (snd (get_guest_ip E st)) = trace st ++ evs
        /\ forallb is_address_poll evs = true)
  /\ count is_sleep (trace (snd (get_guest_ip E st))) <= count is_sleep (trace st) + 10
  /\ hypervisor_commands (trace (snd (get_guest_ip E st)))
     = hypervisor_commands (trace st).
Proof.
  pose proof (adding_get_guest_ip_range is_address_poll E 10
                ltac:(reflexivity) ltac:(reflexivity) None st) as [Hself Hevs].
  fold (get_guest_ip E) in Hself, Hevs.
  split; [exact Hself |]. split; [exact Hevs |]. split.
  - assert (Hb : within is_sleep 10 (get_guest_ip E)) by bounded. apply Hb.
  - apply adds_quiet_commands. apply get_guest_ip_quiet.
Qed.

(** X19: on a handle without an instance name no process is started: the
    [None] in the argument list is a [TypeError] that [guest_state],
    [is_ready], [get_guest_ip] and [remove] raise with the trace as it was,
    and that [stop] raises right after the inherited stop. *)
Theorem unnamed_handle_runs_nothing (E : env) (st : state) :
  instance_name (self st) = None ->
  guest_state E st = (Raise TypeError, st)
  /\ is_ready E st = (Raise TypeError, st)
  /\ get_guest_ip E st = (Raise TypeError, st)
  /\ remove E st = (Raise TypeError, st)
  /\ (env_stop E (trace st) (self st) = Ok tt ->
      stop E st = (Raise TypeError, record_event SshStop st)).
Proof.
  intros Hname.
  assert (Hvirsh : forall sub middle,
             _virsh E (Some sub :: middle ++ [None]) st = (Raise TypeError, st)).
  { intros sub middle. unfold _virsh, bind, get_self, subprocess_run.
    assert (Hnone : forall pre, all_strings (pre ++ [None]) = None).
    { induction pre as [| [a |] pre IH]; [reflexivity | | reflexivity].
      cbn [app all_strings]. rewrite IH. reflexivity. }
    change ([Some "virsh"; Some "-c"; connection_uri (self st)]
            ++ Some sub :: middle ++ [None])
      with (([Some "virsh"; Some "-c"; connection_uri (self st); Some sub] ++ middle)
            ++ [None]).
    rewrite Hnone. reflexivity. }
  assert (Hgs : guest_state E st = (Raise TypeError, st)).
  { unfold guest_state. rewrite (bind_ok _ _ _ _ _ (get_self_run st)).
    rewrite Hname. apply bind_raise. apply (Hvirsh "domstate" []). }
  split; [exact Hgs |].
  split; [unfold is_ready; apply (bind_raise _ _ _ _ _ Hgs) |].
  split.
  { unfold get_guest_ip. cbn [get_guest_ip_range]. unfold try_except.
    assert (Htry : get_guest_ip_try E st = (Raise TypeError, st)).
    { unfold get_guest_ip_try. rewrite (bind_ok _ _ _ _ _ (get_self_run st)).
      rewrite Hname. apply bind_raise. apply (Hvirsh "domifaddr" []). }
    rewrite Htry. reflexivity. }
  split; [unfold remove; apply (bind_raise _ _ _ _ _ Hgs) |].
  intros Hstop. unfold stop.
  assert (Hs : super_stop E st = (Ok tt, record_event SshStop st))
    by (unfold super_stop; rewrite Hstop; reflexivity).
  rewrite (bind_ok _ _ _ _ _ Hs).
  rewrite (bind_ok _ _ _ _ _ (get_self_run _)).
  cbn [self record_event]. rewrite Hname. apply bind_raise.
  unfold _virsh, bind, get_self, subprocess_run. cbn [app all_strings].
  destruct (connection_uri (self (record_event SshStop st))); reflexivity.
Qed.

Lemma unnamed_handle_runs_nothing_witness :
  let E := Mock.hypervisor Mock.fresh in
  let st := Mock.begin Mock.handle in
  instance_name (self st) = None
  /\ remove E st = (Raise TypeError, st).
Proof.
  intros E st. split; [reflexivity |].
  destruct (unnamed_handle_runs_nothing E st eq_refl) as [_ [_ [_ [Hremove _]]]].
  exact Hremove.
Defined.

(** X20: [_install] takes only a [CalledProcessError] of the state query as
    "no domain yet": any other error of the query, such as the [IndexError]
    of a query that exits with 0 and prints nothing, is raised as it is,
    and nothing is installed. *)
Theorem install_state_query_error (E : env) (st s1 : state) (e : exn) :
  guest_state E st = (Raise e, s1) ->
  (forall rc cmd, e <> CalledProcessError rc cmd) ->
  _install E st = (Raise e, s1)
  /\ count is_install (trace s1) = count is_install (trace st).
Proof.
  intros Hgs Hne.
  pose proof (_install_cases E st) as Hc. cbv zeta in Hc.
  pose proof (guest_state_no_install E st) as Hcount.
  rewrite Hgs in Hc, Hcount. cbn [fst snd] in Hc, Hcount.
  split; [| exact Hcount].
  destruct e; try exact Hc.
  exfalso. apply (Hne returncode0 cmd). reflexivity.
Qed.

Lemma install_state_query_error_witness :
  let st := Mock.begin (Mock.named "g1" Mock.handle) in
  guest_state silent st
  = (Raise IndexError, record_event (Run (domstate_argv "qemu:///system" "g1")) st)
  /\ fst (_install silent st) = Raise IndexError.
Proof.
  intros st.
  assert (Hgs : guest_state silent st
                = (Raise IndexError,
                   record_event (Run (domstate_argv "qemu:///system" "g1")) st))
    by reflexivity.
  split; [exact Hgs |].
  destruct (install_state_query_error silent st _ _ Hgs ltac:(discriminate))
    as [Hrun _].
  rewrite Hrun. reflexivity.
Defined.

(** ** The address [start] stores *)

(** C6: the address [get_guest_ip] resolves is the final white-space
    delimited field of the last-but-one line of the query output, cut at its
    first slash; a last-but-one line that ends in the field "192.0.2.5/24"
    gives "192.0.2.5"; and a [start] that gets as far as the address query
    stores in the handle the very address [get_guest_ip] resolved there,
    with port 22: in particular, when the first poll answers, the address
    parsed from that answer. *)
Theorem resolved_address_is_last_field :
  (forall out, parse_domifaddr out = spec_resolved_address out)
  /\ (forall E st uri name,
        connection_uri (self st) = Some uri ->
        instance_name (self st) = Some name ->
        returncode (addr_at E uri name (trace st)) = 0%Z ->
        fst (get_guest_ip E st)
        = match spec_resolved_address (stdout (addr_at E uri name (trace st))) with
          | Some address => Ok address
          | None => Raise IndexError
          end)
  /\ (forall out lines line last,
        Py.splitlines out = lines ++ [line; last] ->
        (line = "192.0.2.5/24"
         \/ exists before c,
              Py.isspace c = true
              /\ line = (before ++ String c "192.0.2.5/24")%string) ->
        parse_domifaddr out = Some "192.0.2.5")
  /\ (forall E st s1 s s2 s3 ip s4,
        opt_dry (self st) = false ->
        _install E (start_prelude E st) = (Ok tt, s1) ->
        guest_state E s1 = (Ok s, s2) ->
        start_if_not_running E s s2 = (Ok tt, s3) ->
        get_guest_ip E s3 = (Ok ip, s4) ->
        guest (self (snd (start E st))) = Some ip
        /\ port (self (snd (start E st))) = Some 22%Z)
  /\ (forall E st s1 s s2 s3 uri name address,
        opt_dry (self st) = false ->
        _install E (start_prelude E st) = (Ok tt, s1) ->
        guest_state E s1 = (Ok s, s2) ->
        start_if_not_running E s s2 = (Ok tt, s3) ->
        connection_uri (self s3) = Some uri ->
        instance_name (self s3) = Some name ->
        returncode (addr_at E uri name (trace s3)) = 0%Z ->
        spec_resolved_address (stdout (addr_at E uri name (trace s3)))
        = Some address ->
        guest (self (snd (start E st))) = Some address
        /\ port (self (snd (start E st))) = Some 22%Z).
Proof.
  assert (Hget : forall E st uri name,
            connection_uri (self st) = Some uri ->
            instance_name (self st) = Some name ->
            returncode (addr_at E uri name (trace st)) = 0%Z ->
            fst (get_guest_ip E st)
            = match spec_resolved_address
                      (stdout (addr_at E uri name (trace st))) with
              | Some address => Ok address
              | None => Raise IndexError
              end).
  { intros E st uri name Huri Hname Hok.
    unfold get_guest_ip.
    rewrite (get_guest_ip_range_decided E uri name 0 10 st None Huri Hname
               ltac:(lia)).
    + cbn [fst rounds]. rewrite app_nil_r, parse_domifaddr_refines. reflexivity.
    + intros j Hj. lia.
    + cbn [rounds]. rewrite app_nil_r. exact Hok. }
  assert (Hstart : forall E st s1 s s2 s3 ip s4,
            opt_dry (self st) = false ->
            _install E (start_prelude E st) = (Ok tt, s1) ->
            guest_state E s1 = (Ok s, s2) ->
            start_if_not_running E s s2 = (Ok tt, s3) ->
            get_guest_ip E s3 = (Ok ip, s4) ->
            guest (self (snd (start E st))) = Some ip
            /\ port (self (snd (start E st))) = Some 22%Z).
  { intros E st s1 s s2 s3 ip s4 Hdry Hinst Hstate Hboot Hip.
    pose proof (start_cases E st Hdry) as Hc. cbv zeta in Hc.
    rewrite Hinst in Hc. cbn [fst snd] in Hc.
    rewrite Hstate in Hc. cbn [fst snd] in Hc.
    rewrite Hboot in Hc. cbn [fst snd] in Hc.
    rewrite Hip in Hc. cbn [fst snd] in Hc.
    rewrite Hc. cbn [snd]. unfold start_connected. cbn [self].
    destruct (self s4). split; reflexivity. }
  split; [exact parse_domifaddr_refines |].
  split; [exact Hget |].
  split; [| split; [exact Hstart |]].
  - intros out lines line last Hlines Hline.
    rewrite parse_domifaddr_refines. unfold spec_resolved_address.
    rewrite Hlines, spec_last_but_one_snoc.
    destruct Hline as [-> | [before [c [Hc ->]]]]; [reflexivity |].
    unfold Py.split.
    rewrite (split_from_last_field before c "192.0.2.5/24" Hc eq_refl
               ltac:(discriminate)).
    rewrite spec_final_snoc. reflexivity.
  - intros E st s1 s s2 s3 uri name address
           Hdry Hinst Hstate Hboot Huri Hname Hok Haddr.
    pose proof (Hget E s3 uri name Huri Hname Hok) as Hres.
    rewrite Haddr in Hres.
    destruct (get_guest_ip E s3) as [r s4] eqn:Hip. cbn [fst] in Hres.
    subst r.
    exact (Hstart E st s1 s s2 s3 address s4 Hdry Hinst Hstate Hboot Hip).
Qed.

Lemma resolved_address_is_last_field_witness :
  let E := Mock.hypervisor Mock.fresh in
  let st := Mock.begin Mock.handle in
  let s1 := snd (_install E (start_prelude E st)) in
  let s2 := snd (guest_state E s1) in
  let s3 := snd (start_if_not_running E "shut off" s2) in
  let s4 := snd (get_guest_ip E s3) in
  let uri := "qemu:///system" in
  let name := "tmt-001-abcdefgh" in
  let out := Mock.domifaddr_table "192.0.2.5/24" in
  _install E (start_prelude E st) = (Ok tt, s1)
  /\ guest_state E s1 = (Ok "shut off", s2)
  /\ start_if_not_running E "shut off" s2 = (Ok tt, s3)
  /\ get_guest_ip E s3 = (Ok "192.0.2.5", s4)
  /\ addr_at E uri name (trace s3) = Mock.ok out
  /\ Py.splitlines out
     = [ " Name       MAC address          Protocol     Address";
         "-------------------------------------------------------------------------------" ]
       ++ [ (" vnet0      52:54:00:8b:6f:4d    ipv4        "
             ++ String " " "192.0.2.5/24")%string; "" ]
  /\ parse_domifaddr out = Some "192.0.2.5"
  /\ fst (get_guest_ip E s3) = Ok "192.0.2.5"
  /\ fst (start E st) = Ok tt
  /\ guest (self (snd (start E st))) = Some "192.0.2.5"
  /\ port (self (snd (start E st))) = Some 22%Z.
Proof.
  intros E st s1 s2 s3 s4 uri name out.
  assert (Hinst : _install E (start_prelude E st) = (Ok tt, s1))
    by (vm_compute; reflexivity).
  assert (Hstate : guest_state E s1 = (Ok "shut off", s2))
    by (vm_compute; reflexivity).
  assert (Hboot : start_if_not_running E "shut off" s2 = (Ok tt, s3))
    by (vm_compute; reflexivity).
  assert (Hip : get_guest_ip E s3 = (Ok "192.0.2.5", s4))
    by (vm_compute; reflexivity).
  assert (Hout : addr_at E uri name (trace s3) = Mock.ok out)
    by (vm_compute; reflexivity).
  assert (Hlines : Py.splitlines out
     = [ " Name       MAC address          Protocol     Address";
         "-------------------------------------------------------------------------------" ]
       ++ [ (" vnet0      52:54:00:8b:6f:4d    ipv4        "
             ++ String " " "192.0.2.5/24")%string; "" ])
    by (vm_compute; reflexivity).
  destruct resolved_address_is_last_field
    as [Hparse [Hget [Hends [Hstart Hfirst]]]].
  assert (Hfield : parse_domifaddr out = Some "192.0.2.5").
  { apply (Hends out _ _ _ Hlines). right.
    exists " vnet0      52:54:00:8b:6f:4d    ipv4        ", " "%char.
    split; reflexivity. }
  assert (Hok : returncode (addr_at E uri name (trace s3)) = 0%Z)
    by (rewrite Hout; reflexivity).
  assert (Haddr : spec_resolved_address (stdout (addr_at E uri name (trace s3)))
                  = Some "192.0.2.5").
  { rewrite Hout. cbn [stdout Mock.ok]. rewrite <- Hparse. exact Hfield. }
  split; [exact Hinst |]. split; [exact Hstate |]. split; [exact Hboot |].
  split; [exact Hip |]. split; [exact Hout |]. split; [exact Hlines |].
  split; [exact Hfield |].
  split.
  { rewrite (Hget E s3 uri name ltac:(vm_compute; reflexivity)
               ltac:(vm_compute; reflexivity) Hok).
    rewrite Haddr. reflexivity. }
  split; [vm_compute; reflexivity |].
  destruct (Hstart E st s1 "shut off"%string s2 s3 "192.0.2.5"%string s4
              eq_refl Hinst Hstate Hboot Hip) as [Hguest Hport].
  destruct (Hfirst E st s1 "shut off"%string s2 s3 uri name "192.0.2.5"%string
              eq_refl Hinst Hstate Hboot ltac:(vm_compute; reflexivity)
              ltac:(vm_compute; reflexivity) Hok Haddr) as [Hguest' Hport'].
  split; [exact Hguest' | exact Hport].
Defined.
